(** * Reolink API client: normalisation layer, PTZ write validation and
      request engine

    A shallow embedding of the parts of the TypeScript SDK that the
    properties below talk about:

    - [types.ts]   : [ReolinkError], [ReolinkResponse], [ReolinkHttpError];
    - [presets.ts] : [normalizeMdScope], [buildScope], [normalizeAiArea] and
                     the [PresetsModule] methods [listPresets], [gotoPreset],
                     [setPatrol], [setPattern];
    - [ptz.ts]     : [ptzCtrl], [handlePtzError], [setPtzGuard],
                     [setPtzPatrol];
    - the request engine of [reolink.ts], whose source is not available and
      which is modelled from the design document.

    Conventions.  JavaScript numbers are restricted to integers and modelled
    by [Z]; arithmetic and comparisons are exact on that domain.  A value
    decoded from a device reply is a [JS.value]; objects are association
    lists in [Object.keys] order with pairwise distinct keys. *)

From Stdlib Require Import ZArith String Ascii List Bool Lia DecimalString.

Set Warnings "-register-all".
Import ListNotations.

Open Scope string_scope.
Open Scope Z_scope.
Open Scope list_scope.

(** String concatenation (template literals and [+] on strings). *)
Notation "s +++ t" := (String.append s t) (at level 60, right associativity).

(** Decimal rendering of an integer, as a template literal prints it. *)
Definition Zstr (z : Z) : string := NilZero.string_of_int (Z.to_int z).

(* ================================================================== *)
(** ** JavaScript values and the operators the sources apply to them *)
(* ================================================================== *)

Module JS.

Inductive value : Type :=
| VUndefined
| VNull
| VBool (b : bool)
| VNum (n : Z)
| VStr (s : string)
| VArr (items : list value)
| VObj (props : list (string * value)).

Definition object : Type := list (string * value).

(** Result of [typeof]. *)
Inductive jstype := TUndefined | TObject | TBoolean | TNumber | TString.

Definition typeof (v : value) : jstype :=
  match v with
  | VUndefined => TUndefined
  | VNull => TObject
  | VBool _ => TBoolean
  | VNum _ => TNumber
  | VStr _ => TString
  | VArr _ => TObject
  | VObj _ => TObject
  end.

Definition jstype_eqb (a b : jstype) : bool :=
  match a, b with
  | TUndefined, TUndefined | TObject, TObject | TBoolean, TBoolean
  | TNumber, TNumber | TString, TString => true
  | _, _ => false
  end.

Fixpoint lookup (k : string) (o : object) : option value :=
  match o with
  | [] => None
  | (k', v) :: rest => if String.eqb k k' then Some v else lookup k rest
  end.

(** [o.k] on an object: the own property or [undefined]. *)
Definition prop (o : object) (k : string) : value :=
  match lookup k o with
  | Some v => v
  | None => VUndefined
  end.

(** [v?.k] for a key that is neither an array index nor [length]: only
    objects carry such a property. *)
Definition get (v : value) (k : string) : value :=
  match v with
  | VObj o => prop o k
  | _ => VUndefined
  end.

(** [k in o] on an object. *)
Definition has (k : string) (o : object) : bool :=
  match lookup k o with
  | Some _ => true
  | None => false
  end.

(** [k in v] where [v] has passed [typeof v === 'object' && v !== null];
    an array owns no such key. *)
Definition has_key (k : string) (v : value) : bool :=
  match v with
  | VObj o => has k o
  | _ => false
  end.

(** ToBoolean. *)
Definition truthy (v : value) : bool :=
  match v with
  | VUndefined | VNull => false
  | VBool b => b
  | VNum n => negb (n =? 0)
  | VStr s => negb (String.eqb s "")
  | VArr _ | VObj _ => true
  end.

(** [v == null]. *)
Definition nullish (v : value) : bool :=
  match v with
  | VUndefined | VNull => true
  | _ => false
  end.

(** [a ?? b]. *)
Definition coalesce (a b : value) : value :=
  if nullish a then b else a.

Definition isArray (v : value) : bool :=
  match v with
  | VArr _ => true
  | _ => false
  end.

(** [v === n] for a number literal [n]; [v === true]. *)
Definition is_num (v : value) (n : Z) : bool :=
  match v with
  | VNum m => m =? n
  | _ => false
  end.

Definition is_true (v : value) : bool :=
  match v with
  | VBool b => b
  | _ => false
  end.

(** [o[k] = v]: overwrite in place or append. *)
Fixpoint set (k : string) (v : value) (o : object) : object :=
  match o with
  | [] => [(k, v)]
  | (k', v') :: rest =>
      if String.eqb k k' then (k, v) :: rest else (k', v') :: set k v rest
  end.

(** [{ ...base, ...extra }]. *)
Definition spread (base extra : object) : object :=
  fold_left (fun acc kv => set (fst kv) (snd kv) acc) extra base.

(** [a?.f] and [a ?? b] on optional typed fields; [None] stands for a
    missing ([undefined]) or [null] field, which the operators used on
    such fields ([?.], [??], [!], [typeof x !== "string"]) cannot tell
    apart. *)
Definition chain {A B : Type} (a : option A) (f : A -> option B) : option B :=
  match a with
  | Some x => f x
  | None => None
  end.

Definition orElse {A : Type} (a b : option A) : option A :=
  match a with
  | Some _ => a
  | None => b
  end.

End JS.

Import JS.

(* ================================================================== *)
(** ** types.ts *)
(* ================================================================== *)

Module ReolinkError.
Record t := mk { rspCode : Z; detail : string }.
End ReolinkError.

(** [ReolinkResponse<T>]: the success arm carries [value], the error arm
    [code] and [error]. *)
Inductive ReolinkResponse :=
| ResponseSuccess (value : JS.value)
| ResponseError (code : Z) (error : ReolinkError.t).

Module ReolinkHttpError.
Record t := mk {
  message : string;
  name : string;
  code : Z;
  rspCode : Z;
  detail : string
}.

(** [new ReolinkHttpError(code, rspCode, detail, command?)]. An empty
    command is falsy, so it takes the branch of a missing one. *)
Definition new (code rspCode : Z) (detail : string) (command : option string) : t :=
  let message :=
    match command with
    | Some c =>
        if String.eqb c "" then detail +++ " (" +++ Zstr rspCode +++ ")"
        else c +++ " ERROR: " +++ detail +++ " (" +++ Zstr rspCode +++ ")"
    | None => detail +++ " (" +++ Zstr rspCode +++ ")"
    end in
  mk message "ReolinkHttpError" code rspCode detail.
End ReolinkHttpError.

(** Thrown values: a plain [Error] (possibly carrying an own [rspCode]
    property), a [ReolinkHttpError], or the [TypeError] of a property read
    on [null] / [undefined]. *)
Inductive exn :=
| Error (message : string)
| ErrorWithRspCode (message : string) (rspCode : Z)
| HttpError (e : ReolinkHttpError.t)
| TypeError.

Inductive result (A : Type) :=
| Ok (a : A)
| Throw (e : exn).
Arguments Ok {A} a.
Arguments Throw {A} e.

(* ================================================================== *)
(** ** presets.ts: detection-zone grids *)
(* ================================================================== *)

Module GridArea.
Record t := mk { width : Z; height : Z; bits : string }.
End GridArea.

(** [MdScopePayload] and [AiAreaPayload] declare the same seven optional
    fields; one record serves both. *)
Module ScopePayload.
Record t := mk {
  cols : option Z;
  width : option Z;
  rows : option Z;
  height : option Z;
  table : option string;
  area : option string;
  bits : option string
}.
End ScopePayload.

Definition strlen (s : string) : Z := Z.of_nat (String.length s).

(** The three constants of [normalizeMdScope]:
    [scope?.cols ?? scope?.width], [scope?.rows ?? scope?.height],
    [scope?.table ?? scope?.area ?? scope?.bits]. *)
Module Md.
Definition width (scope : option ScopePayload.t) : option Z :=
  orElse (chain scope ScopePayload.cols) (chain scope ScopePayload.width).
Definition height (scope : option ScopePayload.t) : option Z :=
  orElse (chain scope ScopePayload.rows) (chain scope ScopePayload.height).
Definition table (scope : option ScopePayload.t) : option string :=
  orElse (chain scope ScopePayload.table)
    (orElse (chain scope ScopePayload.area) (chain scope ScopePayload.bits)).
End Md.

(** [!width || !height || typeof table !== "string"] holds when a
    dimension is missing or 0, or the table is missing; then comes the
    length test. *)
Definition normalizeMdScope (scope : option ScopePayload.t) : result GridArea.t :=
  match Md.width scope, Md.height scope, Md.table scope with
  | Some width, Some height, Some table =>
      if (width =? 0) || (height =? 0) then
        Throw (Error "Invalid motion detection scope received from device")
      else if negb (strlen table =? width * height) then
        Throw (Error "Motion detection scope size mismatch")
      else Ok (GridArea.mk width height table)
  | _, _, _ => Throw (Error "Invalid motion detection scope received from device")
  end.

Definition buildScope (area : GridArea.t) : result JS.object :=
  if negb (strlen (GridArea.bits area) =? GridArea.width area * GridArea.height area) then
    Throw (Error "Grid area bitstring size mismatch")
  else
    Ok [ ("width", VNum (GridArea.width area));
         ("height", VNum (GridArea.height area));
         ("cols", VNum (GridArea.width area));
         ("rows", VNum (GridArea.height area));
         ("table", VStr (GridArea.bits area)) ].

(** The three constants of [normalizeAiArea]:
    [payload?.width ?? payload?.cols], [payload?.height ?? payload?.rows],
    [payload?.area ?? payload?.table ?? payload?.bits]. *)
Module Ai.
Definition width (payload : option ScopePayload.t) : option Z :=
  orElse (chain payload ScopePayload.width) (chain payload ScopePayload.cols).
Definition height (payload : option ScopePayload.t) : option Z :=
  orElse (chain payload ScopePayload.height) (chain payload ScopePayload.rows).
Definition bits (payload : option ScopePayload.t) : option string :=
  orElse (chain payload ScopePayload.area)
    (orElse (chain payload ScopePayload.table) (chain payload ScopePayload.bits)).
End Ai.

Definition normalizeAiArea (payload : option ScopePayload.t) : result GridArea.t :=
  match Ai.width payload, Ai.height payload, Ai.bits payload with
  | Some width, Some height, Some bits =>
      if (width =? 0) || (height =? 0) then
        Throw (Error "Invalid AI detection area received from device")
      else if negb (strlen bits =? width * height) then
        Throw (Error "AI detection area size mismatch")
      else Ok (GridArea.mk width height bits)
  | _, _, _ => Throw (Error "Invalid AI detection area received from device")
  end.

(* ================================================================== *)
(** ** The client seen from the feature modules *)
(* ================================================================== *)

(** [client.request(cmd, param, action?)] / [client.api(cmd, param)]. *)
Record call := Call { cmd : string; param : JS.value; action : option Z }.

(** Outcome of awaiting the client: the promise resolves with a response of
    the type the caller instantiates [api<T>] with, or rejects. *)
Inductive ApiResult (T : Type) :=
| Resolves (response : T)
| Rejects (e : exn).
Arguments Resolves {T} response.
Arguments Rejects {T} e.

Definition Client (T : Type) : Type := call -> ApiResult T.

(** What a method does that the outside can observe: exchanges with the
    device through the client, and timer waits. *)
Inductive event :=
| Exchange (c : call)
| Delay (ms : Z).

(** A run of an async method: the events in program order and the value
    the promise settles with. *)
Definition run (A : Type) : Type := (list event * result A)%type.

(* ================================================================== *)
(** ** presets.ts: PresetsModule.listPresets *)
(* ================================================================== *)

(** The ECMAScript conversions [Number(v)], [String(v)] and the rendering
    of a number inside a template literal.  They are library functions of
    the language, not code of the SDK, and stay abstract; [IntBuiltins]
    below is the instance used to evaluate examples. *)
Class Builtins := {
  number : Type;
  Number : JS.value -> number;
  String : JS.value -> string;
  NumberToString : number -> string
}.

Module PtzPreset.
Record t {B : Builtins} := mk {
  id : number;
  name : string;
  enable : bool;
  channel : number
}.
Arguments t {B}.
Arguments mk {B} id name enable channel.
End PtzPreset.

Definition items (v : JS.value) : list JS.value :=
  match v with
  | VArr l => l
  | _ => []
  end.

(** [value[0]]. *)
Definition first (v : JS.value) : JS.value :=
  match items v with
  | x :: _ => x
  | [] => VUndefined
  end.

(** [a || b] on values. *)
Definition orValue (a b : JS.value) : JS.value :=
  if truthy a then a else b.

Definition isObjectType (v : JS.value) : bool := jstype_eqb (typeof v) TObject.

(** Fallback scan of [listPresets], one loop iteration on [response[key]]:
    [Some r] when the iteration assigns [rawPresets = r] and breaks. *)
Definition scanValue (value : JS.value) : option JS.value :=
  if isArray value && (0 <? Z.of_nat (length (items value)))
     && (truthy (first value) && isObjectType (first value)
         && (has_key "id" (first value) || has_key "ID" (first value)))
  then Some value
  else if truthy value && isObjectType value && negb (isArray value) then
    if has_key "preset" value && isArray (get value "preset") then
      Some (get value "preset")
    else if has_key "Preset" value && isArray (get value "Preset") then
      Some (get value "Preset")
    else None
  else None.

(** [for (const key of Object.keys(response))], keys being distinct. *)
Fixpoint scanKeys (entries : JS.object) : JS.value :=
  match entries with
  | [] => VNull
  | (_, value) :: rest =>
      match scanValue value with
      | Some r => r
      | None => scanKeys rest
      end
  end.

(** The [if / else if] chain that selects [rawPresets]. *)
Definition findRawPresets (response : JS.value) : JS.value :=
  if truthy (get response "PtzPreset") && isObjectType (get response "PtzPreset")
     && negb (isArray (get response "PtzPreset")) then
    if truthy (get (get response "PtzPreset") "preset")
    then get (get response "PtzPreset") "preset"
    else VNull
  else if isArray (get response "PtzPreset") then get response "PtzPreset"
  else if truthy (get response "preset") then
    if isArray (get response "preset") then get response "preset"
    else VArr [get response "preset"]
  else if truthy (get response "Presets") then
    if isArray (get response "Presets") then get response "Presets"
    else VArr [get response "Presets"]
  else if isArray response then response
  else if truthy response && isObjectType response then
    match response with
    | VObj entries => scanKeys entries
    | _ => VNull
    end
  else VNull.

(** [if (!rawPresets || !Array.isArray(rawPresets)) rawPresets = []]. *)
Definition rawPresetList (rawPresets : JS.value) : list JS.value :=
  if negb (truthy rawPresets) || negb (isArray rawPresets) then []
  else items rawPresets.

(** The [filter] callback. *)
Definition keepPreset (preset : JS.value) : bool :=
  negb (nullish preset)
  && (negb (nullish (get preset "id")) || negb (nullish (get preset "ID"))).

Section Normalise.
Context {B : Builtins}.

(** The [map] callback. *)
Definition toPtzPreset (channel : Z) (preset : JS.value) : PtzPreset.t :=
  let id := Number (coalesce (get preset "id") (coalesce (get preset "ID") (VNum 0))) in
  let name :=
    String (coalesce (get preset "name")
              (coalesce (get preset "Name") (VStr ("Preset " +++ NumberToString id)))) in
  let enable :=
    if negb (nullish (get preset "enable"))
    then is_num (get preset "enable") 1 || is_true (get preset "enable")
    else true in
  let presetChannel :=
    Number (coalesce (get preset "channel") (coalesce (get preset "Channel") (VNum channel))) in
  PtzPreset.mk id name enable presetChannel.

Definition mapPresets (channel : Z) (rawPresets : list JS.value) : list PtzPreset.t :=
  map (toPtzPreset channel) (filter keepPreset rawPresets).

(** The body of [listPresets] once the response has arrived. *)
Definition normalizePresets (channel : Z) (response : JS.value) : list PtzPreset.t :=
  if negb (truthy response) then []
  else mapPresets channel (rawPresetList (findRawPresets response)).

Definition listPresets (client : Client JS.value) (channel : Z) : run (list PtzPreset.t) :=
  let c := Call "GetPtzPreset" (VObj [("channel", VNum channel)]) (Some 1) in
  match client c with
  | Resolves response => ([Exchange c], Ok (normalizePresets channel response))
  | Rejects e => ([Exchange c], Throw e)
  end.

End Normalise.

(** Reference instance for evaluating examples: numbers are integers or
    NaN ([None]); [Number] is exact on undefined, null, booleans and
    numbers and answers NaN elsewhere; [String] follows ToString, arrays
    being joined with commas. *)
Fixpoint toString (v : JS.value) : string :=
  match v with
  | VUndefined => "undefined"
  | VNull => "null"
  | VBool true => "true"
  | VBool false => "false"
  | VNum n => Zstr n
  | VStr s => s
  | VArr l =>
      (fix join (l : list JS.value) : string :=
         match l with
         | [] => ""
         | [x] => if nullish x then "" else toString x
         | x :: rest => (if nullish x then "" else toString x) +++ "," +++ join rest
         end) l
  | VObj _ => "[object Object]"
  end.

#[export] Instance IntBuiltins : Builtins := {
  number := option Z;
  Number v :=
    match v with
    | VNum n => Some n
    | VBool true => Some 1
    | VBool false => Some 0
    | VNull => Some 0
    | _ => None
    end;
  String := toString;
  NumberToString n :=
    match n with
    | Some z => Zstr z
    | None => "NaN"
    end
}.

(* ================================================================== *)
(** ** presets.ts: PresetsModule write operations *)
(* ================================================================== *)

Module PtzMoveOptions.
Record t := mk { speed : option Z; settleMs : option Z }.
End PtzMoveOptions.

Definition DEFAULT_SETTLE_MS : Z := 400.

(** Await the client on one request and settle with its outcome. *)
Definition send {T : Type} (client : Client T) (c : call) : run unit :=
  match client c with
  | Resolves _ => ([Exchange c], Ok tt)
  | Rejects e => ([Exchange c], Throw e)
  end.

Definition gotoPreset {T : Type} (client : Client T) (channel id : Z)
    (opts : PtzMoveOptions.t) : run unit :=
  if (id <? 0) || (id >? 64) then
    ([], Throw (Error ("Preset ID must be between 0 and 64, got: " +++ Zstr id)))
  else
    let speed :=
      match PtzMoveOptions.speed opts with
      | Some s => Z.max 1 (Z.min 64 s)
      | None => 32
      end in
    let settleMs :=
      match PtzMoveOptions.settleMs opts with
      | Some ms => ms
      | None => DEFAULT_SETTLE_MS
      end in
    let c := Call "PtzCtrl"
               (VObj [("channel", VNum channel); ("op", VStr "ToPos");
                      ("id", VNum id); ("speed", VNum speed)]) None in
    match client c with
    | Resolves _ =>
        if 0 <? settleMs then ([Exchange c; Delay settleMs], Ok tt)
        else ([Exchange c], Ok tt)
    | Rejects e => ([Exchange c], Throw e)
    end.

(** [typeof v === 'number' && (v < lo || v > hi)], with the offending
    number. *)
Definition outside (v : JS.value) (lo hi : Z) : option Z :=
  match v with
  | VNum n => if (n <? lo) || (n >? hi) then Some n else None
  | _ => None
  end.

Definition is_null (v : JS.value) : bool :=
  match v with
  | VNull => true
  | _ => false
  end.

(** [forEach] with a callback that may throw: the first exception ends
    the iteration. *)
Fixpoint forEach (check : JS.value -> nat -> option exn) (l : list JS.value)
    (index : nat) : option exn :=
  match l with
  | [] => None
  | x :: rest =>
      match check x index with
      | Some e => Some e
      | None => forEach check rest (S index)
      end
  end.

Definition idx (index : nat) : string := Zstr (Z.of_nat index).

(** Callback of [setPatrol] on [payload.preset]. *)
Definition checkPatrolStep (step : JS.value) (index : nat) : option exn :=
  if isObjectType step && negb (is_null step) then
    match outside (get step "id") 0 64 with
    | Some n =>
        Some (Error ("Patrol step " +++ idx index
                     +++ ": preset ID must be between 0 and 64, got: " +++ Zstr n))
    | None =>
        match outside (get step "speed") 1 64 with
        | Some n =>
            Some (Error ("Patrol step " +++ idx index
                         +++ ": speed must be between 1 and 64, got: " +++ Zstr n))
        | None => None
        end
    end
  else None.

Definition setPatrol {T : Type} (client : Client T) (channel : Z)
    (payload : JS.object) : run unit :=
  match outside (prop payload "id") 0 5 with
  | Some n => ([], Throw (Error ("Patrol ID must be between 0 and 5, got: " +++ Zstr n)))
  | None =>
      let request :=
        send client
          (Call "SetPtzPatrol"
             (VObj [("PtzPatrol", VObj (spread [("channel", VNum channel)] payload))])
             None) in
      if isArray (prop payload "preset") then
        if 16 <? Z.of_nat (length (items (prop payload "preset"))) then
          ([], Throw (Error ("Patrol can have at most 16 preset steps, got: "
                             +++ idx (length (items (prop payload "preset"))))))
        else
          match forEach checkPatrolStep (items (prop payload "preset")) 0 with
          | Some e => ([], Throw e)
          | None => request
          end
      else request
  end.

(** Callback of [setPattern] on [payload.track]. *)
Definition checkTrack (track : JS.value) (index : nat) : option exn :=
  if isObjectType track && negb (is_null track) then
    match outside (get track "id") 1 6 with
    | Some n =>
        Some (Error ("Track " +++ idx index
                     +++ ": track ID must be between 1 and 6, got: " +++ Zstr n))
    | None => None
    end
  else None.

Definition setPattern {T : Type} (client : Client T) (channel : Z)
    (payload : JS.object) : run unit :=
  let request := send client (Call "SetPtzTattern" (VObj payload) None) in
  if isArray (prop payload "track") then
    match forEach checkTrack (items (prop payload "track")) 0 with
    | Some e => ([], Throw e)
    | None => request
    end
  else request.

(* ================================================================== *)
(** ** ptz.ts *)
(* ================================================================== *)

Inductive PtzOp :=
| ToPos | Stop | Left | Right | Up | Down | LeftUp | LeftDown | RightUp
| RightDown | ZoomInc | ZoomDec | FocusInc | FocusDec | IrisDec | IrisInc
| Auto | StartPatrol | StopPatrol.

Definition opName (op : PtzOp) : string :=
  match op with
  | ToPos => "ToPos" | Stop => "Stop" | Left => "Left" | Right => "Right"
  | Up => "Up" | Down => "Down" | LeftUp => "LeftUp" | LeftDown => "LeftDown"
  | RightUp => "RightUp" | RightDown => "RightDown" | ZoomInc => "ZoomInc"
  | ZoomDec => "ZoomDec" | FocusInc => "FocusInc" | FocusDec => "FocusDec"
  | IrisDec => "IrisDec" | IrisInc => "IrisInc" | Auto => "Auto"
  | StartPatrol => "StartPatrol" | StopPatrol => "StopPatrol"
  end.

Definition isToPos (op : PtzOp) : bool :=
  match op with ToPos => true | _ => false end.

Definition isPatrolOp (op : PtzOp) : bool :=
  match op with StartPatrol | StopPatrol => true | _ => false end.

Module PtzCtrlParams.
Record t := mk {
  channel : Z;
  op : PtzOp;
  speed : option Z;
  id : option Z;
  x : option Z;
  y : option Z;
  z : option Z
}.
End PtzCtrlParams.

(** [if (v !== undefined) o.k = v]. *)
Definition addIf (k : string) (v : option Z) (o : JS.object) : JS.object :=
  match v with
  | Some n => JS.set k (VNum n) o
  | None => o
  end.

Definition outsideOpt (v : option Z) (lo hi : Z) : option Z :=
  match v with
  | Some n => if (n <? lo) || (n >? hi) then Some n else None
  | None => None
  end.

Definition ptzCtrl {T : Type} (client : Client T) (params : PtzCtrlParams.t)
    : run T :=
  let op := PtzCtrlParams.op params in
  let id := PtzCtrlParams.id params in
  match outsideOpt (PtzCtrlParams.speed params) 1 64 with
  | Some n => ([], Throw (Error ("PTZ speed must be between 1 and 64, got: " +++ Zstr n)))
  | None =>
  match (if isToPos op then outsideOpt id 0 64 else None) with
  | Some n => ([], Throw (Error ("Preset ID must be between 0 and 64, got: " +++ Zstr n)))
  | None =>
  match (if isPatrolOp op then outsideOpt id 0 5 else None) with
  | Some n => ([], Throw (Error ("Patrol ID must be between 0 and 5, got: " +++ Zstr n)))
  | None =>
      let apiParams0 :=
        [("channel", VNum (PtzCtrlParams.channel params)); ("op", VStr (opName op))] in
      let apiParams1 := addIf "speed" (PtzCtrlParams.speed params) apiParams0 in
      let apiParams2 :=
        if isToPos op || isPatrolOp op then addIf "id" id apiParams1 else apiParams1 in
      let apiParams3 :=
        if isToPos op then
          match PtzCtrlParams.x params, PtzCtrlParams.y params with
          | Some x, Some y =>
              addIf "z" (PtzCtrlParams.z params)
                (JS.set "y" (VNum y) (JS.set "x" (VNum x) apiParams2))
          | _, _ => apiParams2
          end
        else apiParams2 in
      let c := Call "PtzCtrl" (VObj apiParams3) None in
      match client c with
      | Resolves response => ([Exchange c], Ok response)
      | Rejects e => ([Exchange c], Throw e)
      end
  end end end.

(** [handlePtzError(rspCode, command): never]: the exception it throws. *)
Definition handlePtzError (rspCode : Z) (command : string) : exn :=
  if rspCode =? 0 then
    Error "handlePtzError called with success code (0) - this should not happen"
  else if rspCode =? -1 then
    HttpError (ReolinkHttpError.new 1 (-1) "Invalid preset or position" (Some command))
  else if rspCode =? -4 then
    HttpError (ReolinkHttpError.new 1 (-4) "Parameter format error" (Some command))
  else if rspCode =? -9 then
    HttpError (ReolinkHttpError.new 1 (-9) "Not supported on this model" (Some command))
  else
    HttpError (ReolinkHttpError.new 1 rspCode
                 ("Unknown PTZ error " +++ Zstr rspCode) (Some command)).

(** The [catch (error)] block shared by the PTZ wrappers: what leaves the
    block for a caught [error]. *)
Definition rethrow (error : exn) (command : string) : exn :=
  match error with
  | HttpError e => HttpError e
  | ErrorWithRspCode _ rspCode => handlePtzError rspCode command
  | Error _ | TypeError => error
  end.

(** "Check for error in response": the exception raised inside the [try]
    when the awaited response has an [error] member. *)
Definition checkResponse (response : option ReolinkResponse) (command : string)
    : option exn :=
  match response with
  | Some (ResponseError _ error) =>
      Some (handlePtzError (ReolinkError.rspCode error) command)
  | Some (ResponseSuccess _) | None => None
  end.

(** [try { response = await client.api(...); check } catch { rethrow }]. *)
Definition guarded (client : Client (option ReolinkResponse)) (c : call)
    (command : string) : run unit :=
  match client c with
  | Resolves response =>
      match checkResponse response command with
      | Some e => ([Exchange c], Throw (rethrow e command))
      | None => ([Exchange c], Ok tt)
      end
  | Rejects e => ([Exchange c], Throw (rethrow e command))
  end.

Inductive GuardCmd := setPos | toPos.

Definition guardCmdName (c : GuardCmd) : string :=
  match c with setPos => "setPos" | toPos => "toPos" end.

(** [Partial<PtzGuardConfig>]. *)
Module PtzGuardOptions.
Record t := mk {
  benable : option Z;
  bexistPos : option Z;
  timeout : option Z;
  cmdStr : option GuardCmd;
  bSaveCurrentPos : option Z
}.
End PtzGuardOptions.

Definition withDefault {A : Type} (a : option A) (d : A) : A :=
  match a with
  | Some x => x
  | None => d
  end.

Definition setPtzGuard (client : Client (option ReolinkResponse)) (channel : Z)
    (options : PtzGuardOptions.t) : run unit :=
  let guardConfig :=
    addIf "bexistPos" (PtzGuardOptions.bexistPos options)
      [("benable", VNum (withDefault (PtzGuardOptions.benable options) 0));
       ("timeout", VNum (withDefault (PtzGuardOptions.timeout options) 60));
       ("channel", VNum channel);
       ("cmdStr", VStr (guardCmdName (withDefault (PtzGuardOptions.cmdStr options) setPos)));
       ("bSaveCurrentPos", VNum (withDefault (PtzGuardOptions.bSaveCurrentPos options) 1))] in
  guarded client
    (Call "SetPtzGuard" (VObj [("channel", VNum channel); ("PtzGuard", VObj guardConfig)]) None)
    "SetPtzGuard".

(** Callback of [setPtzPatrol] on the array it validates. *)
Definition checkPtzPatrolStep (step : JS.value) (index : nat) : option exn :=
  if isObjectType step && negb (is_null step) then
    let presetId :=
      if has_key "id" step then get step "id"
      else if has_key "presetId" step then get step "presetId"
      else VUndefined in
    let speed := if has_key "speed" step then get step "speed" else VUndefined in
    match outside presetId 0 64 with
    | Some n =>
        Some (Error ("Patrol step " +++ idx index
                     +++ ": preset ID must be between 0 and 64, got: " +++ Zstr n))
    | None =>
        match outside speed 1 64 with
        | Some n =>
            Some (Error ("Patrol step " +++ idx index
                         +++ ": speed must be between 1 and 64, got: " +++ Zstr n))
        | None => None
        end
    end
  else None.

(** [config.preset || ("points" in config ? config.points : null)
                   || ("path" in config ? config.path : null)]. *)
Definition presetArray (config : JS.object) : JS.value :=
  orValue
    (orValue (prop config "preset")
       (if has "points" config then prop config "points" else VNull))
    (if has "path" config then prop config "path" else VNull).

(** The validation that precedes the [try] of [setPtzPatrol]. *)
Definition validatePtzPatrol (config : JS.object) : option exn :=
  match (if has "id" config then outside (prop config "id") 0 5 else None) with
  | Some n => Some (Error ("Patrol ID must be between 0 and 5, got: " +++ Zstr n))
  | None =>
      if isArray (presetArray config) then
        if 16 <? Z.of_nat (length (items (presetArray config))) then
          Some (Error ("Patrol can have at most 16 preset steps, got: "
                       +++ idx (length (items (presetArray config)))))
        else forEach checkPtzPatrolStep (items (presetArray config)) 0
      else None
  end.

(** [typeof config.enable === "boolean" ? (config.enable ? 1 : 0) : config.enable]. *)
Definition enableValue (config : JS.object) : JS.value :=
  match prop config "enable" with
  | VBool true => VNum 1
  | VBool false => VNum 0
  | v => v
  end.

(** [typeof config.id === "number" ? config.id : 0]. *)
Definition configId (config : JS.object) : JS.value :=
  match prop config "id" with
  | VNum n => VNum n
  | _ => VNum 0
  end.

(** [points.map((p) => ({ id: p.presetId, speed: p.speed, dwellTime: p.stayTime }))];
    reading a property of [null] or [undefined] throws. *)
Fixpoint mapPoints (points : list JS.value) : result (list JS.value) :=
  match points with
  | [] => Ok []
  | p :: rest =>
      if nullish p then Throw TypeError
      else
        match mapPoints rest with
        | Ok r =>
            Ok (VObj [("id", get p "presetId"); ("speed", get p "speed");
                      ("dwellTime", get p "stayTime")] :: r)
        | Throw e => Throw e
        end
  end.

(** [{ ...config, channel }] followed by the boolean-to-number rewrite of
    [enable]. *)
Definition legacyConfig (channel : Z) (config : JS.object) : JS.object :=
  let patrolConfig := JS.set "channel" (VNum channel) config in
  match prop patrolConfig "enable" with
  | VBool true => JS.set "enable" (VNum 1) patrolConfig
  | VBool false => JS.set "enable" (VNum 0) patrolConfig
  | _ => patrolConfig
  end.

Definition wrapPatrol (channel : Z) (patrolConfig : JS.object) : call :=
  Call "SetPtzPatrol"
    (VObj [("channel", VNum channel); ("PtzPatrol", VObj patrolConfig)]) None.

(** The outer [catch] of [setPtzPatrol] applied to what the [try] block
    settles with. *)
Definition catching (r : run unit) (command : string) : run unit :=
  match r with
  | (events, Throw e) => (events, Throw (rethrow e command))
  | (events, Ok a) => (events, Ok a)
  end.

Definition setPtzPatrol (client : Client (option ReolinkResponse)) (channel : Z)
    (config : JS.object) : run unit :=
  match validatePtzPatrol config with
  | Some e => ([], Throw e)
  | None =>
      let hasPresetArray :=
        has "preset" config && isArray (prop config "preset")
        && (0 <? Z.of_nat (length (items (prop config "preset")))) in
      let hasNameField := has "name" config in
      let firstPreset := first (prop config "preset") in
      let hasRlcPresetStructure :=
        isObjectType firstPreset && negb (is_null firstPreset)
        && has_key "id" firstPreset && has_key "speed" firstPreset
        && has_key "dwellTime" firstPreset in
      if hasPresetArray && negb hasNameField && has "id" config
         && truthy (prop config "preset") && hasRlcPresetStructure then
        catching
          (guarded client
             (wrapPatrol channel
                [("channel", coalesce (prop config "channel") (VNum channel));
                 ("id", configId config);
                 ("enable", enableValue config);
                 ("preset", prop config "preset")])
             "SetPtzPatrol")
          "SetPtzPatrol"
      else if hasPresetArray && hasNameField then
        catching
          (guarded client (Call "SetPtzPatrol" (VObj (legacyConfig channel config)) None)
             "SetPtzPatrol")
          "SetPtzPatrol"
      else if has "points" config && isArray (prop config "points") && has "id" config then
        match mapPoints (items (prop config "points")) with
        | Throw e => ([], Throw (rethrow e "SetPtzPatrol"))
        | Ok preset =>
            catching
              (guarded client
                 (wrapPatrol channel
                    [("channel", VNum channel);
                     ("id", configId config);
                     ("enable", enableValue config);
                     ("preset", VArr preset)])
                 "SetPtzPatrol")
              "SetPtzPatrol"
        end
      else if has "path" config && isArray (prop config "path") then
        match mapPoints (items (prop config "path")) with
        | Throw e => ([], Throw (rethrow e "SetPtzPatrol"))
        | Ok preset =>
            catching
              (guarded client
                 (wrapPatrol channel
                    [("channel", VNum channel);
                     ("id", orValue (prop config "id") (VNum 0));
                     ("enable", enableValue config);
                     ("preset", VArr preset)])
                 "SetPtzPatrol")
              "SetPtzPatrol"
        end
      else
        send client (Call "SetPtzPatrol" (VObj (legacyConfig channel config)) None)
  end.

(* ================================================================== *)
(** ** reolink.ts: session manager and request engine *)
(* ================================================================== *)

(** The source of [ReolinkClient] (reolink.ts) is not available; only its
    tests and callers are.  The definitions of this module follow the
    design document (sections 3, 4.1, 4.2, 6 and 7). *)
Module Engine.

(** Modelled from the spec: the Command Envelope of reolink.ts,
    { command name, action selector, parameter object }. *)
Record Envelope := mkEnvelope {
  command : string;
  selector : Z;
  parameters : JS.value
}.

(** Modelled from the spec: the Result Entry of reolink.ts, a tagged union
    Success{ value } | Failure{ deviceCode, detail }. *)
Inductive ResultEntry :=
| Success (value : JS.value)
| Failure (deviceCode : Z) (detail : string).

(** Modelled from the spec: the two session modes of reolink.ts. *)
Inductive Mode := Persistent | PerRequest.

(** Modelled from the spec: the Credential Context of reolink.ts,
    { token, issuedAt, leaseSeconds }. *)
Record CredentialContext := mkCredential {
  token : string;
  issuedAt : Z;
  leaseSeconds : Z
}.

(** Modelled from the spec: what reolink.ts attaches to a request, the
    current token (persistent mode) or the raw credentials (per-request
    mode). *)
Inductive Credentials :=
| Token (t : string)
| Raw (username password : string).

(** Modelled from the spec: the physical exchanges of reolink.ts, one
    POST per exchange: the login command, the logout command, or an
    ordered batch of envelopes. *)
Inductive Request :=
| Login (username password : string)
| Logout (t : string)
| Batch (auth : Credentials) (commands : list Envelope).

(** Modelled from the spec: what the transport of reolink.ts hands back,
    the decoded ordered array of result entries, an HTTP unauthorized
    status, or no answer at all. *)
Inductive Reply :=
| Body (entries : list ResultEntry)
| Unauthorized
| Unreachable.

(** Modelled from the spec: the origin of an AuthError of reolink.ts, a
    device failure entry with its code and detail, or the HTTP status. *)
Inductive Cause :=
| DeviceFailure (deviceCode : Z) (detail : string)
| HttpStatus.

(** Modelled from the spec: the error taxonomy of reolink.ts that the
    engine itself raises (section 7). *)
Inductive EngineError :=
| TransportError
| AuthError (cause : Cause)
| ClosedError
| NormalizationError.

(** Modelled from the spec: the device code by which reolink.ts
    recognises a rejected token; the tests and the repository notes give
    rspCode -1. *)
Definition TOKEN_INVALID : Z := -1.

(** Modelled from the spec: the per-entry test of reolink.ts for that
    code. *)
Definition isTokenInvalid (e : ResultEntry) : bool :=
  match e with
  | Failure c _ => c =? TOKEN_INVALID
  | Success _ => false
  end.

(** Modelled from the spec: the token-invalid signal of reolink.ts, "any
    Result Entry signals a token-invalid condition (a specific device
    error code, or an HTTP unauthorized status)". *)
Definition tokenInvalid (r : Reply) : bool :=
  match r with
  | Body es => existsb isTokenInvalid es
  | Unauthorized => true
  | Unreachable => false
  end.

(** Modelled from the spec: the session object of reolink.ts; the mode
    and the stored credentials are fixed at construction. *)
Record Session := mkSession {
  mode : Mode;
  username : string;
  password : string;
  credential : option CredentialContext;
  closed : bool
}.

(** Modelled from the spec: the token and lease that the login command of
    reolink.ts returns, read from [{ Token: { name, leaseTime } }]. *)
Definition tokenOf (v : JS.value) : option (string * Z) :=
  match get (get v "Token") "name", get (get v "Token") "leaseTime" with
  | VStr t, VNum lease => Some (t, lease)
  | _, _ => None
  end.

(** Modelled from the spec: what an operation of reolink.ts hands to its
    caller, a value or one of the errors above. *)
Inductive Outcome (A : Type) :=
| Done (a : A)
| Fail (e : EngineError).
Arguments Done {A} a.
Arguments Fail {A} e.

Section WithDevice.

(** The device behind the transport: any state machine answering
    requests. *)
Variable Device : Type.
Variable respond : Device -> Request -> Reply * Device.

(** Modelled from the spec: everything an operation of reolink.ts can
    read or change, the session, the device behind the transport, and the
    exchanges performed so far, oldest first. *)
Record State := mkState {
  session : Session;
  device : Device;
  log : list (Request * Reply)
}.

(** Computations of the engine: they read and update the session, talk to
    the device, and finish with a value or an error. *)
Definition M (A : Type) : Type := State -> Outcome A * State.

Definition ret {A : Type} (a : A) : M A := fun st => (Done a, st).

Definition fail {A : Type} (e : EngineError) : M A := fun st => (Fail e, st).

Definition bind {A B : Type} (m : M A) (k : A -> M B) : M B :=
  fun st =>
    match m st with
    | (Done a, st') => k a st'
    | (Fail e, st') => (Fail e, st')
    end.

Notation "x <- m ;; k" := (bind m (fun x => k))
  (at level 61, m at next level, right associativity).
Notation "m ;;; k" := (bind m (fun _ => k))
  (at level 61, right associativity).

(** Modelled from the spec: the transport of reolink.ts, one exchange
    with the device, recorded in the log. *)
Definition exchange (r : Request) : M Reply :=
  fun st =>
    let (reply, d) := respond (device st) r in
    (Done reply, mkState (session st) d (log st ++ [(r, reply)])).

Definition getSession : M Session := fun st => (Done (session st), st).

Definition setCredential (c : option CredentialContext) : M unit :=
  fun st =>
    let s := session st in
    (Done tt,
     mkState (mkSession (mode s) (username s) (password s) c (closed s))
       (device st) (log st)).

(** Modelled from the spec: [authenticate] of reolink.ts, "performs the
    login command, expects a Success Result Entry containing a token and
    lease duration; stores it as the active Credential Context.  Fails
    with AuthError if the device returns a Failure Result Entry, or with
    TransportError if the exchange itself fails". *)
Definition authenticate (now : Z) : M string :=
  s <- getSession ;;
  reply <- exchange (Login (username s) (password s)) ;;
  match reply with
  | Unreachable => fail TransportError
  | Unauthorized => fail (AuthError HttpStatus)
  | Body (Failure c d :: _) => fail (AuthError (DeviceFailure c d))
  | Body (Success v :: _) =>
      match tokenOf v with
      | Some (t, lease) => setCredential (Some (mkCredential t now lease)) ;;; ret t
      | None => fail NormalizationError
      end
  | Body [] => fail NormalizationError
  end.

(** Modelled from the spec: [currentToken] of reolink.ts, "returns the
    active token if present and unexpired; otherwise triggers
    authenticate using stored credentials"; a context is valid while
    [now < issuedAt + leaseSeconds]. *)
Definition currentToken (now : Z) : M string :=
  s <- getSession ;;
  match credential s with
  | Some c => if now <? issuedAt c + leaseSeconds c then ret (token c) else authenticate now
  | None => authenticate now
  end.

(** Modelled from the spec: [invalidate] of reolink.ts, "marks the active
    Credential Context stale without contacting the device". *)
Definition invalidate : M unit := setCredential None.

(** Modelled from the spec: [close] of reolink.ts, "attempts a best-effort
    logout command, then clears the Credential Context regardless of
    outcome"; Closed is terminal. *)
Definition close : M unit :=
  fun st =>
    let s := session st in
    let st' :=
      match closed s, credential s with
      | false, Some c => snd (exchange (Logout (token c)) st)
      | _, _ => st
      end in
    (Done tt,
     mkState (mkSession (mode s) (username s) (password s) None true)
       (device st') (log st')).

(** Modelled from the spec: the credentials reolink.ts attaches,
    "per-request-mode sessions attach raw credentials to every command;
    persistent-mode sessions attach the current token". *)
Definition attach (now : Z) : M Credentials :=
  s <- getSession ;;
  match mode s with
  | PerRequest => ret (Raw (username s) (password s))
  | Persistent => t <- currentToken now ;; ret (Token t)
  end.

(** Modelled from the spec: the entry of a reply to reolink.ts that
    carries the token-invalid code, if any. *)
Definition firstTokenInvalid (es : list ResultEntry) : option ResultEntry :=
  find isTokenInvalid es.

(** Modelled from the spec: how reolink.ts settles the resubmitted
    exchange, "a second token-invalid signal after retry is surfaced as
    AuthError"; otherwise the entries are handed back as they came, and a
    failed exchange is a TransportError. *)
Definition conclude (reply : Reply) : Outcome (list ResultEntry) :=
  match reply with
  | Unreachable => Fail TransportError
  | Unauthorized => Fail (AuthError HttpStatus)
  | Body es =>
      match firstTokenInvalid es with
      | Some (Failure c d) => Fail (AuthError (DeviceFailure c d))
      | _ => Done es
      end
  end.

Definition lift {A : Type} (o : Outcome A) : M A := fun st => (o, st).

(** Modelled from the spec: the single retry of reolink.ts, "the Session
    Manager is told to invalidate and re-authenticate, and the same
    ordered Command Envelopes are resubmitted exactly once". *)
Definition resubmit (now : Z) (commands : list Envelope) : M (list ResultEntry) :=
  invalidate ;;;
  auth <- attach now ;;
  reply <- exchange (Batch auth commands) ;;
  lift (conclude reply).

(** Modelled from the spec: [submit] of reolink.ts.  An empty sequence is
    a pure no-op; any other operation on a closed session fails with
    ClosedError; a token-invalid signal triggers the single retry; every
    other reply is handed back as it came, and a failed exchange is a
    TransportError. *)
Definition submit (now : Z) (commands : list Envelope) : M (list ResultEntry) :=
  match commands with
  | [] => ret []
  | _ :: _ =>
      s <- getSession ;;
      if closed s then fail ClosedError
      else
        auth <- attach now ;;
        reply <- exchange (Batch auth commands) ;;
        if tokenInvalid reply then resubmit now commands
        else
          match reply with
          | Body es => ret es
          | Unauthorized | Unreachable => fail TransportError
          end
  end.

End WithDevice.

Arguments mkState {Device} session device log.
Arguments session {Device} s.
Arguments device {Device} s.
Arguments log {Device} s.
Arguments ret {Device A} a.
Arguments fail {Device A} e.
Arguments bind {Device A B} m k.
Arguments exchange {Device} respond r.
Arguments getSession {Device}.
Arguments setCredential {Device} c.
Arguments authenticate {Device} respond now.
Arguments currentToken {Device} respond now.
Arguments invalidate {Device}.
Arguments close {Device} respond.
Arguments attach {Device} respond now.
Arguments lift {Device A} o.
Arguments resubmit {Device} respond now commands.
Arguments submit {Device} respond now commands.

(** What a batch exchange settles with when no retry can follow it: the
    entries as they came, a TransportError when there was no answer, an
    AuthError when the reply carries the token-invalid signal. *)
Definition settles (reply : Reply) (o : Outcome (list ResultEntry)) : Prop :=
  (tokenInvalid reply = true -> exists cause, o = Fail (AuthError cause))
  /\ (tokenInvalid reply = false ->
      o = match reply with
          | Body es => Done es
          | Unauthorized | Unreachable => Fail TransportError
          end).

End Engine.

(* ================================================================== *)
(** ** Vocabulary of the statements *)
(* ================================================================== *)

(** A value that is neither an array nor an object. *)
Definition scalar (v : JS.value) : Prop :=
  match v with
  | VArr _ | VObj _ => False
  | _ => True
  end.

(** A value other than [null] and [undefined]. *)
Definition present (v : JS.value) : Prop := v <> VUndefined /\ v <> VNull.

(** [encodes response data]: the response carries the ordered raw preset
    entries [data] in one of the shapes [listPresets] recognises.  A
    shape of lower priority is read only when the keys of higher priority
    hold nothing usable: [PtzPreset] is missing or a scalar, [preset] and
    [Presets] are missing or falsy.  The duck-typed shapes put the entries
    under any key that is preceded by scalar members only; an array
    under such a key is recognised by its first element, an object with
    an [id] or [ID] key. *)
Inductive encodes : JS.value -> list JS.value -> Prop :=
| wrapped_array (o inner : JS.object) (data : list JS.value) :
    prop o "PtzPreset" = VObj inner ->
    prop inner "preset" = VArr data ->
    encodes (VObj o) data
| direct_array (o : JS.object) (data : list JS.value) :
    prop o "PtzPreset" = VArr data ->
    encodes (VObj o) data
| root_preset (o : JS.object) (data : list JS.value) :
    scalar (prop o "PtzPreset") ->
    prop o "preset" = VArr data ->
    encodes (VObj o) data
| root_preset_singular (o single : JS.object) :
    scalar (prop o "PtzPreset") ->
    prop o "preset" = VObj single ->
    encodes (VObj o) [VObj single]
| root_Presets (o : JS.object) (data : list JS.value) :
    scalar (prop o "PtzPreset") ->
    truthy (prop o "preset") = false ->
    prop o "Presets" = VArr data ->
    encodes (VObj o) data
| root_Presets_singular (o single : JS.object) :
    scalar (prop o "PtzPreset") ->
    truthy (prop o "preset") = false ->
    prop o "Presets" = VObj single ->
    encodes (VObj o) [VObj single]
| root_array (data : list JS.value) :
    encodes (VArr data) data
| duck_typed (o before after : JS.object) (key : string)
    (head : JS.object) (tail : list JS.value) :
    o = before ++ (key, VArr (VObj head :: tail)) :: after ->
    scalar (prop o "PtzPreset") ->
    truthy (prop o "preset") = false ->
    truthy (prop o "Presets") = false ->
    Forall scalar (map snd before) ->
    has "id" head = true \/ has "ID" head = true ->
    encodes (VObj o) (VObj head :: tail)
| duck_typed_nested (o before after inner : JS.object) (key : string)
    (data : list JS.value) :
    o = before ++ (key, VObj inner) :: after ->
    scalar (prop o "PtzPreset") ->
    truthy (prop o "preset") = false ->
    truthy (prop o "Presets") = false ->
    Forall scalar (map snd before) ->
    prop inner "preset" = VArr data ->
    encodes (VObj o) data.

(** [identified entry v]: the raw entry is an object whose identifying
    value is [v]: its [id] when that is present, else its present [ID]. *)
Inductive identified : JS.value -> JS.value -> Prop :=
| by_id (o : JS.object) (v : JS.value) :
    prop o "id" = v -> present v -> identified (VObj o) v
| by_ID (o : JS.object) (v : JS.value) :
    ~ present (prop o "id") -> prop o "ID" = v -> present v ->
    identified (VObj o) v.

(** The client answers [GetPtzPreset] on the channel with [response]. *)
Definition answers (client : Client JS.value) (channel : Z) (response : JS.value) : Prop :=
  client (Call "GetPtzPreset" (VObj [("channel", VNum channel)]) (Some 1))
  = Resolves response.

(** A client whose every request resolves with [response]. *)
Definition replying (response : JS.value) : Client JS.value :=
  fun _ => Resolves response.

(** A 4x3 grid, a grid one bit short, and a grid of width 0. *)
Definition grid_4x3 : ScopePayload.t :=
  ScopePayload.mk None (Some 4) None (Some 3) (Some "111100001111") None None.

Definition grid_4x3_short : ScopePayload.t :=
  ScopePayload.mk None (Some 4) None (Some 3) (Some "11110000111") None None.

Definition grid_0x3 : ScopePayload.t :=
  ScopePayload.mk None (Some 0) None (Some 3) (Some "") None None.

(** Raw preset entries used in the examples. *)
Definition entry (id : Z) (name : string) (enable : Z) : JS.value :=
  VObj [("id", VNum id); ("name", VStr name); ("enable", VNum enable)].

Definition entry_null_id : JS.value :=
  VObj [("id", VNull); ("name", VStr "Gate")].

Definition entry_null_enable : JS.value :=
  VObj [("id", VNum 1); ("name", VStr "Gate"); ("enable", VNull)].

Definition sample_entries : list JS.value :=
  [entry 1 "Entrance" 1; VNull; entry 2 "Parking" 0].

(** A response outside the shapes of [encodes]: a [PtzPreset] object
    without [preset] next to a root-level [preset] array. *)
Definition hybrid_response : JS.value :=
  VObj [("PtzPreset", VObj [("channel", VNum 0)]); ("preset", VArr sample_entries)].

(** A value that, when it is a number, lies in [lo, hi]. *)
Definition within (v : JS.value) (lo hi : Z) : Prop :=
  forall n, v = VNum n -> lo <= n <= hi.

(** A patrol step whose numeric [id] lies in 0..64 and whose numeric
    [speed] lies in 1..64. *)
Definition step_in_range (step : JS.value) : Prop :=
  within (get step "id") 0 64 /\ within (get step "speed") 1 64.

(** A patrol configuration in which [preset] is an empty array and the
    route steps travel in the legacy [points] array. *)
Definition mixed_patrol_config : JS.object :=
  [("id", VNum 1); ("enable", VNum 1); ("preset", VArr []);
   ("points", VArr [VObj [("presetId", VNum 99); ("speed", VNum 100);
                          ("stayTime", VNum 5)]])].

(** The same configuration without the empty [preset] array. *)
Definition points_patrol_config : JS.object :=
  [("id", VNum 1); ("enable", VNum 1);
   ("points", VArr [VObj [("presetId", VNum 99); ("speed", VNum 100);
                          ("stayTime", VNum 5)]])].

(** Clients used in the examples: one that accepts every request, one
    whose reply carries a device error. *)
Definition accepting : Client (option ReolinkResponse) :=
  fun _ => Resolves (Some (ResponseSuccess (VObj []))).

Definition refusing (rspCode : Z) (detail : string) : Client (option ReolinkResponse) :=
  fun _ => Resolves (Some (ResponseError 1 (ReolinkError.mk rspCode detail))).

(** Devices and sessions used in the examples. *)
Module Examples.
Import Engine.

(** A device that plays back a script, one reply per exchange, and stops
    answering when the script is exhausted. *)
Definition scripted (script : list Reply) (r : Request) : Reply * list Reply :=
  match script with
  | reply :: rest => (reply, rest)
  | [] => (Unreachable, [])
  end.

Definition loginReply (t : string) : Reply :=
  Body [Success (VObj [("Token", VObj [("name", VStr t); ("leaseTime", VNum 3600)])])].

(** A device that accepts every login and evaluates each envelope of a
    batch on its own with [evaluate]. *)
Definition evaluating (evaluate : Envelope -> ResultEntry) (d : unit) (r : Request)
    : Reply * unit :=
  match r with
  | Login _ _ => (loginReply "test-token", tt)
  | Logout _ => (Body [Success (VObj [])], tt)
  | Batch _ commands => (Body (map evaluate commands), tt)
  end.

(** The device of the two-command scenario: [GetDevInfo] yields the
    device name, any other command its own parameters. *)
Definition answer (c : Envelope) : ResultEntry :=
  if String.eqb (command c) "GetDevInfo"
  then Success (VObj [("name", VStr "Device1")])
  else Success (parameters c).

Definition loggedIn (t : string) : Session :=
  mkSession Persistent "admin" "password" (Some (mkCredential t 0 3600)) false.

Definition fresh : Session :=
  mkSession Persistent "admin" "password" None false.

Definition GetDevInfo : Envelope := mkEnvelope "GetDevInfo" 0 (VObj []).

Definition GetEnc : Envelope := mkEnvelope "GetEnc" 0 (VObj [("channel", VNum 0)]).

Definition tokenError : Reply := Body [Failure (-1) "Invalid token"].

Definition afterRetry : Reply := Body [Success (VObj [("result", VStr "success after retry")])].

End Examples.

(* ================================================================== *)
(** ** Runs in sequence *)
(* ================================================================== *)

(** [await] one request and hand its response on. *)
Definition perform {T : Type} (client : Client T) (c : call) : run T :=
  match client c with
  | Resolves response => ([Exchange c], Ok response)
  | Rejects e => ([Exchange c], Throw e)
  end.

(** One awaited step after another: the second runs only when the first
    has not thrown. *)
Definition andThen {A C : Type} (r : run A) (k : A -> run C) : run C :=
  match r with
  | (events, Ok a) => (events ++ fst (k a), snd (k a))
  | (events, Throw e) => (events, Throw e)
  end.

(* ================================================================== *)
(** ** capabilities.ts *)
(* ================================================================== *)

(** The members every plain object inherits from [Object.prototype]:
    indexing an object with one of these names yields a function (or the
    prototype itself), which is truthy. *)
Definition inherited (k : string) : bool :=
  existsb (String.eqb k)
    ["constructor"; "__defineGetter__"; "__defineSetter__"; "hasOwnProperty";
     "__lookupGetter__"; "__lookupSetter__"; "isPrototypeOf";
     "propertyIsEnumerable"; "toString"; "valueOf"; "__proto__";
     "toLocaleString"].

(** [typeof ability === "object" && ability !== null && (k1 in ability || ...)]. *)
Definition mentions (ability : JS.value) (names : list string) : bool :=
  isObjectType ability && negb (is_null ability)
  && existsb (fun k => has_key k ability) names.

(** One of the four checks of [detectCapabilities]. *)
Definition detects (ability : JS.value) (upper lower : string) (extra : list string)
    : bool :=
  truthy (get ability upper) || truthy (get ability lower)
  || mentions ability (upper :: lower :: extra).

Definition flag (b : bool) (k : string) (caps : JS.object) : JS.object :=
  if b then JS.set k (VBool true) caps else caps.

(** [detectCapabilities], given what [await getAbility(client)] settles
    with ([getAbility] lives in endpoints/system.ts).  Reading a member
    of [null] or [undefined] throws inside the [try]; every exception
    ends in [return {}]. *)
Definition detectCapabilities (ability : ApiResult JS.value) : JS.object :=
  match ability with
  | Rejects _ => []
  | Resolves ability =>
      if nullish ability then []
      else
        flag (detects ability "Rec" "rec" ["Record"]) "recording"
          (flag (detects ability "Md" "md" ["Motion"]) "motionDetection"
             (flag (detects ability "AI" "ai" ["Person"]) "ai"
                (flag (detects ability "Ptz" "ptz" []) "ptz" [])))
  end.

(** [capabilities[feature]] seen through [!]: an own member decides by
    its value, otherwise an inherited member is truthy. *)
Definition holds (capabilities : JS.object) (feature : string) : bool :=
  match lookup feature capabilities with
  | Some v => truthy v
  | None => inherited feature
  end.

Definition requireCapability (capabilities : JS.object) (feature : string)
    : result unit :=
  if negb (holds capabilities feature) then
    Throw (Error ("Feature '" +++ feature
                  +++ "' is not supported on this device. Available capabilities: "
                  +++ String.concat ", " (map fst capabilities)))
  else Ok tt.

(** [caps[feature] === true]; no inherited member is [true]. *)
Definition checkFeature (ability : ApiResult JS.value) (feature : string) : bool :=
  match lookup feature (detectCapabilities ability) with
  | Some v => is_true v
  | None => false
  end.

(* ================================================================== *)
(** ** ptz.ts: presets, patrol commands, guard *)
(* ================================================================== *)

(** [getPtzPreset]: the response object itself is completed and
    returned; [response.PtzPreset] on [null] or [undefined] throws. *)
Definition getPtzPreset (client : Client JS.value) (channel : Z) : run JS.value :=
  andThen (perform client (Call "GetPtzPreset" (VObj [("channel", VNum channel)]) None))
    (fun response =>
       if nullish response then ([], Throw TypeError)
       else
         match response with
         | VObj o =>
             if truthy (prop o "PtzPreset") && negb (truthy (prop o "preset"))
             then ([], Ok (VObj (JS.set "preset" (prop o "PtzPreset") o)))
             else ([], Ok response)
         | _ => ([], Ok response)
         end).

(** [name || `Preset ${id}`]. *)
Definition presetName (id : Z) (name : option string) : string :=
  match name with
  | Some n => if String.eqb n "" then "Preset " +++ Zstr id else n
  | None => "Preset " +++ Zstr id
  end.

Definition setPtzPreset {T : Type} (client : Client T) (channel id : Z)
    (name : option string) (enable : option Z) : run T :=
  if (id <? 0) || (id >? 64) then
    ([], Throw (Error ("Preset ID must be between 0 and 64, got: " +++ Zstr id)))
  else if 31 <? strlen (presetName id name) then
    ([], Throw (Error ("Preset name must not exceed 31 characters, got: "
                       +++ Zstr (strlen (presetName id name)))))
  else
    perform client
      (Call "SetPtzPreset"
         (VObj [("PtzPreset",
                 VObj (addIf "enable" enable
                         [("channel", VNum channel); ("id", VNum id);
                          ("name", VStr (presetName id name))]))])
         None).

Definition startPatrol (client : Client (option ReolinkResponse)) (channel patrolId : Z)
    : run unit :=
  if (patrolId <? 0) || (patrolId >? 5) then
    ([], Throw (Error ("Patrol ID must be between 0 and 5, got: " +++ Zstr patrolId)))
  else
    guarded client
      (Call "PtzCtrl"
         (VObj [("channel", VNum channel); ("op", VStr "StartPatrol");
                ("id", VNum patrolId)]) None)
      "PtzCtrl".

Definition stopPatrol (client : Client (option ReolinkResponse)) (channel patrolId : Z)
    : run unit :=
  if (patrolId <? 0) || (patrolId >? 5) then
    ([], Throw (Error ("Patrol ID must be between 0 and 5, got: " +++ Zstr patrolId)))
  else
    guarded client
      (Call "PtzCtrl"
         (VObj [("channel", VNum channel); ("op", VStr "StopPatrol");
                ("id", VNum patrolId)]) None)
      "PtzCtrl".

(** [PtzGuard] as the device reports it; a missing or [null] member is
    [None]. *)
Module PtzGuard.
Record t := mk {
  benable : option Z;
  bexistPos : option Z;
  timeout : option Z;
  channel : option Z
}.
End PtzGuard.

Module PtzGuardResponse.
Record t := mk { PtzGuard : option PtzGuard.t }.
End PtzGuardResponse.

(** The four members [getPtzGuard] returns. *)
Module PtzGuardConfig.
Record t := mk {
  benable : option Z;
  bexistPos : option Z;
  timeout : option Z;
  channel : Z
}.
End PtzGuardConfig.

Definition getPtzGuard (client : Client (option PtzGuardResponse.t)) (channel : Z)
    : run PtzGuardConfig.t :=
  andThen (perform client (Call "GetPtzGuard" (VObj [("channel", VNum channel)]) None))
    (fun response =>
       match chain response PtzGuardResponse.PtzGuard with
       | Some g =>
           ([], Ok (PtzGuardConfig.mk (PtzGuard.benable g) (PtzGuard.bexistPos g)
                      (PtzGuard.timeout g) (withDefault (PtzGuard.channel g) channel)))
       | None => ([], Ok (PtzGuardConfig.mk (Some 0) None (Some 60) channel))
       end).

(** [toggleGuardMode]; the one client is seen at the two response types
    its calls are instantiated with. *)
Definition toggleGuardMode (reading : Client (option PtzGuardResponse.t))
    (writing : Client (option ReolinkResponse)) (channel : Z) : run unit :=
  andThen (getPtzGuard reading channel)
    (fun current =>
       let isEnabled :=
         match PtzGuardConfig.benable current with
         | Some n => n =? 1
         | None => false
         end in
       let timeout := withDefault (PtzGuardConfig.timeout current) 60 in
       setPtzGuard writing channel
         (PtzGuardOptions.mk (Some (if isEnabled then 0 else 1)) None (Some timeout)
            None None)).

(** [typeof v === "boolean" ? (v ? 1 : 0) : v]. *)
Definition boolToNum (v : JS.value) : JS.value :=
  match v with
  | VBool true => VNum 1
  | VBool false => VNum 0
  | _ => v
  end.

(** ["k" in o ? o.k : d]. *)
Definition memberOr (preset : JS.value) (k : string) (d : JS.value) : JS.value :=
  if has_key k preset then get preset k else d.

(** The inner [map] of [getPtzPatrol]; [in] applied to a value that is
    not an object throws. *)
Fixpoint mapPatrolSteps (steps : list JS.value) : result (list JS.value) :=
  match steps with
  | [] => Ok []
  | preset :: rest =>
      if isObjectType preset && negb (is_null preset) then
        match mapPatrolSteps rest with
        | Ok r =>
            Ok (VObj [("id", memberOr preset "id" (VNum 0));
                      ("speed", memberOr preset "speed" (VNum 32));
                      ("dwellTime", memberOr preset "dwellTime" (VNum 10))] :: r)
        | Throw e => Throw e
        end
      else Throw TypeError
  end.

(** The outer [map] callback of [getPtzPatrol]. *)
Definition toPatrolConfig (channel : Z) (p : JS.value) : result JS.object :=
  match
    (if truthy (get p "preset") && isArray (get p "preset")
     then mapPatrolSteps (items (get p "preset"))
     else Ok [])
  with
  | Ok preset =>
      Ok [("channel", coalesce (get p "channel") (VNum channel));
          ("enable", boolToNum (get p "enable"));
          ("id", coalesce (get p "id") (VNum 0));
          ("running", boolToNum (get p "running"));
          ("name", get p "name");
          ("preset", VArr preset)]
  | Throw e => Throw e
  end.

Fixpoint mapPatrols (channel : Z) (patrols : list JS.value) : result (list JS.object) :=
  match patrols with
  | [] => Ok []
  | p :: rest =>
      match toPatrolConfig channel p with
      | Ok c =>
          match mapPatrols channel rest with
          | Ok r => Ok (c :: r)
          | Throw e => Throw e
          end
      | Throw e => Throw e
      end
  end.

(** The [filter] callback of [getPtzPatrol]. *)
Definition isPatrol (p : JS.value) : bool := negb (is_null p) && isObjectType p.

(** The body of [getPtzPatrol] once the response has arrived. *)
Definition readPatrols (channel : Z) (response : JS.value) : result (list JS.object) :=
  if truthy (get response "PtzPatrol") then
    mapPatrols channel
      (filter isPatrol
         (if isArray (get response "PtzPatrol") then items (get response "PtzPatrol")
          else [get response "PtzPatrol"]))
  else Ok [].

Definition getPtzPatrol (client : Client JS.value) (channel : Z) : run (list JS.object) :=
  andThen (perform client (Call "GetPtzPatrol" (VObj [("channel", VNum channel)]) None))
    (fun response => ([], readPatrols channel response)).

(* ================================================================== *)
(** ** presets.ts: further PresetsModule methods *)
(* ================================================================== *)

Definition setPreset {T : Type} (client : Client T) (channel id : Z) (name : string)
    (enable : option bool) : run unit :=
  if (id <? 0) || (id >? 64) then
    ([], Throw (Error ("Preset ID must be between 0 and 64, got: " +++ Zstr id)))
  else if 31 <? strlen name then
    ([], Throw (Error ("Preset name must not exceed 31 characters, got: "
                       +++ Zstr (strlen name))))
  else
    send client
      (Call "SetPtzPreset"
         (VObj [("PtzPreset",
                 VObj ([("channel", VNum channel); ("id", VNum id); ("name", VStr name)]
                       ++ match enable with
                          | None => []
                          | Some b => [("enable", VNum (if b then 1 else 0))]
                          end))])
         None).

Module GuardOptions.
Record t := mk {
  enable : option bool;
  timeoutSec : option Z;
  setCurrentAsGuard : option bool;
  goToGuardNow : option bool
}.
End GuardOptions.

(** Truthiness of an optional boolean. *)
Definition isSet (b : option bool) : bool := withDefault b false.

Definition setGuard {T : Type} (client : Client T) (channel : Z)
    (options : GuardOptions.t) : run unit :=
  let timeout := withDefault (GuardOptions.timeoutSec options) 60 in
  if negb (timeout =? 60) then
    ([], Throw (Error "Reolink guard timeout currently supports only 60 seconds"))
  else
    send client
      (Call "SetPtzGuard"
         (VObj [("PtzGuard",
                 VObj ([("channel", VNum channel)]
                       ++ match GuardOptions.enable options with
                          | None => []
                          | Some b => [("benable", VNum (if b then 1 else 0))]
                          end
                       ++ (if isSet (GuardOptions.setCurrentAsGuard options)
                           then [("bexistPos", VNum 1)] else [])
                       ++ [("timeout", VNum timeout);
                           ("cmdStr",
                            VStr (if isSet (GuardOptions.goToGuardNow options)
                                  then "toPos" else "setPos"));
                           ("bSaveCurrentPos",
                            VNum (if isSet (GuardOptions.setCurrentAsGuard options)
                                  then 1 else 0))]))])
         None).

Inductive AiType := people | vehicle | dog_cat | face.

Definition SUPPORTED_AI_TYPES : list AiType := [people; vehicle; dog_cat; face].

Definition aiName (t : AiType) : string :=
  match t with
  | people => "people"
  | vehicle => "vehicle"
  | dog_cat => "dog_cat"
  | face => "face"
  end.

(** [type.toUpperCase()]. *)
Definition aiUpper (t : AiType) : string :=
  match t with
  | people => "PEOPLE"
  | vehicle => "VEHICLE"
  | dog_cat => "DOG_CAT"
  | face => "FACE"
  end.

Definition AiType_eqb (a b : AiType) : bool :=
  match a, b with
  | people, people | vehicle, vehicle | dog_cat, dog_cat | face, face => true
  | _, _ => false
  end.

Definition setAiZone {T : Type} (client : Client T) (channel : Z) (ai_type : AiType)
    (area : GridArea.t) : run unit :=
  if negb (existsb (AiType_eqb ai_type) SUPPORTED_AI_TYPES) then
    ([], Throw (Error ("Unsupported AI type: " +++ aiName ai_type)))
  else if negb (strlen (GridArea.bits area) =? GridArea.width area * GridArea.height area)
  then ([], Throw (Error "Invalid AI zone bitstring length"))
  else
    send client
      (Call "SetAlarmArea"
         (VObj [("channel", VNum channel); ("ai_type", VStr (aiName ai_type));
                ("width", VNum (GridArea.width area));
                ("height", VNum (GridArea.height area));
                ("area", VStr (GridArea.bits area))])
         None).

(** [setMasks]; a mask is passed through as the caller built it. *)
Definition setMasks {T : Type} (client : Client T) (channel : Z)
    (masks : list JS.value) (enable : Z) : run unit :=
  send client
    (Call "SetMask"
       (VObj [("Mask", VObj [("channel", VNum channel); ("enable", VNum enable);
                             ("area", VArr masks)])])
       None).

(** The own enumerable members [{ ...v }] copies: those of an object, the
    indexed elements of an array, the indexed characters of a string,
    none of another value. *)
Fixpoint indexed (l : list JS.value) (i : nat) : JS.object :=
  match l with
  | [] => []
  | x :: rest => (idx i, x) :: indexed rest (S i)
  end.

Fixpoint chars (s : string) : list JS.value :=
  match s with
  | EmptyString => []
  | String.String c rest => VStr (String.String c EmptyString) :: chars rest
  end.

Definition members (v : JS.value) : JS.object :=
  match v with
  | VObj o => o
  | VArr l => indexed l 0
  | VStr s => indexed (chars s) 0
  | _ => []
  end.

(** The payload [setMdZone] writes when the current settings arrived as
    [mdAlarm]: [{ ...mdAlarm, channel, scope: { ...(mdAlarm.scope ?? {}),
    ...scope }, table: area.bits }]. *)
Definition mergedMdAlarm (channel : Z) (mdAlarm : JS.value) (scope : JS.object)
    (bits : string) : JS.object :=
  JS.set "table" (VStr bits)
    (JS.set "scope"
       (VObj (spread (spread [] (members (coalesce (get mdAlarm "scope") (VObj []))))
                scope))
       (JS.set "channel" (VNum channel) (spread [] (members mdAlarm)))).

Definition setMdZone (client : Client JS.value) (channel : Z) (area : GridArea.t)
    : run unit :=
  match buildScope area with
  | Throw e => ([], Throw e)
  | Ok scope =>
      let minimal :=
        [("channel", VNum channel); ("scope", VObj scope);
         ("table", VStr (GridArea.bits area))] in
      let reading := Call "GetMdAlarm" (VObj [("channel", VNum channel)]) None in
      let writing (mdAlarmPayload : JS.object) :=
        send client (Call "SetMdAlarm" (VObj [("MdAlarm", VObj mdAlarmPayload)]) None) in
      match client reading with
      | Resolves current =>
          let mdAlarm := coalesce (get current "MdAlarm") current in
          andThen ([Exchange reading], Ok tt)
            (fun _ =>
               writing
                 (if truthy mdAlarm && isObjectType mdAlarm
                  then mergedMdAlarm channel mdAlarm scope (GridArea.bits area)
                  else minimal))
      | Rejects (HttpError e) => ([Exchange reading], Throw (HttpError e))
      | Rejects _ => andThen ([Exchange reading], Ok tt) (fun _ => writing minimal)
      end
  end.

(** [PresetZones]; [ai] lists the members of the object in
    [Object.entries] order. *)
Module PresetZones.
Record t := mk {
  md : option GridArea.t;
  ai : option (list (AiType * option GridArea.t));
  masks : option (list JS.value)
}.
End PresetZones.

(** The [for ... of entries] loop of [applyZonesForPreset]. *)
Fixpoint applyAiZones (client : Client JS.value) (channel : Z)
    (entries : list (AiType * option GridArea.t)) : run unit :=
  match entries with
  | [] => ([], Ok tt)
  | (type, None) :: rest => applyAiZones client channel rest
  | (type, Some area) :: rest =>
      andThen (setAiZone client channel type area)
        (fun _ => applyAiZones client channel rest)
  end.

Definition applyZonesForPreset (client : Client JS.value) (channel presetId : Z)
    (zones : PresetZones.t) : run unit :=
  andThen
    (match PresetZones.masks zones with
     | Some masks =>
         setMasks client channel masks (if 0 <? Z.of_nat (length masks) then 1 else 0)
     | None => ([], Ok tt)
     end)
    (fun _ =>
       andThen
         (match PresetZones.md zones with
          | Some area => setMdZone client channel area
          | None => ([], Ok tt)
          end)
         (fun _ =>
            match PresetZones.ai zones with
            | Some entries => applyAiZones client channel entries
            | None => ([], Ok tt)
            end)).

(** [gotoPresetWithZones]; [zonesProvider] is the caller's lookup, given
    by what its promise settles with. *)
Definition gotoPresetWithZones (client : Client JS.value) (channel presetId : Z)
    (zonesProvider : Z -> result (option PresetZones.t)) (opts : PtzMoveOptions.t)
    : run unit :=
  andThen (gotoPreset client channel presetId opts)
    (fun _ =>
       match zonesProvider presetId with
       | Throw e => ([], Throw e)
       | Ok (Some zones) => applyZonesForPreset client channel presetId zones
       | Ok None => ([], Ok tt)
       end).

(** The two caches of a [PresetsModule] instance; the latest entry for a
    channel is the first one found. *)
Record Caches := mkCaches {
  abilityCache : list (Z * JS.value);
  aiSupportCache : list (Z * list AiType)
}.

Fixpoint cacheGet {A : Type} (channel : Z) (cache : list (Z * A)) : option A :=
  match cache with
  | [] => None
  | (k, v) :: rest => if k =? channel then Some v else cacheGet channel rest
  end.

(** [abilityChn.find((item) => item?.channel === channel)]. *)
Definition findChannel (channel : Z) (abilityChn : list JS.value) : option JS.value :=
  find (fun item => is_num (get item "channel") channel) abilityChn.

(** The value [getChannelAbility] stores for a response. *)
Definition channelAbilityOf (channel : Z) (response : JS.value) : JS.value :=
  let ability := coalesce (get response "ability") (coalesce (get response "Ability") response) in
  let abilityChn := get ability "abilityChn" in
  let channelAbility :=
    if isArray abilityChn then
      match findChannel channel (items abilityChn) with
      | Some item => coalesce item VNull
      | None => VNull
      end
    else if truthy abilityChn && isObjectType abilityChn then
      coalesce (get abilityChn (Zstr channel))
        (coalesce (get abilityChn ("chn" +++ Zstr channel)) VNull)
    else VNull in
  coalesce channelAbility (coalesce ability (VObj [])).

(** [getChannelAbility]: the events, the value returned ([null] when the
    request failed) and the caches afterwards. *)
Definition getChannelAbility (client : Client JS.value) (channel : Z) (caches : Caches)
    : list event * JS.value * Caches :=
  match cacheGet channel (abilityCache caches) with
  | Some v => ([], coalesce v VNull, caches)
  | None =>
      let c := Call "GetAbility" (VObj []) None in
      match client c with
      | Resolves response =>
          let stored := channelAbilityOf channel response in
          ([Exchange c], coalesce stored VNull,
           mkCaches ((channel, stored) :: abilityCache caches) (aiSupportCache caches))
      | Rejects _ =>
          ([Exchange c], VNull,
           mkCaches ((channel, VObj []) :: abilityCache caches) (aiSupportCache caches))
      end
  end.

(** [getAiCfg]: [cfg?.AiCfg ?? cfg]. *)
Definition getAiCfg (client : Client JS.value) (channel : option Z) : run JS.value :=
  andThen
    (perform client
       (Call "GetAiCfg"
          (VObj match channel with
                | None => []
                | Some ch => [("channel", VNum ch)]
                end)
          (Some 1)))
    (fun cfg => ([], Ok (coalesce (get cfg "AiCfg") cfg))).

Definition isOn (flag : JS.value) : bool := is_num flag 1 || is_true flag.

(** The first loop of [getSupportedAiTypes], on the ability flags. *)
Definition abilityFlag (aiFlags : JS.value) (t : AiType) : JS.value :=
  coalesce (get aiFlags (aiName t))
    (coalesce (get aiFlags ("support" +++ aiName t))
       (get aiFlags ("support" +++ aiUpper t))).

Definition fromAbility (ability : JS.value) : list AiType :=
  let aiFlags :=
    coalesce (get ability "supportAi")
      (coalesce (get ability "supportAI")
         (coalesce (get ability "ai") (coalesce (get ability "AI") ability))) in
  if truthy aiFlags && isObjectType aiFlags
  then filter (fun t => isOn (abilityFlag aiFlags t)) SUPPORTED_AI_TYPES
  else [].

(** The second loop, on the AI configuration. *)
Definition fromAiCfg (cfg : JS.value) : list AiType :=
  let info := coalesce (get cfg "ability") (coalesce (get cfg "Ability") cfg) in
  filter (fun t => isOn (get info (aiName t))) SUPPORTED_AI_TYPES.

Definition getSupportedAiTypes (client : Client JS.value) (channel : Z) (caches : Caches)
    : list event * list AiType * Caches :=
  match cacheGet channel (aiSupportCache caches) with
  | Some types => ([], types, caches)
  | None =>
      let '(events1, ability, caches1) := getChannelAbility client channel caches in
      let supported := fromAbility ability in
      let '(events2, result) :=
        if (Z.of_nat (length supported) =? 0) then
          match getAiCfg client (Some channel) with
          | (events, Ok cfg) => (events, fromAiCfg cfg)
          | (events, Throw _) => (events, [])
          end
        else ([], supported) in
      (events1 ++ events2, result,
       mkCaches (abilityCache caches1) ((channel, result) :: aiSupportCache caches1))
  end.

(* ================================================================== *)
(** ** Vocabulary of the further statements *)
(* ================================================================== *)

(** A pattern track whose numeric [id] lies in 1..6. *)
Definition track_in_range (track : JS.value) : Prop := within (get track "id") 1 6.

(** An object read at the type [MdScopePayload] / [AiAreaPayload]: exact
    when each of the seven members, if present, has its declared type. *)
Definition numMember (o : JS.object) (k : string) : option Z :=
  match prop o k with
  | VNum n => Some n
  | _ => None
  end.

Definition strMember (o : JS.object) (k : string) : option string :=
  match prop o k with
  | VStr s => Some s
  | _ => None
  end.

Definition scopeMembers (o : JS.object) : ScopePayload.t :=
  ScopePayload.mk (numMember o "cols") (numMember o "width") (numMember o "rows")
    (numMember o "height") (strMember o "table") (strMember o "area")
    (strMember o "bits").

(** The keys of a patrol as [getPtzPatrol] returns it, and the shape of
    its steps. *)
Definition patrolKeys : list string :=
  ["channel"; "enable"; "id"; "running"; "name"; "preset"].

Definition isStep (s : JS.value) : Prop :=
  exists id speed dwellTime,
    s = VObj [("id", id); ("speed", speed); ("dwellTime", dwellTime)].

Definition isBoolean (v : JS.value) : Prop := exists b, v = VBool b.

(** Requests named in the statements. *)
Definition GetPtzGuard (channel : Z) : call :=
  Call "GetPtzGuard" (VObj [("channel", VNum channel)]) None.

Definition GetMdAlarm (channel : Z) : call :=
  Call "GetMdAlarm" (VObj [("channel", VNum channel)]) None.

Definition SetMdAlarm (payload : JS.object) : call :=
  Call "SetMdAlarm" (VObj [("MdAlarm", VObj payload)]) None.

Definition GetAbility : call := Call "GetAbility" (VObj []) None.

Definition GetAiCfg (channel : Z) : call :=
  Call "GetAiCfg" (VObj [("channel", VNum channel)]) (Some 1).

Definition SetAlarmArea (channel : Z) (ai_type : AiType) (area : GridArea.t) : call :=
  Call "SetAlarmArea"
    (VObj [("channel", VNum channel); ("ai_type", VStr (aiName ai_type));
           ("width", VNum (GridArea.width area));
           ("height", VNum (GridArea.height area));
           ("area", VStr (GridArea.bits area))])
    None.

(** The entries of [zones.ai] that carry an area, in order. *)
Fixpoint givenAreas (entries : list (AiType * option GridArea.t))
    : list (AiType * GridArea.t) :=
  match entries with
  | [] => []
  | (type, Some area) :: rest => (type, area) :: givenAreas rest
  | (_, None) :: rest => givenAreas rest
  end.

(** A grid whose bit string has width * height characters. *)
Definition sized (area : GridArea.t) : Prop :=
  strlen (GridArea.bits area) = GridArea.width area * GridArea.height area.

(** A flag that says yes: the number 1 or the boolean [true]. *)
Definition on (flag : JS.value) : Prop := flag = VNum 1 \/ flag = VBool true.


(** Example data. *)
Definition emptyCaches : Caches := mkCaches [] [].

Definition ability_people_vehicle : JS.value :=
  VObj [("Ability",
         VObj [("abilityChn",
                VArr [VObj [("channel", VNum 0); ("people", VNum 1);
                            ("vehicle", VNum 1); ("face", VNum 0)]])])].

Definition patrol_reply : JS.value :=
  VObj [("PtzPatrol",
         VObj [("id", VNum 1); ("enable", VBool true);
               ("preset", VArr [VObj [("id", VNum 1); ("speed", VNum 10)]])])].

(* ================================================================== *)
(** * Properties *)
(* ================================================================== *)

(** ** Detection-zone grids *)

Lemma grid_check (what mismatch : string) (w h : Z) (t : string) :
  (strlen t <> w * h ->
   exists e,
     (if (w =? 0) || (h =? 0) then Throw (Error what)
      else if negb (strlen t =? w * h) then Throw (Error mismatch)
      else Ok (GridArea.mk w h t)) = Throw e)
  /\ (w <> 0 -> h <> 0 -> strlen t = w * h ->
      (if (w =? 0) || (h =? 0) then Throw (Error what)
       else if negb (strlen t =? w * h) then Throw (Error mismatch)
       else Ok (GridArea.mk w h t)) = Ok (GridArea.mk w h t)).
Proof.
  split.
  - intros Hne.
    destruct ((w =? 0) || (h =? 0)); [eexists; reflexivity|].
    destruct (Z.eqb_spec (strlen t) (w * h)) as [Heq|_]; [contradiction|].
    eexists; reflexivity.
  - intros Hw Hh Heq.
    apply Z.eqb_neq in Hw, Hh. rewrite Hw, Hh. cbn.
    apply Z.eqb_eq in Heq. rewrite Heq. reflexivity.
Qed.

Lemma normalizeMdScope_sound (scope : option ScopePayload.t) (g : GridArea.t) :
  normalizeMdScope scope = Ok g ->
  Md.width scope = Some (GridArea.width g)
  /\ Md.height scope = Some (GridArea.height g)
  /\ Md.table scope = Some (GridArea.bits g)
  /\ strlen (GridArea.bits g) = GridArea.width g * GridArea.height g.
Proof.
  unfold normalizeMdScope.
  destruct (Md.width scope) as [w|]; [|discriminate].
  destruct (Md.height scope) as [h|]; [|discriminate].
  destruct (Md.table scope) as [t|]; [|discriminate].
  destruct ((w =? 0) || (h =? 0)); [discriminate|].
  destruct (Z.eqb_spec (strlen t) (w * h)) as [Heq|]; [|discriminate].
  cbn. intros [= <-]. cbn. auto.
Qed.

Lemma normalizeAiArea_sound (payload : option ScopePayload.t) (g : GridArea.t) :
  normalizeAiArea payload = Ok g ->
  Ai.width payload = Some (GridArea.width g)
  /\ Ai.height payload = Some (GridArea.height g)
  /\ Ai.bits payload = Some (GridArea.bits g)
  /\ strlen (GridArea.bits g) = GridArea.width g * GridArea.height g.
Proof.
  unfold normalizeAiArea.
  destruct (Ai.width payload) as [w|]; [|discriminate].
  destruct (Ai.height payload) as [h|]; [|discriminate].
  destruct (Ai.bits payload) as [t|]; [|discriminate].
  destruct ((w =? 0) || (h =? 0)); [discriminate|].
  destruct (Z.eqb_spec (strlen t) (w * h)) as [Heq|]; [|discriminate].
  cbn. intros [= <-]. cbn. auto.
Qed.

(** C1, as stated, fails: the grid of width 0, height 3 and the empty
    bit-string has a bit-string whose length equals width times height,
    yet [normalizeMdScope] throws instead of returning the grid. *)
Lemma grid_zero_width_is_rejected :
  Md.width (Some grid_0x3) = Some 0
  /\ Md.height (Some grid_0x3) = Some 3
  /\ Md.table (Some grid_0x3) = Some ""
  /\ strlen "" = 0 * 3
  /\ normalizeMdScope (Some grid_0x3)
     = Throw (Error "Invalid motion detection scope received from device")
  /\ normalizeAiArea (Some grid_0x3)
     = Throw (Error "Invalid AI detection area received from device").
Proof. repeat split. Qed.

(** C1 (amended): for a motion-detection scope or AI detection area with
    width [w], height [h] and bit-string [t], a bit-string whose length
    differs from [w * h] always makes normalization throw; when [w] and
    [h] are both non-zero and the length equals [w * h] the result is
    exactly [{ width: w, height: h, bits: t }]; whatever grid is
    returned carries the payload's own bit-string, of length width times
    height, never a truncated or padded one; and every payload whose
    width is 0 or whose height is 0 is rejected as invalid, whatever its
    bit-string. *)
Theorem grid_normalization (scope : option ScopePayload.t) :
  (forall w h t,
      Md.width scope = Some w -> Md.height scope = Some h -> Md.table scope = Some t ->
      (strlen t <> w * h -> exists e, normalizeMdScope scope = Throw e)
      /\ (w <> 0 -> h <> 0 -> strlen t = w * h ->
          normalizeMdScope scope = Ok (GridArea.mk w h t)))
  /\ (forall w h t,
      Ai.width scope = Some w -> Ai.height scope = Some h -> Ai.bits scope = Some t ->
      (strlen t <> w * h -> exists e, normalizeAiArea scope = Throw e)
      /\ (w <> 0 -> h <> 0 -> strlen t = w * h ->
          normalizeAiArea scope = Ok (GridArea.mk w h t)))
  /\ (forall g, normalizeMdScope scope = Ok g ->
        Md.table scope = Some (GridArea.bits g)
        /\ strlen (GridArea.bits g) = GridArea.width g * GridArea.height g)
  /\ (forall g, normalizeAiArea scope = Ok g ->
        Ai.bits scope = Some (GridArea.bits g)
        /\ strlen (GridArea.bits g) = GridArea.width g * GridArea.height g)
  /\ (Md.width scope = Some 0 \/ Md.height scope = Some 0 ->
      normalizeMdScope scope
      = Throw (Error "Invalid motion detection scope received from device"))
  /\ (Ai.width scope = Some 0 \/ Ai.height scope = Some 0 ->
      normalizeAiArea scope
      = Throw (Error "Invalid AI detection area received from device")).
Proof.
  split; [|split; [|split; [|split; [|split]]]].
  - intros w h t Hw Hh Ht. unfold normalizeMdScope. rewrite Hw, Hh, Ht.
    apply grid_check.
  - intros w h t Hw Hh Ht. unfold normalizeAiArea. rewrite Hw, Hh, Ht.
    apply grid_check.
  - intros g Hg. apply normalizeMdScope_sound in Hg. tauto.
  - intros g Hg. apply normalizeAiArea_sound in Hg. tauto.
  - unfold normalizeMdScope.
    destruct (Md.width scope) as [w|], (Md.height scope) as [h|],
      (Md.table scope) as [t|]; intros [Hz|Hz]; try discriminate;
      try reflexivity; injection Hz as ->; cbn [Z.eqb orb];
      rewrite ?orb_true_r; reflexivity.
  - unfold normalizeAiArea.
    destruct (Ai.width scope) as [w|], (Ai.height scope) as [h|],
      (Ai.bits scope) as [t|]; intros [Hz|Hz]; try discriminate;
      try reflexivity; injection Hz as ->; cbn [Z.eqb orb];
      rewrite ?orb_true_r; reflexivity.
Qed.

Lemma grid_normalization_witness :
  normalizeMdScope (Some grid_4x3) = Ok (GridArea.mk 4 3 "111100001111")
  /\ (exists e, normalizeMdScope (Some grid_4x3_short) = Throw e)
  /\ normalizeAiArea (Some grid_4x3) = Ok (GridArea.mk 4 3 "111100001111")
  /\ (exists e, normalizeAiArea (Some grid_4x3_short) = Throw e)
  /\ normalizeMdScope (Some grid_0x3)
     = Throw (Error "Invalid motion detection scope received from device")
  /\ normalizeAiArea (Some grid_0x3)
     = Throw (Error "Invalid AI detection area received from device").
Proof.
  split; [|split; [|split; [|split; [|split]]]].
  - apply (proj1 (grid_normalization (Some grid_4x3)) 4 3 "111100001111");
      first [reflexivity | discriminate].
  - apply (proj1 (grid_normalization (Some grid_4x3_short)) 4 3 "11110000111");
      first [reflexivity | discriminate].
  - apply (proj1 (proj2 (grid_normalization (Some grid_4x3))) 4 3 "111100001111");
      first [reflexivity | discriminate].
  - apply (proj1 (proj2 (grid_normalization (Some grid_4x3_short))) 4 3 "11110000111");
      first [reflexivity | discriminate].
  - apply (proj1 (proj2 (proj2 (proj2 (proj2 (grid_normalization (Some grid_0x3))))))).
    left. reflexivity.
  - apply (proj2 (proj2 (proj2 (proj2 (proj2 (grid_normalization (Some grid_0x3))))))).
    left. reflexivity.
Defined.

(** ** Preset collections *)

Lemma present_nullish (v : JS.value) : present v <-> nullish v = false.
Proof.
  unfold present. destruct v; cbn; split; intros H;
    try reflexivity; try discriminate; try (split; discriminate);
    destruct H as [H1 H2]; congruence.
Qed.

Lemma scanValue_scalar (v : JS.value) : scalar v -> scanValue v = None.
Proof.
  destruct v; cbn; intros H; try contradiction; unfold scanValue; cbn;
    rewrite ?andb_false_r; reflexivity.
Qed.

Lemma scanKeys_skip (before rest : JS.object) :
  Forall scalar (map snd before) -> scanKeys (before ++ rest) = scanKeys rest.
Proof.
  induction before as [|[k v] before IH]; cbn; intros H; [reflexivity|].
  inversion H as [|? ? Hv Hrest]; subst.
  rewrite (scanValue_scalar _ Hv). auto.
Qed.

Lemma rawPresetList_array (data : list JS.value) : rawPresetList (VArr data) = data.
Proof. reflexivity. Qed.

Lemma scalar_unusable (v : JS.value) :
  scalar v ->
  truthy v && isObjectType v && negb (isArray v) = false /\ isArray v = false.
Proof.
  destruct v; cbn; intros H; try contradiction;
    rewrite ?andb_false_r; auto.
Qed.

Lemma prop_array_has (o : JS.object) (k : string) (data : list JS.value) :
  prop o k = VArr data -> has k o = true.
Proof. unfold prop, has. destruct (lookup k o); [reflexivity|discriminate]. Qed.

Lemma findRawPresets_fallback (o : JS.object) :
  scalar (prop o "PtzPreset") ->
  truthy (prop o "preset") = false ->
  truthy (prop o "Presets") = false ->
  findRawPresets (VObj o) = scanKeys o.
Proof.
  intros H1 H2 H3. unfold findRawPresets. cbn [get].
  destruct (scalar_unusable _ H1) as [-> ->]. rewrite H2, H3. reflexivity.
Qed.

Section PresetFacts.
Context {B : Builtins}.

(** Whatever recognised shape carries the entries, the result is the
    filter-and-map of those entries. *)
Lemma encodes_normalizes (channel : Z) (response : JS.value) (data : list JS.value) :
  encodes response data ->
  normalizePresets channel response = mapPresets channel data.
Proof.
  intros H. unfold normalizePresets.
  destruct H as [o inner data H1 H2 | o data H1 | o data H1 H2 | o single H1 H2
                | o data H1 H2 H3 | o single H1 H2 H3 | data
                | o before after key head tail Ho H1 H2 H3 Hs Hid
                | o before after inner key data Ho H1 H2 H3 Hs Hin];
    cbn [truthy negb].
  - unfold findRawPresets. cbn [get]. rewrite H1. cbn. rewrite H2. reflexivity.
  - unfold findRawPresets. cbn [get]. rewrite H1. reflexivity.
  - unfold findRawPresets. cbn [get].
    destruct (scalar_unusable _ H1) as [-> ->]. rewrite H2. reflexivity.
  - unfold findRawPresets. cbn [get].
    destruct (scalar_unusable _ H1) as [-> ->]. rewrite H2. reflexivity.
  - unfold findRawPresets. cbn [get].
    destruct (scalar_unusable _ H1) as [-> ->]. rewrite H2, H3. reflexivity.
  - unfold findRawPresets. cbn [get].
    destruct (scalar_unusable _ H1) as [-> ->]. rewrite H2, H3. reflexivity.
  - reflexivity.
  - rewrite (findRawPresets_fallback _ H1 H2 H3). rewrite Ho.
    rewrite (scanKeys_skip _ _ Hs). cbn [scanKeys].
    assert (Hscan : scanValue (VArr (VObj head :: tail)) = Some (VArr (VObj head :: tail))).
    { unfold scanValue. cbn.
      destruct Hid as [Hid|Hid]; rewrite Hid; rewrite ?orb_true_r; reflexivity. }
    rewrite Hscan. reflexivity.
  - rewrite (findRawPresets_fallback _ H1 H2 H3). rewrite Ho.
    rewrite (scanKeys_skip _ _ Hs). cbn [scanKeys].
    assert (Hscan : scanValue (VObj inner) = Some (VArr data)).
    { unfold scanValue. cbn. rewrite (prop_array_has _ _ _ Hin), Hin. reflexivity. }
    rewrite Hscan. reflexivity.
Qed.

Lemma mapPresets_app (channel : Z) (l1 l2 : list JS.value) :
  mapPresets channel (l1 ++ l2) = mapPresets channel l1 ++ mapPresets channel l2.
Proof. unfold mapPresets. rewrite filter_app, map_app. reflexivity. Qed.

Lemma mapPresets_cons (channel : Z) (e : JS.value) (l : list JS.value) :
  mapPresets channel (e :: l)
  = if keepPreset e then toPtzPreset channel e :: mapPresets channel l
    else mapPresets channel l.
Proof. unfold mapPresets. cbn. destruct (keepPreset e); reflexivity. Qed.

Lemma identified_kept (e v : JS.value) :
  identified e v ->
  keepPreset e = true
  /\ coalesce (get e "id") (coalesce (get e "ID") (VNum 0)) = v.
Proof.
  intros [o w Hid Hp | o w Hno HID Hp]; unfold keepPreset, coalesce; cbn.
  - rewrite Hid. apply present_nullish in Hp. rewrite Hp. auto.
  - rewrite HID.
    assert (Hn : nullish (prop o "id") = true).
    { destruct (nullish (prop o "id")) eqn:E; [reflexivity|].
      apply present_nullish in E. contradiction. }
    apply present_nullish in Hp. rewrite Hn, Hp. auto.
Qed.

Lemma unidentified_dropped (e : JS.value) :
  (forall v, ~ identified e v) -> keepPreset e = false.
Proof.
  intros H. unfold keepPreset.
  destruct e as [| |b|n|s|l|o]; try reflexivity. cbn.
  destruct (nullish (prop o "id")) eqn:E1.
  - destruct (nullish (prop o "ID")) eqn:E2; [reflexivity|].
    exfalso. apply (H (prop o "ID")). apply by_ID.
    + intros Hp. apply present_nullish in Hp. congruence.
    + reflexivity.
    + apply present_nullish. assumption.
  - exfalso. apply (H (prop o "id")). apply by_id; [reflexivity|].
    apply present_nullish. assumption.
Qed.

Lemma listPresets_resolved (client : Client JS.value) (channel : Z)
    (response : JS.value) :
  answers client channel response ->
  listPresets client channel
  = ([Exchange (Call "GetPtzPreset" (VObj [("channel", VNum channel)]) (Some 1))],
     Ok (normalizePresets channel response)).
Proof. unfold answers, listPresets. intros ->. reflexivity. Qed.

End PresetFacts.

(** C5: two responses that carry the same ordered raw entries, each in one
    of the shapes [listPresets] knows (array under [PtzPreset.preset],
    [PtzPreset] itself an array, root-level [preset] or [Presets] as an
    array or as a singular object standing for a one-element sequence,
    root-level array, or the duck-typed fallback under any other key),
    normalise to the same canonical preset sequence. *)
Theorem alternate_shapes_agree {B : Builtins} (client1 client2 : Client JS.value)
    (channel : Z) (response1 response2 : JS.value) (data : list JS.value) :
  answers client1 channel response1 ->
  answers client2 channel response2 ->
  encodes response1 data ->
  encodes response2 data ->
  listPresets client1 channel = listPresets client2 channel.
Proof.
  intros A1 A2 H1 H2.
  rewrite (listPresets_resolved client1 channel response1 A1).
  rewrite (listPresets_resolved client2 channel response2 A2).
  rewrite (encodes_normalizes channel _ _ H1), (encodes_normalizes channel _ _ H2).
  reflexivity.
Qed.

Lemma alternate_shapes_agree_witness :
  listPresets (B := IntBuiltins)
    (replying (VObj [("PtzPreset", VObj [("preset", VArr sample_entries)])])) 0
  = listPresets (B := IntBuiltins)
      (replying (VObj [("channel", VNum 0); ("presetList", VArr sample_entries)])) 0.
Proof.
  apply (@alternate_shapes_agree IntBuiltins _ _ 0
           (VObj [("PtzPreset", VObj [("preset", VArr sample_entries)])])
           (VObj [("channel", VNum 0); ("presetList", VArr sample_entries)])
           sample_entries).
  - reflexivity.
  - reflexivity.
  - apply (wrapped_array _ [("preset", VArr sample_entries)]); reflexivity.
  - apply (duck_typed _ [("channel", VNum 0)] [] "presetList"
             [("id", VNum 1); ("name", VStr "Entrance"); ("enable", VNum 1)]
             [VNull; entry 2 "Parking" 0]).
    + reflexivity.
    + exact I.
    + reflexivity.
    + reflexivity.
    + repeat constructor.
    + left. reflexivity.
Defined.

(** Outside those shapes the priority order decides: a [PtzPreset] object
    that lacks [preset] ends the search, and a root-level [preset] next
    to it is not read. *)
Lemma wrapper_without_preset_ends_search :
  findRawPresets hybrid_response = VNull
  /\ normalizePresets (B := IntBuiltins) 0 hybrid_response = [].
Proof. split; reflexivity. Qed.

(** C6, as stated, fails: an entry whose [id] key is present with the
    value [null] has an identifying key, yet it is excluded. *)
Lemma null_id_entry_is_excluded :
  has_key "id" entry_null_id = true
  /\ snd (listPresets (B := IntBuiltins) (replying (VArr [entry_null_id])) 0) = Ok []
  /\ snd (listPresets (B := IntBuiltins)
            (replying (VObj [("PtzPreset", VObj [("preset", VArr [entry_null_id])])])) 0)
     = Ok [].
Proof. repeat split. Qed.

(** C6 (amended): in a response that carries the raw entries
    [before ++ entry :: after], an entry that is null, not an object, or
    whose [id] and [ID] are both missing or null is excluded: the result
    is that of the response without it.  An entry with a non-null [id], or
    else a non-null [ID], is retained in place, and its identity is the
    conversion of that very value, never a synthesized one. *)
Theorem unidentified_entries_are_excluded {B : Builtins} (client : Client JS.value)
    (channel : Z) (response : JS.value) (before after : list JS.value)
    (entry : JS.value) :
  answers client channel response ->
  encodes response (before ++ entry :: after) ->
  ((forall v, ~ identified entry v) ->
   snd (listPresets client channel) = Ok (mapPresets channel (before ++ after)))
  /\ (forall v, identified entry v ->
      snd (listPresets client channel)
      = Ok (mapPresets channel before
            ++ toPtzPreset channel entry :: mapPresets channel after)
      /\ PtzPreset.id (toPtzPreset channel entry) = Number v).
Proof.
  intros Hans Henc. rewrite (listPresets_resolved client channel response Hans).
  cbn [snd]. rewrite (encodes_normalizes channel _ _ Henc).
  rewrite !mapPresets_app, mapPresets_cons. split.
  - intros Hno. rewrite (unidentified_dropped _ Hno). reflexivity.
  - intros v Hid. destruct (identified_kept _ _ Hid) as [Hkeep Hval].
    rewrite Hkeep. split; [reflexivity|].
    unfold toPtzPreset. cbn. rewrite Hval. reflexivity.
Qed.

Lemma unidentified_entries_are_excluded_witness :
  snd (listPresets (B := IntBuiltins)
         (replying (VObj [("PtzPreset", VObj [("preset", VArr sample_entries)])])) 0)
  = Ok (mapPresets 0 ([entry 1 "Entrance" 1] ++ [entry 2 "Parking" 0])).
Proof.
  refine (proj1 (@unidentified_entries_are_excluded IntBuiltins
                   (replying (VObj [("PtzPreset", VObj [("preset", VArr sample_entries)])]))
                   0
                   (VObj [("PtzPreset", VObj [("preset", VArr sample_entries)])])
                   [entry 1 "Entrance" 1] [entry 2 "Parking" 0] VNull _ _) _).
  - reflexivity.
  - apply (wrapped_array [("PtzPreset", VObj [("preset", VArr sample_entries)])]
             [("preset", VArr sample_entries)] sample_entries); reflexivity.
  - intros v H. inversion H.
Defined.

(** C9, as stated, fails: an entry whose [enable] key is present with the
    value [null], which is neither the integer 1 nor [true], normalises to
    an enabled preset. *)
Lemma null_enable_flag_is_enabled :
  has_key "enable" entry_null_enable = true
  /\ get entry_null_enable "enable" <> VNum 1
  /\ get entry_null_enable "enable" <> VBool true
  /\ PtzPreset.enable (toPtzPreset (B := IntBuiltins) 0 entry_null_enable) = true
  /\ snd (listPresets (B := IntBuiltins) (replying (VArr [entry_null_enable])) 0)
     = Ok [PtzPreset.mk (B := IntBuiltins) (Some 1) "Gate" true (Some 0)].
Proof. repeat split; discriminate. Qed.

(** C9 (amended): the canonical [enable] of a raw entry is [true] when
    the entry has no [enable] key or the key holds [null]; when the key
    holds the integer 1 or the boolean [true] it is [true]; for any other
    non-null value it is [false]. *)
Theorem enable_flag_normalization {B : Builtins} (channel : Z) (o : JS.object) :
  (lookup "enable" o = None ->
   PtzPreset.enable (toPtzPreset channel (VObj o)) = true)
  /\ (lookup "enable" o = Some VNull \/ lookup "enable" o = Some VUndefined ->
      PtzPreset.enable (toPtzPreset channel (VObj o)) = true)
  /\ (lookup "enable" o = Some (VNum 1) \/ lookup "enable" o = Some (VBool true) ->
      PtzPreset.enable (toPtzPreset channel (VObj o)) = true)
  /\ (forall v, lookup "enable" o = Some v -> present v ->
      v <> VNum 1 -> v <> VBool true ->
      PtzPreset.enable (toPtzPreset channel (VObj o)) = false).
Proof.
  unfold toPtzPreset. cbn [PtzPreset.enable get]. unfold prop.
  split; [|split; [|split]].
  - intros ->. reflexivity.
  - intros [-> | ->]; reflexivity.
  - intros [-> | ->]; reflexivity.
  - intros v -> Hp H1 Ht. apply present_nullish in Hp. rewrite Hp. cbn.
    destruct v as [| |b|n|s|l|p]; cbn; try reflexivity.
    + destruct b; [congruence|reflexivity].
    + destruct (Z.eqb_spec n 1); [congruence|reflexivity].
Qed.

Lemma enable_flag_normalization_witness :
  PtzPreset.enable
    (toPtzPreset (B := IntBuiltins) 0 (VObj [("id", VNum 8); ("name", VStr "No Enable")]))
  = true
  /\ PtzPreset.enable
       (toPtzPreset (B := IntBuiltins) 0 (VObj [("id", VNum 4); ("enable", VNum 0)]))
     = false.
Proof.
  split.
  - apply (proj1 (@enable_flag_normalization IntBuiltins 0
                    [("id", VNum 8); ("name", VStr "No Enable")])).
    reflexivity.
  - apply (proj2 (proj2 (proj2 (@enable_flag_normalization IntBuiltins 0
                                   [("id", VNum 4); ("enable", VNum 0)]))) (VNum 0)).
    + reflexivity.
    + split; discriminate.
    + discriminate.
    + discriminate.
Defined.

(** ** Write operations *)

Lemma outside_none (v : JS.value) (lo hi : Z) :
  outside v lo hi = None <-> within v lo hi.
Proof.
  unfold outside, within. destruct v as [| |b|n|s|l|o];
    try (split; [intros _ m Hm; discriminate | reflexivity]).
  destruct (Z.ltb_spec n lo) as [Hlo|Hlo]; destruct (Z.gtb_spec n hi) as [Hhi|Hhi];
    cbn; split; intros Hx; try discriminate; try reflexivity;
    try (specialize (Hx n eq_refl); lia).
  intros m [= <-]. lia.
Qed.

Lemma checkPatrolStep_none (step : JS.value) (index : nat) :
  checkPatrolStep step index = None <-> step_in_range step.
Proof.
  unfold checkPatrolStep, step_in_range.
  destruct step as [| |b|n|s|l|o]; cbn [isObjectType typeof jstype_eqb is_null negb andb get];
    try (split; [intros _; split; intros m Hm; discriminate | reflexivity]).
  destruct (outside (prop o "id") 0 64) eqn:E1.
  - split; [discriminate|]. intros [H _]. apply outside_none in H.
    unfold get in H. congruence.
  - destruct (outside (prop o "speed") 1 64) eqn:E2.
    + split; [discriminate|]. intros [_ H]. apply outside_none in H.
      unfold get in H. congruence.
    + split; [|reflexivity]. intros _.
      split; apply outside_none; assumption.
Qed.

Lemma forEach_none (check : JS.value -> nat -> option exn) (ok : JS.value -> Prop) :
  (forall x i, check x i = None <-> ok x) ->
  forall l index, forEach check l index = None <-> Forall ok l.
Proof.
  intros Hc. induction l as [|x l IH]; intros index; cbn.
  - split; [constructor|reflexivity].
  - destruct (check x index) eqn:E.
    + split; [discriminate|]. intros H. inversion H; subst.
      apply (Hc x index) in H2. congruence.
    + rewrite IH. split.
      * intros H. constructor; [apply (Hc x index); assumption|assumption].
      * intros H. inversion H; assumption.
Qed.

(** [PresetsModule.setPatrol] sends its request exactly when the numeric
    patrol ID lies in 0..5, [preset] (if an array) has at most 16 steps
    and every step is in range; otherwise it throws before any
    exchange. *)
Lemma setPatrol_validates {T : Type} (client : Client T) (channel : Z)
    (payload : JS.object) :
  let steps := items (prop payload "preset") in
  (within (prop payload "id") 0 5 /\ (length steps <= 16)%nat /\ Forall step_in_range steps ->
   exists c, fst (setPatrol client channel payload) = [Exchange c]
             /\ cmd c = "SetPtzPatrol")
  /\ (~ (within (prop payload "id") 0 5 /\ (length steps <= 16)%nat
         /\ Forall step_in_range steps) ->
      exists e, setPatrol client channel payload = ([], Throw e)).
Proof.
  intros steps. unfold setPatrol. fold steps.
  assert (Hsend : forall c, exists c', fst (send client c) = [Exchange c'] /\ cmd c' = cmd c).
  { intros c. exists c. unfold send. destruct (client c); auto. }
  split.
  - intros (Hid & Hlen & Hsteps).
    apply outside_none in Hid. rewrite Hid.
    destruct (isArray (prop payload "preset")); [|apply Hsend].
    destruct (Z.ltb_spec 16 (Z.of_nat (length steps))) as [Hgt|_]; [lia|].
    apply (forEach_none checkPatrolStep step_in_range checkPatrolStep_none steps 0%nat) in Hsteps.
    rewrite Hsteps. apply Hsend.
  - intros Hbad.
    destruct (outside (prop payload "id") 0 5) eqn:Eid; [eexists; reflexivity|].
    apply outside_none in Eid.
    destruct (isArray (prop payload "preset")) eqn:Harr.
    2:{ exfalso. apply Hbad. subst steps.
        destruct (prop payload "preset"); try discriminate;
          (split; [assumption|split; [cbn; lia|constructor]]). }
    destruct (Z.ltb_spec 16 (Z.of_nat (length steps))) as [Hgt|Hle]; [eexists; reflexivity|].
    destruct (forEach checkPatrolStep steps 0) eqn:Esteps; [eexists; reflexivity|].
    exfalso. apply Hbad. split; [assumption|]. split; [lia|].
    apply (forEach_none checkPatrolStep step_in_range checkPatrolStep_none steps 0%nat).
    assumption.
Qed.

(** C7 at its failing input: [setPtzPatrol] validates the empty [preset]
    array, then builds the request from [points]; the step with preset ID
    99 and speed 100 is sent to the device, whatever the client answers,
    and no exception is raised when the device accepts it.  Without the
    empty [preset] array the same steps are rejected before any
    exchange. *)
Theorem setPtzPatrol_sends_unvalidated_points :
  ~ step_in_range (VObj [("id", VNum 99); ("speed", VNum 100); ("dwellTime", VNum 5)])
  /\ (forall client : Client (option ReolinkResponse),
        fst (setPtzPatrol client 0 mixed_patrol_config)
        = [Exchange
             (wrapPatrol 0
                [("channel", VNum 0); ("id", VNum 1); ("enable", VNum 1);
                 ("preset",
                  VArr [VObj [("id", VNum 99); ("speed", VNum 100);
                              ("dwellTime", VNum 5)]])])])
  /\ snd (setPtzPatrol accepting 0 mixed_patrol_config) = Ok tt
  /\ (forall client : Client (option ReolinkResponse),
        setPtzPatrol client 0 points_patrol_config
        = ([], Throw (Error
                 "Patrol step 0: preset ID must be between 0 and 64, got: 99"))).
Proof.
  split; [|split; [|split]].
  - intros [H _]. specialize (H 99 eq_refl). lia.
  - intros client. unfold setPtzPatrol. cbn. unfold catching, guarded.
    destruct (client _) as [response|e]; [|reflexivity].
    destruct (checkResponse response "SetPtzPatrol"); reflexivity.
  - reflexivity.
  - intros client. reflexivity.
Qed.

(** C10: [gotoPreset] never rejects a speed.  With a preset ID in 0..64
    it sends [PtzCtrl] / [ToPos] with a speed in 1..64: 1 for a requested
    speed below 1, 64 for one above 64, the requested speed otherwise, and
    32 when none is given.  A preset ID outside 0..64 is rejected before
    any exchange.  [ptzCtrl], in contrast, throws before any exchange on a
    speed outside 1..64. *)
Theorem gotoPreset_clamps_speed {T : Type} (client : Client T) (channel id : Z)
    (opts : PtzMoveOptions.t) :
  (0 <= id <= 64 ->
   exists speed rest,
     fst (gotoPreset client channel id opts)
     = Exchange (Call "PtzCtrl"
                   (VObj [("channel", VNum channel); ("op", VStr "ToPos");
                          ("id", VNum id); ("speed", VNum speed)]) None) :: rest
     /\ 1 <= speed <= 64
     /\ (forall s, PtzMoveOptions.speed opts = Some s ->
           (s < 1 -> speed = 1) /\ (64 < s -> speed = 64)
           /\ (1 <= s <= 64 -> speed = s))
     /\ (PtzMoveOptions.speed opts = None -> speed = 32))
  /\ (id < 0 \/ 64 < id ->
      exists e, gotoPreset client channel id opts = ([], Throw e))
  /\ (forall (params : PtzCtrlParams.t) (s : Z),
        PtzCtrlParams.speed params = Some s -> s < 1 \/ 64 < s ->
        exists e, ptzCtrl client params = ([], Throw e)).
Proof.
  split; [|split].
  - intros Hid. unfold gotoPreset.
    destruct (Z.ltb_spec id 0); [lia|]. destruct (Z.gtb_spec id 64); [lia|]. cbn [orb].
    set (speed := match PtzMoveOptions.speed opts with
                  | Some s => Z.max 1 (Z.min 64 s)
                  | None => 32
                  end).
    set (c := Call _ _ _).
    exists speed.
    exists (match client c with
            | Resolves _ =>
                if 0 <? withDefault (PtzMoveOptions.settleMs opts) DEFAULT_SETTLE_MS
                then [Delay (withDefault (PtzMoveOptions.settleMs opts) DEFAULT_SETTLE_MS)]
                else []
            | Rejects _ => []
            end).
    split; [|split; [|split]].
    + unfold withDefault. destruct (client c); [|reflexivity].
      destruct (0 <? _); reflexivity.
    + subst speed. destruct (PtzMoveOptions.speed opts); lia.
    + intros s Hs. subst speed. rewrite Hs. lia.
    + intros Hs. subst speed. rewrite Hs. reflexivity.
  - intros Hid. unfold gotoPreset.
    destruct (Z.ltb_spec id 0); [eexists; reflexivity|].
    destruct (Z.gtb_spec id 64); [eexists; reflexivity|]. lia.
  - intros params s Hs Hout. unfold ptzCtrl. rewrite Hs. unfold outsideOpt.
    destruct (Z.ltb_spec s 1); [eexists; reflexivity|].
    destruct (Z.gtb_spec s 64); [eexists; reflexivity|]. lia.
Qed.

Lemma gotoPreset_clamps_speed_witness :
  (exists speed rest,
     fst (gotoPreset accepting 0 5 (PtzMoveOptions.mk (Some 100) None))
     = Exchange (Call "PtzCtrl"
                   (VObj [("channel", VNum 0); ("op", VStr "ToPos");
                          ("id", VNum 5); ("speed", VNum speed)]) None) :: rest
     /\ 1 <= speed <= 64
     /\ (forall s, Some 100 = Some s ->
           (s < 1 -> speed = 1) /\ (64 < s -> speed = 64)
           /\ (1 <= s <= 64 -> speed = s))
     /\ (Some 100 = None -> speed = 32))
  /\ (exists e, gotoPreset accepting 0 65 (PtzMoveOptions.mk (Some 100) None)
                = ([], Throw e))
  /\ (exists e, ptzCtrl accepting
                  (PtzCtrlParams.mk 0 Left (Some 100) None None None None)
                = ([], Throw e)).
Proof.
  split; [|split].
  - apply (proj1 (gotoPreset_clamps_speed accepting 0 5
                    (PtzMoveOptions.mk (Some 100) None))). lia.
  - apply (proj1 (proj2 (gotoPreset_clamps_speed accepting 0 65
                           (PtzMoveOptions.mk (Some 100) None)))). lia.
  - apply (proj2 (proj2 (gotoPreset_clamps_speed accepting 0 0
                           (PtzMoveOptions.mk None None)))
             (PtzCtrlParams.mk 0 Left (Some 100) None None None None) 100).
    + reflexivity.
    + lia.
Defined.

(** ** Error propagation *)

(** The reply check of [setPtzGuard]: were the client to resolve with a
    reply that carries an error entry (here code -4 and detail "timeout
    out of range") instead of rejecting, the wrapper would throw the
    error [handlePtzError] builds for that code, with the code and the
    fixed text "Parameter format error". *)
Lemma setPtzGuard_replaces_detail :
  exists e,
    snd (setPtzGuard (refusing (-4) "timeout out of range") 0
           (PtzGuardOptions.mk (Some 1) None (Some 30) None None))
    = Throw (HttpError e)
    /\ ReolinkHttpError.rspCode e = -4
    /\ ReolinkHttpError.detail e = "Parameter format error"
    /\ ReolinkHttpError.detail e <> "timeout out of range".
Proof.
  eexists. split; [reflexivity|]. cbn. repeat split. discriminate.
Qed.

(** The reply check and the catch block shared by the wrappers with a
    [try] of their own ([guarded]): a [ReolinkHttpError] rejected by the
    client is rethrown unchanged; an error entry found in a resolved
    reply, or an [Error] carrying an [rspCode], with a non-zero code
    becomes the [ReolinkHttpError] of [handlePtzError], which has that
    same code. *)
Lemma device_code_is_preserved (client : Client (option ReolinkResponse))
    (c : call) (command : string) :
  (forall code rspCode detail cmd,
      ReolinkHttpError.rspCode (ReolinkHttpError.new code rspCode detail cmd) = rspCode
      /\ ReolinkHttpError.detail (ReolinkHttpError.new code rspCode detail cmd) = detail)
  /\ (forall e, client c = Rejects (HttpError e) ->
        guarded client c command = ([Exchange c], Throw (HttpError e)))
  /\ (forall code error,
        client c = Resolves (Some (ResponseError code error)) ->
        ReolinkError.rspCode error <> 0 ->
        exists e, guarded client c command = ([Exchange c], Throw (HttpError e))
                  /\ ReolinkHttpError.rspCode e = ReolinkError.rspCode error
                  /\ HttpError e = handlePtzError (ReolinkError.rspCode error) command)
  /\ (forall message rspCode,
        client c = Rejects (ErrorWithRspCode message rspCode) ->
        rspCode <> 0 ->
        exists e, guarded client c command = ([Exchange c], Throw (HttpError e))
                  /\ ReolinkHttpError.rspCode e = rspCode
                  /\ HttpError e = handlePtzError rspCode command).
Proof.
  assert (Hh : forall rsp, rsp <> 0 ->
            exists e, handlePtzError rsp command = HttpError e
                      /\ ReolinkHttpError.rspCode e = rsp).
  { intros rsp Hrsp. unfold handlePtzError.
    destruct (Z.eqb_spec rsp 0); [contradiction|].
    destruct (Z.eqb_spec rsp (-1)); [subst; eexists; split; reflexivity|].
    destruct (Z.eqb_spec rsp (-4)); [subst; eexists; split; reflexivity|].
    destruct (Z.eqb_spec rsp (-9)); [subst; eexists; split; reflexivity|].
    eexists; split; reflexivity. }
  split; [|split; [|split]].
  - intros. split; reflexivity.
  - intros e He. unfold guarded. rewrite He. reflexivity.
  - intros code error Hc Hne. unfold guarded. rewrite Hc. cbn [checkResponse].
    destruct (Hh _ Hne) as (e & He & Hcode). exists e. rewrite He. cbn [rethrow]. auto.
  - intros message rspCode Hc Hne. unfold guarded. rewrite Hc. cbn [rethrow].
    destruct (Hh _ Hne) as (e & He & Hcode). exists e. rewrite He. auto.
Qed.

Lemma device_code_is_preserved_witness :
  exists e,
    guarded (refusing (-4) "timeout out of range")
      (Call "SetPtzGuard" (VObj []) None) "SetPtzGuard"
    = ([Exchange (Call "SetPtzGuard" (VObj []) None)], Throw (HttpError e))
    /\ ReolinkHttpError.rspCode e = -4
    /\ HttpError e = handlePtzError (-4) "SetPtzGuard".
Proof.
  apply (proj1 (proj2 (proj2
           (device_code_is_preserved (refusing (-4) "timeout out of range")
              (Call "SetPtzGuard" (VObj []) None) "SetPtzGuard")))
           1 (ReolinkError.mk (-4) "timeout out of range")).
  - reflexivity.
  - discriminate.
Defined.




(** ** Request engine *)

Module EngineFacts.
Import Engine.

Section WithDevice.
Variable Device : Type.
Variable respond : Device -> Request -> Reply * Device.

Lemma bind_done {A C : Type} (m : M Device A) (k : A -> M Device C)
    (st st' : State Device) (c : C) :
  bind m k st = (Done c, st') ->
  exists a st1, m st = (Done a, st1) /\ k a st1 = (Done c, st').
Proof.
  unfold bind. destruct (m st) as [[a|e] st1]; [|discriminate].
  intros H. exists a, st1. auto.
Qed.

Lemma exchange_spec (r : Request) (st : State Device) :
  exists reply d,
    respond (device st) r = (reply, d)
    /\ exchange respond r st
       = (Done reply, mkState (session st) d (log st ++ [(r, reply)])).
Proof.
  unfold exchange. destruct (respond (device st) r) as [reply d].
  exists reply, d. auto.
Qed.

Lemma find_token_invalid (es : list ResultEntry) :
  (existsb isTokenInvalid es = true ->
   exists c d, firstTokenInvalid es = Some (Failure c d))
  /\ (existsb isTokenInvalid es = false -> firstTokenInvalid es = None).
Proof.
  unfold firstTokenInvalid.
  induction es as [|e es [IH1 IH2]]; cbn; split; intros H;
    try discriminate; try reflexivity.
  - destruct e as [v|c d]; cbn in *; [auto|].
    destruct (c =? TOKEN_INVALID); [eauto|auto].
  - destruct (isTokenInvalid e); [discriminate|auto].
Qed.

Lemma conclude_settles (reply : Reply) : settles reply (conclude reply).
Proof.
  unfold settles, conclude. destruct reply as [es| |]; cbn.
  - destruct (find_token_invalid es) as [H1 H2]. split; intros H.
    + destruct (H1 H) as (c & d & ->). eauto.
    + rewrite (H2 H). reflexivity.
  - split; [eauto|discriminate].
  - split; [discriminate|reflexivity].
Qed.

Lemma attach_valid (now : Z) (st : State Device) (c : CredentialContext) :
  mode (session st) = Persistent ->
  credential (session st) = Some c ->
  now < issuedAt c + leaseSeconds c ->
  attach respond now st = (Done (Token (token c)), st).
Proof.
  intros Hm Hc Hv.
  unfold attach, bind, getSession, currentToken, bind, getSession, ret.
  rewrite Hm, Hc. apply Z.ltb_lt in Hv. rewrite Hv. reflexivity.
Qed.

(** The first exchange of [submit] on an open persistent session with a
    valid token. *)
Lemma submit_first (now : Z) (commands : list Envelope) (st : State Device)
    (c : CredentialContext) (reply1 : Reply) (d1 : Device) :
  commands <> [] ->
  closed (session st) = false ->
  mode (session st) = Persistent ->
  credential (session st) = Some c ->
  now < issuedAt c + leaseSeconds c ->
  respond (device st) (Batch (Token (token c)) commands) = (reply1, d1) ->
  submit respond now commands st
  = (if tokenInvalid reply1 then resubmit respond now commands
     else match reply1 with
          | Body es => ret es
          | Unauthorized | Unreachable => fail TransportError
          end)
      (mkState (session st) d1 (log st ++ [(Batch (Token (token c)) commands, reply1)])).
Proof.
  intros Hne Hopen Hmode Hcred Hvalid Hr1.
  destruct commands as [|c0 cs]; [contradiction|].
  unfold submit. unfold bind at 1. unfold getSession at 1. rewrite Hopen.
  unfold bind at 1. rewrite (attach_valid now st c Hmode Hcred Hvalid).
  unfold bind at 1. unfold exchange at 1. rewrite Hr1. reflexivity.
Qed.

(** The retry: one login exchange, then one batch exchange. *)
Lemma resubmit_run (now : Z) (commands : list Envelope) (st : State Device)
    (v : JS.value) (rest : list ResultEntry) (t : string) (lease : Z)
    (d2 d3 : Device) (reply2 : Reply) :
  mode (session st) = Persistent ->
  respond (device st) (Login (username (session st)) (password (session st)))
  = (Body (Success v :: rest), d2) ->
  tokenOf v = Some (t, lease) ->
  respond d2 (Batch (Token t) commands) = (reply2, d3) ->
  resubmit respond now commands st
  = (conclude reply2,
     mkState
       (mkSession Persistent (username (session st)) (password (session st))
          (Some (mkCredential t now lease)) (closed (session st)))
       d3
       (log st
        ++ [(Login (username (session st)) (password (session st)),
             Body (Success v :: rest));
            (Batch (Token t) commands, reply2)])).
Proof.
  intros Hmode Hlogin Htok Hr2.
  unfold resubmit, bind, invalidate, setCredential, attach, bind, getSession,
    currentToken, bind, getSession, authenticate, bind, getSession, exchange, lift.
  cbn. rewrite Hmode. cbn. rewrite Hlogin. rewrite Htok. cbn. rewrite Hr2.
  rewrite <- app_assoc. reflexivity.
Qed.

End WithDevice.

(** A successful [submit] of a non-empty sequence ends with the exchange
    of a batch carrying exactly that sequence, and returns the entries of
    its reply. *)
Lemma submit_done (Device : Type) (respond : Device -> Request -> Reply * Device)
    (now : Z) (commands : list Envelope) (st st' : State Device)
    (results : list ResultEntry) :
  commands <> [] ->
  submit respond now commands st = (Done results, st') ->
  exists auth (st1 : State Device),
    respond (device st1) (Batch auth commands) = (Body results, device st')
    /\ log st' = log st1 ++ [(Batch auth commands, Body results)].
Proof.
  intros Hne H. destruct commands as [|c0 cs]; [contradiction|].
  set (commands := c0 :: cs) in *.
  assert (Hlast : forall auth (st1 st2 : State Device) reply,
      exchange respond (Batch auth commands) st1 = (Done reply, st2) ->
      respond (device st1) (Batch auth commands) = (reply, device st2)
      /\ log st2 = log st1 ++ [(Batch auth commands, reply)]).
  { intros auth st1 st2 reply He.
    destruct (exchange_spec Device respond (Batch auth commands) st1)
      as (r & d & Hr & Hx).
    rewrite Hx in He. injection He as <- <-. auto. }
  unfold submit in H. fold commands in H.
  apply bind_done in H. destruct H as (s & st0 & Hs & H).
  destruct (closed s); [discriminate|].
  apply bind_done in H. destruct H as (auth & st1 & Hauth & H).
  apply bind_done in H. destruct H as (reply & st2 & Hex & H).
  destruct (tokenInvalid reply) eqn:Hti.
  - unfold resubmit in H.
    apply bind_done in H. destruct H as (u & st3 & Hinv & H).
    apply bind_done in H. destruct H as (auth' & st4 & Hauth' & H).
    apply bind_done in H. destruct H as (reply' & st5 & Hex' & H).
    destruct (Hlast _ _ _ _ Hex') as [Hresp Hlog].
    unfold lift, conclude in H.
    destruct reply' as [es| |]; try discriminate.
    assert (Hres : results = es /\ st' = st5).
    { destruct (firstTokenInvalid es) as [[|]|]; try discriminate;
        injection H as <- <-; auto. }
    destruct Hres as [-> ->]. exists auth', st4. auto.
  - destruct (Hlast _ _ _ _ Hex) as [Hresp Hlog].
    destruct reply as [es| |]; try discriminate.
    injection H as <- <-. exists auth, st1. auto.
Qed.

Lemma evaluating_contract (evaluate : Envelope -> ResultEntry) (d : unit)
    (auth : Credentials) (commands : list Envelope) (entries : list ResultEntry)
    (d' : unit) :
  Examples.evaluating evaluate d (Batch auth commands) = (Body entries, d') ->
  length entries = length commands.
Proof.
  cbn. intros [= <- _]. induction commands; cbn; congruence.
Qed.

(** Against a device that evaluates each envelope on its own, result [i]
    is the evaluation of command [i]. *)
Lemma submit_answers_each_command (evaluate : Envelope -> ResultEntry) (now : Z)
    (commands : list Envelope) (st st' : State unit) (results : list ResultEntry) :
  commands <> [] ->
  submit (Examples.evaluating evaluate) now commands st = (Done results, st') ->
  results = map evaluate commands
  /\ forall i c, nth_error commands i = Some c ->
                 nth_error results i = Some (evaluate c).
Proof.
  intros Hne H.
  destruct (submit_done unit (Examples.evaluating evaluate) now commands st st'
              results Hne H) as (auth & st1 & Hresp & _).
  cbn in Hresp. injection Hresp as <-. split; [reflexivity|].
  intros i c Hc. apply map_nth_error. assumption.
Qed.

(** C4: submitting an empty command sequence returns the empty result
    sequence and leaves the session, the device and the log of exchanges
    as they were: no exchange takes place. *)
Theorem submit_empty_is_a_no_op (Device : Type)
    (respond : Device -> Request -> Reply * Device) (now : Z) (st : State Device) :
  submit respond now [] st = (Done [], st)
  /\ log (snd (submit respond now [] st)) = log st.
Proof. split; reflexivity. Qed.

(** C3: when a non-empty command sequence is submitted and results come
    back, they are the entries of the device's reply to a batch that
    carried exactly the submitted commands in their order, handed back
    position by position; the device answering every batch with one entry
    per envelope, the results are as many as the commands. *)
Theorem submit_preserves_order (Device : Type)
    (respond : Device -> Request -> Reply * Device)
    (contract : forall d auth commands entries d',
        respond d (Batch auth commands) = (Body entries, d') ->
        length entries = length commands)
    (now : Z) (commands : list Envelope) (st st' : State Device)
    (results : list ResultEntry) :
  commands <> [] ->
  submit respond now commands st = (Done results, st') ->
  length results = length commands
  /\ exists auth d earlier,
       respond d (Batch auth commands) = (Body results, device st')
       /\ log st' = earlier ++ [(Batch auth commands, Body results)].
Proof.
  intros Hne H.
  destruct (submit_done Device respond now commands st st' results Hne H)
    as (auth & st1 & Hresp & Hlog).
  split.
  - apply (contract _ _ _ _ _ Hresp).
  - exists auth, (device st1), (log st1). auto.
Qed.

Lemma submit_preserves_order_witness :
  length [Success (VObj [("name", VStr "Device1")]); Success (VObj [("channel", VNum 0)])]
  = length [Examples.GetDevInfo; Examples.GetEnc]
  /\ exists auth d earlier,
       Examples.evaluating Examples.answer d
         (Batch auth [Examples.GetDevInfo; Examples.GetEnc])
       = (Body [Success (VObj [("name", VStr "Device1")]);
                Success (VObj [("channel", VNum 0)])], tt)
       /\ log (snd (submit (Examples.evaluating Examples.answer) 10
                      [Examples.GetDevInfo; Examples.GetEnc]
                      (mkState (Examples.loggedIn "test-token") tt [])))
          = earlier
            ++ [(Batch auth [Examples.GetDevInfo; Examples.GetEnc],
                 Body [Success (VObj [("name", VStr "Device1")]);
                       Success (VObj [("channel", VNum 0)])])].
Proof.
  apply (submit_preserves_order unit (Examples.evaluating Examples.answer)
           (evaluating_contract Examples.answer) 10
           [Examples.GetDevInfo; Examples.GetEnc]
           (mkState (Examples.loggedIn "test-token") tt [])
           (snd (submit (Examples.evaluating Examples.answer) 10
                   [Examples.GetDevInfo; Examples.GetEnc]
                   (mkState (Examples.loggedIn "test-token") tt [])))
           [Success (VObj [("name", VStr "Device1")]);
            Success (VObj [("channel", VNum 0)])]).
  - discriminate.
  - reflexivity.
Defined.

(** C2: on an open persistent session holding a valid token, a batch
    whose reply carries no token-invalid signal costs exactly one
    exchange and is surfaced as it came (a failed exchange as
    TransportError), without any retry.  A reply with the token-invalid
    signal is followed by exactly one login exchange and exactly one
    resubmission of the same ordered envelopes under the new token, and by
    nothing more; if the resubmission is again token-invalid the caller
    gets an AuthError, otherwise the resubmission's outcome. *)
Theorem token_invalid_is_retried_once (Device : Type)
    (respond : Device -> Request -> Reply * Device)
    (now : Z) (commands : list Envelope) (st : State Device)
    (c : CredentialContext) (reply1 : Reply) (d1 : Device) :
  commands <> [] ->
  closed (session st) = false ->
  mode (session st) = Persistent ->
  credential (session st) = Some c ->
  now < issuedAt c + leaseSeconds c ->
  respond (device st) (Batch (Token (token c)) commands) = (reply1, d1) ->
  (tokenInvalid reply1 = false ->
   log (snd (submit respond now commands st))
   = log st ++ [(Batch (Token (token c)) commands, reply1)]
   /\ settles reply1 (fst (submit respond now commands st)))
  /\ (tokenInvalid reply1 = true ->
      forall v rest t lease d2 reply2 d3,
        respond d1 (Login (username (session st)) (password (session st)))
        = (Body (Success v :: rest), d2) ->
        tokenOf v = Some (t, lease) ->
        respond d2 (Batch (Token t) commands) = (reply2, d3) ->
        log (snd (submit respond now commands st))
        = log st
          ++ [(Batch (Token (token c)) commands, reply1);
              (Login (username (session st)) (password (session st)),
               Body (Success v :: rest));
              (Batch (Token t) commands, reply2)]
        /\ settles reply2 (fst (submit respond now commands st))).
Proof.
  intros Hne Hopen Hmode Hcred Hvalid Hr1.
  rewrite (submit_first Device respond now commands st c reply1 d1
             Hne Hopen Hmode Hcred Hvalid Hr1).
  split.
  - intros Hti. rewrite Hti. split.
    + destruct reply1; reflexivity.
    + unfold settles. split; [congruence|]. intros _. destruct reply1; reflexivity.
  - intros Hti v rest t lease d2 reply2 d3 Hlogin Htok Hr2. rewrite Hti.
    rewrite (resubmit_run Device respond now commands
               (mkState (session st) d1
                  (log st ++ [(Batch (Token (token c)) commands, reply1)]))
               v rest t lease d2 d3 reply2 Hmode Hlogin Htok Hr2).
    cbn [fst snd log session username password]. split.
    + rewrite <- app_assoc. reflexivity.
    + apply conclude_settles.
Qed.

Lemma token_invalid_is_retried_once_witness :
  log (snd (submit Examples.scripted 10 [Examples.GetDevInfo]
              (mkState (Examples.loggedIn "t0")
                 [Examples.tokenError; Examples.loginReply "t1"; Examples.afterRetry] [])))
  = [] ++ [(Batch (Token "t0") [Examples.GetDevInfo], Examples.tokenError);
           (Login "admin" "password", Examples.loginReply "t1");
           (Batch (Token "t1") [Examples.GetDevInfo], Examples.afterRetry)]
  /\ settles Examples.afterRetry
       (fst (submit Examples.scripted 10 [Examples.GetDevInfo]
               (mkState (Examples.loggedIn "t0")
                  [Examples.tokenError; Examples.loginReply "t1"; Examples.afterRetry] []))).
Proof.
  apply (proj2 (token_invalid_is_retried_once (list Reply) Examples.scripted 10
                  [Examples.GetDevInfo]
                  (mkState (Examples.loggedIn "t0")
                     [Examples.tokenError; Examples.loginReply "t1"; Examples.afterRetry] [])
                  (mkCredential "t0" 0 3600) Examples.tokenError
                  [Examples.loginReply "t1"; Examples.afterRetry]
                  ltac:(discriminate) eq_refl eq_refl eq_refl ltac:(reflexivity) eq_refl)
           eq_refl
           (VObj [("Token", VObj [("name", VStr "t1"); ("leaseTime", VNum 3600)])])
           [] "t1" 3600 [Examples.afterRetry] Examples.afterRetry []
           eq_refl eq_refl eq_refl).
Defined.

End EngineFacts.

(* ================================================================== *)
(** * Further properties of the code *)
(* ================================================================== *)

(** ** Objects *)

Lemma prop_set (k k' : string) (v : JS.value) (o : JS.object) :
  prop (JS.set k v o) k' = if String.eqb k' k then v else prop o k'.
Proof.
  unfold prop. induction o as [|[k0 v0] o IH]; cbn.
  - destruct (String.eqb k' k); reflexivity.
  - destruct (String.eqb_spec k k0) as [->|Hne]; cbn.
    + destruct (String.eqb k' k0); reflexivity.
    + destruct (String.eqb_spec k' k0) as [->|Hne'].
      * destruct (String.eqb_spec k0 k) as [Heq|_]; [congruence|reflexivity].
      * exact IH.
Qed.

Lemma has_set (k k' : string) (v : JS.value) (o : JS.object) :
  has k' (JS.set k v o) = String.eqb k' k || has k' o.
Proof.
  unfold has. induction o as [|[k0 v0] o IH]; cbn.
  - destruct (String.eqb k' k); reflexivity.
  - destruct (String.eqb_spec k k0) as [->|Hne]; cbn.
    + destruct (String.eqb k' k0); reflexivity.
    + destruct (String.eqb_spec k' k0) as [->|Hne'].
      * rewrite orb_true_r. reflexivity.
      * exact IH.
Qed.

Lemma truthy_has (o : JS.object) (k : string) :
  truthy (prop o k) = true -> has k o = true.
Proof. unfold prop, has. destruct (lookup k o); [reflexivity|discriminate]. Qed.

(** ** capabilities.ts *)

Lemma detects_object (o : JS.object) (upper lower : string) (extra : list string) :
  detects (VObj o) upper lower extra
  = existsb (fun k => has k o) (upper :: lower :: extra).
Proof.
  unfold detects, mentions. cbn.
  destruct (truthy (prop o upper)) eqn:E1.
  - rewrite (truthy_has _ _ E1). reflexivity.
  - destruct (truthy (prop o lower)) eqn:E2; [|reflexivity].
    rewrite (truthy_has _ _ E2). cbn. rewrite orb_true_r. reflexivity.
Qed.

Lemma detects_elsewhere (v : JS.value) (upper lower : string) (extra : list string) :
  (forall o, v <> VObj o) -> detects v upper lower extra = false.
Proof.
  intros H. destruct v; try reflexivity.
  - unfold detects, mentions. cbn [get truthy isObjectType is_null negb andb orb].
    induction (upper :: lower :: extra); cbn; auto.
  - exfalso. apply (H props). reflexivity.
Qed.

Lemma detected_values (ability : ApiResult JS.value) (k : string) (v : JS.value) :
  lookup k (detectCapabilities ability) = Some v ->
  v = VBool true
  /\ (k = "ptz" \/ k = "ai" \/ k = "motionDetection" \/ k = "recording").
Proof.
  unfold detectCapabilities. destruct ability as [a|e]; [|discriminate].
  destruct (nullish a); [discriminate|].
  destruct (detects a "Rec" "rec" ["Record"]), (detects a "Md" "md" ["Motion"]),
    (detects a "AI" "ai" ["Person"]), (detects a "Ptz" "ptz" []); cbn;
    repeat (match goal with
            | |- context [String.eqb k ?s] =>
                destruct (String.eqb_spec k s) as [->|?]
            end; cbn);
    intros H; try discriminate; injection H as <-; auto 6.
Qed.

(** X1: [detectCapabilities] decides by the presence of a key, not by its
    value: for an object answer each capability is reported exactly when
    one of its keys is a member ([Ptz]/[ptz]; [AI]/[ai]/[Person];
    [Md]/[md]/[Motion]; [Rec]/[rec]/[Record]), even if the member is 0,
    false or null.  Every reported capability is the boolean [true], and
    a failed request or an answer that is no object reports nothing. *)
Theorem capabilities_follow_key_presence :
  (forall o : JS.object,
      let caps := detectCapabilities (Resolves (VObj o)) in
      (has "ptz" caps = existsb (fun k => has k o) ["Ptz"; "ptz"])
      /\ (has "ai" caps = existsb (fun k => has k o) ["AI"; "ai"; "Person"])
      /\ (has "motionDetection" caps = existsb (fun k => has k o) ["Md"; "md"; "Motion"])
      /\ (has "recording" caps = existsb (fun k => has k o) ["Rec"; "rec"; "Record"]))
  /\ (forall ability k v,
        lookup k (detectCapabilities ability) = Some v -> v = VBool true)
  /\ (forall e, detectCapabilities (Rejects e) = [])
  /\ (forall v, (forall o, v <> VObj o) -> detectCapabilities (Resolves v) = []).
Proof.
  split; [|split; [|split]].
  - intros o caps. subst caps. unfold detectCapabilities. cbn [nullish].
    rewrite !detects_object.
    destruct (existsb _ ["Rec"; "rec"; "Record"]), (existsb _ ["Md"; "md"; "Motion"]),
      (existsb _ ["AI"; "ai"; "Person"]), (existsb _ ["Ptz"; "ptz"]);
      repeat split; reflexivity.
  - intros ability k v H. apply (detected_values ability k v H).
  - reflexivity.
  - intros v H. unfold detectCapabilities.
    destruct (nullish v); [reflexivity|].
    rewrite !detects_elsewhere by assumption. reflexivity.
Qed.

Lemma capabilities_follow_key_presence_witness :
  has "ptz" (detectCapabilities (Resolves (VObj [("Ptz", VNum 0); ("User", VObj [])])))
  = true
  /\ detectCapabilities (Resolves (VArr [VStr "Ptz"])) = [].
Proof.
  split.
  - exact (proj1 (proj1 capabilities_follow_key_presence
                    [("Ptz", VNum 0); ("User", VObj [])])).
  - apply (proj2 (proj2 (proj2 capabilities_follow_key_presence))).
    intros o. discriminate.
Defined.

(** X2: on the capabilities [detectCapabilities] produces, the guard and
    the check agree: [requireCapability] lets a feature pass exactly when
    [checkFeature] answers true, for every feature name that is not an
    inherited member of objects. *)
Theorem guard_agrees_with_check (ability : ApiResult JS.value) (feature : string) :
  inherited feature = false ->
  (requireCapability (detectCapabilities ability) feature = Ok tt
   <-> checkFeature ability feature = true).
Proof.
  intros Hin. unfold requireCapability, holds, checkFeature.
  destruct (lookup feature (detectCapabilities ability)) as [v|] eqn:E.
  - destruct (detected_values ability feature v E) as [-> _]. cbn. tauto.
  - rewrite Hin. cbn. split; discriminate.
Qed.

Lemma guard_agrees_with_check_witness :
  requireCapability (detectCapabilities (Resolves (VObj [("Ptz", VObj [])]))) "ptz" = Ok tt
  <-> checkFeature (Resolves (VObj [("Ptz", VObj [])])) "ptz" = true.
Proof.
  apply (guard_agrees_with_check (Resolves (VObj [("Ptz", VObj [])])) "ptz").
  reflexivity.
Defined.

(** ** ptz.ts: presets and moves *)

Lemma short_numbers (id : Z) : 0 <= id <= 64 -> strlen ("Preset " +++ Zstr id) <= 9.
Proof.
  intros H.
  assert (E : forallb (fun n => strlen ("Preset " +++ Zstr (Z.of_nat n)) <=? 9)
                (seq 0 65) = true) by (vm_compute; reflexivity).
  rewrite forallb_forall in E.
  specialize (E (Z.to_nat id)).
  rewrite Z2Nat.id in E by lia.
  apply Z.leb_le, E, in_seq. lia.
Qed.

Lemma perform_events {T : Type} (client : Client T) (c : call) :
  fst (perform client c) = [Exchange c].
Proof. unfold perform. destruct (client c); reflexivity. Qed.

(** X3: [setPtzPreset] reaches the device exactly when the id lies in
    0..64 and the effective name has at most 31 characters.  A missing or
    empty name is replaced by [Preset <id>], which always fits, so such a
    call with a valid id is never refused and sends that default name. *)
Theorem setPtzPreset_checks_before_sending {T : Type} (client : Client T)
    (channel id : Z) (name : option string) (enable : option Z) :
  ((exists c, fst (setPtzPreset client channel id name enable) = [Exchange c])
   <-> 0 <= id <= 64 /\ strlen (presetName id name) <= 31)
  /\ (fst (setPtzPreset client channel id name enable) = []
      <-> ~ (0 <= id <= 64 /\ strlen (presetName id name) <= 31))
  /\ (0 <= id <= 64 -> name = None \/ name = Some "" ->
      fst (setPtzPreset client channel id name enable)
      = [Exchange
           (Call "SetPtzPreset"
              (VObj [("PtzPreset",
                      VObj (addIf "enable" enable
                              [("channel", VNum channel); ("id", VNum id);
                               ("name", VStr ("Preset " +++ Zstr id))]))])
              None)]).
Proof.
  assert (Hcases :
    (0 <= id <= 64 /\ strlen (presetName id name) <= 31
     /\ fst (setPtzPreset client channel id name enable)
        = [Exchange
             (Call "SetPtzPreset"
                (VObj [("PtzPreset",
                        VObj (addIf "enable" enable
                                [("channel", VNum channel); ("id", VNum id);
                                 ("name", VStr (presetName id name))]))])
                None)])
    \/ (~ (0 <= id <= 64 /\ strlen (presetName id name) <= 31)
        /\ fst (setPtzPreset client channel id name enable) = [])).
  { unfold setPtzPreset.
    destruct ((id <? 0) || (id >? 64)) eqn:Eid.
    - right. split; [|reflexivity].
      apply orb_true_iff in Eid. destruct Eid as [E|E]; lia.
    - apply orb_false_iff in Eid. destruct Eid as [E1 E2].
      destruct (31 <? strlen (presetName id name)) eqn:Elen.
      + right. split; [|reflexivity]. apply Z.ltb_lt in Elen. lia.
      + left. apply Z.ltb_ge in Elen. rewrite perform_events.
        repeat split; lia. }
  split; [|split].
  - split.
    + intros [c Hc]. destruct Hcases as [[H1 [H2 _]]|[_ H]]; [tauto|].
      rewrite H in Hc. discriminate.
    + intros Hok. destruct Hcases as [[_ [_ H]]|[H _]]; [eauto|tauto].
  - split.
    + intros Hnil. destruct Hcases as [[_ [_ H]]|[H _]]; [|exact H].
      rewrite H in Hnil. discriminate.
    + intros Hno. destruct Hcases as [[H1 [H2 _]]|[_ H]]; [tauto|exact H].
  - intros Hid Hname.
    assert (Hdef : presetName id name = "Preset " +++ Zstr id)
      by (destruct Hname as [->| ->]; reflexivity).
    destruct Hcases as [[_ [_ H]]|[H _]].
    + rewrite H, Hdef. reflexivity.
    + exfalso. apply H. split; [exact Hid|].
      rewrite Hdef. pose proof (short_numbers id Hid). lia.
Qed.

Lemma setPtzPreset_checks_before_sending_witness :
  fst (setPtzPreset accepting 0 7 (Some "") None)
  = [Exchange
       (Call "SetPtzPreset"
          (VObj [("PtzPreset",
                  VObj [("channel", VNum 0); ("id", VNum 7);
                        ("name", VStr "Preset 7")])])
          None)].
Proof.
  apply (proj2 (proj2 (setPtzPreset_checks_before_sending
                         accepting 0 7 (Some "") None))).
  - lia.
  - right. reflexivity.
Defined.

Lemma outsideOpt_none (v : option Z) (lo hi : Z) :
  outsideOpt v lo hi = None <-> (forall n, v = Some n -> lo <= n <= hi).
Proof.
  unfold outsideOpt. destruct v as [n|].
  - destruct ((n <? lo) || (n >? hi)) eqn:E.
    + apply orb_true_iff in E. split; [discriminate|].
      intros H. specialize (H n eq_refl). destruct E as [E|E]; lia.
    + apply orb_false_iff in E. destruct E as [E1 E2].
      split; [|reflexivity]. intros _ m Hm. injection Hm as <-. lia.
  - split; [discriminate 2|reflexivity].
Qed.

(** X4: [ptzCtrl] issues its [PtzCtrl] request exactly when the speed, if
    given, lies in 1..64, the id of a [ToPos], if given, lies in 0..64,
    and the id of a [StartPatrol] or [StopPatrol], if given, lies in
    0..5.  Otherwise it throws a plain [Error] before any exchange; the id
    of every other operation is not checked at all. *)
Theorem ptzCtrl_sends_exactly_valid_commands {T : Type} (client : Client T)
    (params : PtzCtrlParams.t) :
  let valid :=
    (forall s, PtzCtrlParams.speed params = Some s -> 1 <= s <= 64)
    /\ (isToPos (PtzCtrlParams.op params) = true ->
        forall i, PtzCtrlParams.id params = Some i -> 0 <= i <= 64)
    /\ (isPatrolOp (PtzCtrlParams.op params) = true ->
        forall i, PtzCtrlParams.id params = Some i -> 0 <= i <= 5) in
  (valid ->
   exists payload,
     fst (ptzCtrl client params) = [Exchange (Call "PtzCtrl" (VObj payload) None)]
     /\ prop payload "channel" = VNum (PtzCtrlParams.channel params)
     /\ prop payload "op" = VStr (opName (PtzCtrlParams.op params)))
  /\ (~ valid -> exists msg, ptzCtrl client params = ([], Throw (Error msg))).
Proof.
  intros valid. subst valid. unfold ptzCtrl.
  destruct (outsideOpt (PtzCtrlParams.speed params) 1 64) as [n|] eqn:Es.
  { split.
    - intros [H _]. apply (proj2 (outsideOpt_none _ _ _)) in H. congruence.
    - intros _. eauto. }
  pose proof (proj1 (outsideOpt_none _ _ _) Es) as Hs.
  destruct (isToPos (PtzCtrlParams.op params)) eqn:Et.
  - destruct (outsideOpt (PtzCtrlParams.id params) 0 64) as [n|] eqn:Ei.
    { split.
      - intros [_ [H _]]. specialize (H eq_refl). apply (proj2 (outsideOpt_none _ _ _)) in H. congruence.
      - intros _. eauto. }
    pose proof (proj1 (outsideOpt_none _ _ _) Ei) as Hi.
    assert (Ep : isPatrolOp (PtzCtrlParams.op params) = false)
      by (destruct (PtzCtrlParams.op params); try discriminate; reflexivity).
    rewrite Ep. split.
    + intros _. eexists. split.
      * destruct (client _); reflexivity.
      * destruct (PtzCtrlParams.speed params), (PtzCtrlParams.id params),
          (PtzCtrlParams.x params), (PtzCtrlParams.y params),
          (PtzCtrlParams.z params); split; reflexivity.
    + intros Hno. exfalso. apply Hno.
      split; [exact Hs|split; [intros _; exact Hi|discriminate]].
  - destruct (isPatrolOp (PtzCtrlParams.op params)) eqn:Ep.
    + destruct (outsideOpt (PtzCtrlParams.id params) 0 5) as [n|] eqn:Ei.
      { split.
        - intros [_ [_ H]]. specialize (H eq_refl). apply (proj2 (outsideOpt_none _ _ _)) in H. congruence.
        - intros _. eauto. }
      pose proof (proj1 (outsideOpt_none _ _ _) Ei) as Hi. split.
      * intros _. eexists. split.
        -- destruct (client _); reflexivity.
        -- destruct (PtzCtrlParams.speed params), (PtzCtrlParams.id params);
             split; reflexivity.
      * intros Hno. exfalso. apply Hno.
        split; [exact Hs|split; [discriminate|intros _; exact Hi]].
    + split.
      * intros _. eexists. split.
        -- destruct (client _); reflexivity.
        -- destruct (PtzCtrlParams.speed params); split; reflexivity.
      * intros Hno. exfalso. apply Hno.
        split; [exact Hs|split; discriminate].
Qed.

Lemma ptzCtrl_sends_exactly_valid_commands_witness :
  (exists payload,
     fst (ptzCtrl accepting (PtzCtrlParams.mk 0 Left (Some 32) (Some 900) None None None))
     = [Exchange (Call "PtzCtrl" (VObj payload) None)]
     /\ prop payload "channel" = VNum 0
     /\ prop payload "op" = VStr "Left")
  /\ (exists msg,
        ptzCtrl accepting (PtzCtrlParams.mk 0 StartPatrol None (Some 6) None None None)
        = ([], Throw (Error msg))).
Proof.
  split.
  - apply (proj1 (ptzCtrl_sends_exactly_valid_commands accepting
                    (PtzCtrlParams.mk 0 Left (Some 32) (Some 900) None None None))).
    cbn. split; [|split].
    + intros s Hs. injection Hs as <-. lia.
    + discriminate.
    + discriminate.
  - apply (proj2 (ptzCtrl_sends_exactly_valid_commands accepting
                    (PtzCtrlParams.mk 0 StartPatrol None (Some 6) None None None))).
    cbn. intros [_ [_ H]]. specialize (H eq_refl 6 eq_refl). lia.
Defined.

(** X5: what a [PtzCtrl] request carries.  [speed] is a member exactly
    when a speed was given; [id] only for [ToPos], [StartPatrol] and
    [StopPatrol] with an id given (an id passed with a direction is
    dropped); [x] and [y] only for a [ToPos] given both of them, and [z]
    only next to them. *)
Theorem ptzCtrl_payload_members {T : Type} (client : Client T)
    (params : PtzCtrlParams.t) (payload : JS.value) :
  fst (ptzCtrl client params) = [Exchange (Call "PtzCtrl" payload None)] ->
  get payload "speed" = match PtzCtrlParams.speed params with
                        | Some s => VNum s
                        | None => VUndefined
                        end
  /\ get payload "id"
     = (if isToPos (PtzCtrlParams.op params) || isPatrolOp (PtzCtrlParams.op params)
        then match PtzCtrlParams.id params with
             | Some i => VNum i
             | None => VUndefined
             end
        else VUndefined)
  /\ (has_key "x" payload = has_key "y" payload)
  /\ (has_key "x" payload
      = isToPos (PtzCtrlParams.op params)
        && match PtzCtrlParams.x params, PtzCtrlParams.y params with
           | Some _, Some _ => true
           | _, _ => false
           end)
  /\ (has_key "z" payload
      = has_key "x" payload
        && match PtzCtrlParams.z params with Some _ => true | None => false end).
Proof.
  destruct params as [channel op speed id x y z]. unfold ptzCtrl.
  cbn [PtzCtrlParams.channel PtzCtrlParams.op PtzCtrlParams.speed PtzCtrlParams.id
       PtzCtrlParams.x PtzCtrlParams.y PtzCtrlParams.z].
  destruct (isToPos op), (isPatrolOp op), speed as [s|], id as [i|], x as [x|],
    y as [y|], z as [z|];
    cbn [outsideOpt addIf orb andb];
    repeat match goal with
           | |- context [if ?b || ?c then Some _ else None] => destruct (b || c)
           end;
    try discriminate;
    destruct (client _); cbn [fst]; intros H; injection H as <-;
    repeat split; reflexivity.
Qed.

Lemma ptzCtrl_payload_members_witness :
  get (VObj [("channel", VNum 0); ("op", VStr "Left"); ("speed", VNum 32)]) "id"
  = VUndefined.
Proof.
  apply (ptzCtrl_payload_members accepting
           (PtzCtrlParams.mk 0 Left (Some 32) (Some 900) None None None)
           (VObj [("channel", VNum 0); ("op", VStr "Left"); ("speed", VNum 32)])).
  reflexivity.
Defined.

Lemma guarded_events (client : Client (option ReolinkResponse)) (c : call)
    (command : string) :
  fst (guarded client c command) = [Exchange c].
Proof.
  unfold guarded. destruct (client c) as [response|e]; [|reflexivity].
  destruct (checkResponse response command); reflexivity.
Qed.

Lemma catching_events (r : run unit) (command : string) :
  fst (catching r command) = fst r.
Proof. destruct r as [events [a|e]]; reflexivity. Qed.

(** X6: [startPatrol] and [stopPatrol] exchange with the device exactly
    what [ptzCtrl] exchanges for the operation of the same name with that
    id (nothing when the id is outside 0..5), but unlike [ptzCtrl] both
    inspect the reply: a reply that carries an error makes each of them
    throw, where [ptzCtrl] resolves with that very reply. *)
Theorem patrol_commands_check_the_reply (client : Client (option ReolinkResponse))
    (channel patrolId : Z) :
  let start := PtzCtrlParams.mk channel StartPatrol None (Some patrolId) None None None in
  let stop := PtzCtrlParams.mk channel StopPatrol None (Some patrolId) None None None in
  fst (startPatrol client channel patrolId) = fst (ptzCtrl client start)
  /\ fst (stopPatrol client channel patrolId) = fst (ptzCtrl client stop)
  /\ (fst (startPatrol client channel patrolId) = [] <-> ~ 0 <= patrolId <= 5)
  /\ (fst (stopPatrol client channel patrolId) = [] <-> ~ 0 <= patrolId <= 5)
  /\ (forall c code error,
        fst (startPatrol client channel patrolId) = [Exchange c] ->
        client c = Resolves (Some (ResponseError code error)) ->
        snd (ptzCtrl client start) = Ok (Some (ResponseError code error))
        /\ snd (startPatrol client channel patrolId)
           = Throw (handlePtzError (ReolinkError.rspCode error) "PtzCtrl"))
  /\ (forall c code error,
        fst (stopPatrol client channel patrolId) = [Exchange c] ->
        client c = Resolves (Some (ResponseError code error)) ->
        snd (ptzCtrl client stop) = Ok (Some (ResponseError code error))
        /\ snd (stopPatrol client channel patrolId)
           = Throw (handlePtzError (ReolinkError.rspCode error) "PtzCtrl")).
Proof.
  intros start stop. subst start stop.
  assert (Hre : forall rspCode,
             rethrow (handlePtzError rspCode "PtzCtrl") "PtzCtrl"
             = handlePtzError rspCode "PtzCtrl").
  { intros rspCode. unfold handlePtzError, rethrow.
    destruct (rspCode =? 0); [reflexivity|].
    destruct (rspCode =? -1); [reflexivity|].
    destruct (rspCode =? -4); [reflexivity|].
    destruct (rspCode =? -9); reflexivity. }
  unfold startPatrol, stopPatrol, ptzCtrl.
  cbn [PtzCtrlParams.channel PtzCtrlParams.op PtzCtrlParams.speed PtzCtrlParams.id
       PtzCtrlParams.x PtzCtrlParams.y PtzCtrlParams.z isToPos isPatrolOp
       outsideOpt addIf orb].
  destruct ((patrolId <? 0) || (patrolId >? 5)) eqn:E.
  - apply orb_true_iff in E. cbn.
    assert (Hout : ~ 0 <= patrolId <= 5) by (destruct E as [E|E]; lia).
    split; [reflexivity|]. split; [reflexivity|].
    split; [split; [intros _; exact Hout|reflexivity]|].
    split; [split; [intros _; exact Hout|reflexivity]|].
    split; intros c code error H; discriminate.
  - apply orb_false_iff in E. destruct E as [E1 E2].
    rewrite !guarded_events. cbn [opName JS.set String.eqb Ascii.eqb Bool.eqb].
    split; [cbn; destruct (client _); reflexivity|].
    split; [cbn; destruct (client _); reflexivity|].
    split; [split; [discriminate|intros H; exfalso; apply H; lia]|].
    split; [split; [discriminate|intros H; exfalso; apply H; lia]|].
    split; intros c code error Hc Hr; injection Hc as <-;
      unfold guarded; cbn; cbn in Hr; rewrite Hr; cbn;
      (split; [reflexivity|]); rewrite Hre; reflexivity.
Qed.

Lemma patrol_commands_check_the_reply_witness :
  (snd (ptzCtrl (refusing (-9) "not support")
          (PtzCtrlParams.mk 0 StartPatrol None (Some 2) None None None))
   = Ok (Some (ResponseError 1 (ReolinkError.mk (-9) "not support")))
   /\ snd (startPatrol (refusing (-9) "not support") 0 2)
      = Throw (handlePtzError (-9) "PtzCtrl"))
  /\ (snd (ptzCtrl (refusing (-9) "not support")
             (PtzCtrlParams.mk 0 StopPatrol None (Some 2) None None None))
      = Ok (Some (ResponseError 1 (ReolinkError.mk (-9) "not support")))
      /\ snd (stopPatrol (refusing (-9) "not support") 0 2)
         = Throw (handlePtzError (-9) "PtzCtrl")).
Proof.
  split.
  - apply (proj1 (proj2 (proj2 (proj2 (proj2 (patrol_commands_check_the_reply
                                               (refusing (-9) "not support") 0 2)))))
             (Call "PtzCtrl"
                (VObj [("channel", VNum 0); ("op", VStr "StartPatrol"); ("id", VNum 2)])
                None)
             1 (ReolinkError.mk (-9) "not support")).
    + reflexivity.
    + reflexivity.
  - apply (proj2 (proj2 (proj2 (proj2 (proj2 (patrol_commands_check_the_reply
                                               (refusing (-9) "not support") 0 2)))))
             (Call "PtzCtrl"
                (VObj [("channel", VNum 0); ("op", VStr "StopPatrol"); ("id", VNum 2)])
                None)
             1 (ReolinkError.mk (-9) "not support")).
    + reflexivity.
    + reflexivity.
Defined.

(** ** ptz.ts: guard mode *)

(** X7: [toggleGuardMode] reads the guard state and writes back the
    inverted flag: 0 when the device reported [benable] 1, otherwise 1
    (also when the flag or the whole [PtzGuard] is missing).  The write
    keeps the reported timeout (60 when missing), never carries
    [bexistPos], and always asks to save the current position as the
    guard position.  When the read fails nothing is written. *)
Theorem toggleGuardMode_inverts_the_flag
    (reading : Client (option PtzGuardResponse.t))
    (writing : Client (option ReolinkResponse)) (channel : Z) :
  (forall response,
      reading (GetPtzGuard channel) = Resolves response ->
      let guard := chain response PtzGuardResponse.PtzGuard in
      let flag :=
        match chain guard PtzGuard.benable with
        | Some 1 => 0
        | _ => 1
        end in
      let timeout := withDefault (chain guard PtzGuard.timeout) 60 in
      fst (toggleGuardMode reading writing channel)
      = [Exchange (GetPtzGuard channel);
         Exchange
           (Call "SetPtzGuard"
              (VObj [("channel", VNum channel);
                     ("PtzGuard",
                      VObj [("benable", VNum flag); ("timeout", VNum timeout);
                            ("channel", VNum channel); ("cmdStr", VStr "setPos");
                            ("bSaveCurrentPos", VNum 1)])])
              None)])
  /\ (forall e,
        reading (GetPtzGuard channel) = Rejects e ->
        toggleGuardMode reading writing channel
        = ([Exchange (GetPtzGuard channel)], Throw e)).
Proof.
  split.
  - intros response Hr guard flag timeout. subst guard flag timeout.
    unfold toggleGuardMode, getPtzGuard, perform, setPtzGuard, guarded.
    unfold GetPtzGuard in Hr. rewrite Hr. unfold GetPtzGuard.
    destruct response as [[[[benable bexistPos timeout ch]|]]|]; cbn;
      [destruct benable as [[|[p|p|]|p]|]; cbn|..];
      match goal with
      | |- context [writing ?c] => destruct (writing c) as [r|e]
      end;
      try destruct (checkResponse r "SetPtzGuard"); reflexivity.
  - intros e He. unfold toggleGuardMode, getPtzGuard, perform.
    unfold GetPtzGuard in He. rewrite He. reflexivity.
Qed.

Lemma toggleGuardMode_inverts_the_flag_witness :
  fst (toggleGuardMode
         (fun _ => Resolves
                     (Some (PtzGuardResponse.mk
                              (Some (PtzGuard.mk (Some 1) (Some 1) (Some 90) (Some 0))))))
         accepting 0)
  = [Exchange (GetPtzGuard 0);
     Exchange
       (Call "SetPtzGuard"
          (VObj [("channel", VNum 0);
                 ("PtzGuard",
                  VObj [("benable", VNum 0); ("timeout", VNum 90);
                        ("channel", VNum 0); ("cmdStr", VStr "setPos");
                        ("bSaveCurrentPos", VNum 1)])])
          None)].
Proof.
  apply (proj1 (toggleGuardMode_inverts_the_flag
                  (fun _ => Resolves
                              (Some (PtzGuardResponse.mk
                                       (Some (PtzGuard.mk (Some 1) (Some 1) (Some 90)
                                                (Some 0))))))
                  accepting 0)
           (Some (PtzGuardResponse.mk
                    (Some (PtzGuard.mk (Some 1) (Some 1) (Some 90) (Some 0)))))).
  reflexivity.
Defined.

(** ** ptz.ts: reading presets *)

(** X8: [getPtzPreset] completes the response in place.  It copies
    [PtzPreset] into [preset] only when [PtzPreset] is truthy and
    [preset] is missing or falsy; an existing truthy [preset] is never
    overwritten and every other member is returned as the device sent
    it.  Completing is idempotent.  A [null] response makes it throw a
    [TypeError] after the exchange. *)
Theorem getPtzPreset_fills_preset_once (client : Client JS.value) (channel : Z)
    (response : JS.value) :
  client (Call "GetPtzPreset" (VObj [("channel", VNum channel)]) None)
  = Resolves response ->
  (nullish response = true -> snd (getPtzPreset client channel) = Throw TypeError)
  /\ (forall o, response = VObj o ->
      exists o',
        snd (getPtzPreset client channel) = Ok (VObj o')
        /\ (truthy (prop o "preset") = true -> o' = o)
        /\ (truthy (prop o "PtzPreset") = false -> o' = o)
        /\ (truthy (prop o "preset") = false -> truthy (prop o "PtzPreset") = true ->
            prop o' "preset" = prop o "PtzPreset")
        /\ (forall k, k <> "preset" -> prop o' k = prop o k)
        /\ snd (getPtzPreset (replying (VObj o')) channel) = Ok (VObj o')).
Proof.
  intros Hr. unfold getPtzPreset, perform. rewrite Hr. unfold replying.
  split.
  - intros Hn. unfold andThen. cbn [fst snd]. rewrite Hn. reflexivity.
  - intros o ->. unfold andThen. cbn [fst snd nullish].
    destruct (truthy (prop o "PtzPreset")) eqn:Ew;
      destruct (truthy (prop o "preset")) eqn:Ep; cbn [andb negb fst snd].
    + exists o. rewrite Ew, Ep. cbn. repeat split; auto; discriminate.
    + exists (JS.set "preset" (prop o "PtzPreset") o).
      split; [reflexivity|]. split; [discriminate|]. split; [discriminate|].
      split; [intros _ _; rewrite prop_set; reflexivity|].
      split.
      * intros k Hk. rewrite prop_set.
        destruct (String.eqb_spec k "preset"); [contradiction|reflexivity].
      * rewrite !prop_set. cbn [String.eqb Ascii.eqb Bool.eqb].
        rewrite Ew. cbn. reflexivity.
    + exists o. rewrite Ew, Ep. cbn. repeat split; auto; discriminate.
    + exists o. rewrite Ew, Ep. cbn. repeat split; auto; discriminate.
Qed.

Lemma getPtzPreset_fills_preset_once_witness :
  snd (getPtzPreset (replying VNull) 0) = Throw TypeError.
Proof.
  apply (proj1 (getPtzPreset_fills_preset_once (replying VNull) 0 VNull eq_refl)).
  reflexivity.
Defined.

(** ** ptz.ts: patrols *)

Lemma mapPatrolSteps_shape (steps r : list JS.value) :
  mapPatrolSteps steps = Ok r -> Forall isStep r /\ length r = length steps.
Proof.
  revert r. induction steps as [|s steps IH]; intros r; cbn.
  - intros [= <-]. split; [constructor|reflexivity].
  - destruct (isObjectType s && negb (is_null s)); [|discriminate].
    destruct (mapPatrolSteps steps) as [r'|e]; [|discriminate].
    intros [= <-]. destruct (IH r' eq_refl) as [H1 H2].
    split; [|cbn; congruence].
    constructor; [|exact H1]. unfold isStep. eauto.
Qed.

Lemma boolToNum_number (v : JS.value) : ~ isBoolean (boolToNum v).
Proof. intros [b Hb]. destruct v as [| |[|]|n|s|l|o]; discriminate. Qed.

Lemma coalesce_defined (a : JS.value) (n : Z) : nullish (coalesce a (VNum n)) = false.
Proof. unfold coalesce. destruct (nullish a) eqn:E; [reflexivity|exact E]. Qed.

Lemma toPatrolConfig_shape (channel : Z) (p : JS.value) (c : JS.object) :
  toPatrolConfig channel p = Ok c ->
  exists steps,
    c = [("channel", coalesce (get p "channel") (VNum channel));
         ("enable", boolToNum (get p "enable"));
         ("id", coalesce (get p "id") (VNum 0));
         ("running", boolToNum (get p "running"));
         ("name", get p "name");
         ("preset", VArr steps)]
    /\ Forall isStep steps
    /\ length steps = length (items (get p "preset")).
Proof.
  unfold toPatrolConfig.
  destruct (truthy (get p "preset") && isArray (get p "preset")) eqn:E.
  - destruct (mapPatrolSteps (items (get p "preset"))) as [r|e] eqn:Er; [|discriminate].
    intros [= <-]. exists r. destruct (mapPatrolSteps_shape _ _ Er). auto.
  - intros [= <-]. exists []. split; [reflexivity|]. split; [constructor|].
    destruct (get p "preset"); try reflexivity. discriminate.
Qed.

Lemma mapPatrols_members (channel : Z) (patrols : list JS.value)
    (configs : list JS.object) :
  mapPatrols channel patrols = Ok configs ->
  Forall2 (fun p c => toPatrolConfig channel p = Ok c) patrols configs.
Proof.
  revert configs. induction patrols as [|p patrols IH]; intros configs; cbn.
  - intros [= <-]. constructor.
  - destruct (toPatrolConfig channel p) as [c|e] eqn:Ec; [|discriminate].
    destruct (mapPatrols channel patrols) as [r|e]; [|discriminate].
    intros [= <-]. constructor; [exact Ec|apply IH; reflexivity].
Qed.

Lemma readPatrols_members (channel : Z) (response : JS.value)
    (configs : list JS.object) (c : JS.object) :
  readPatrols channel response = Ok configs -> In c configs ->
  exists p, toPatrolConfig channel p = Ok c.
Proof.
  unfold readPatrols. intros H Hin.
  destruct (truthy (get response "PtzPatrol")).
  - apply mapPatrols_members in H.
    induction H as [|p c' ps cs Hpc _ IH]; [contradiction|].
    destruct Hin as [->|Hin]; [eauto|auto].
  - injection H as <-. contradiction.
Qed.

Lemma getPtzPatrol_result (client : Client JS.value) (channel : Z)
    (configs : list JS.object) :
  snd (getPtzPatrol client channel) = Ok configs ->
  exists response, readPatrols channel response = Ok configs.
Proof.
  unfold getPtzPatrol, perform.
  destruct (client _) as [response|e]; cbn; [eauto|discriminate].
Qed.

(** X9: every patrol [getPtzPatrol] returns has the same six members in
    the same order (channel, enable, id, running, name, preset); its
    [preset] is always an array whose steps have exactly the members id,
    speed and dwellTime; [channel] and [id] are never missing (the
    requested channel and 0 stand in), and a boolean [enable] or
    [running] has become a number. *)
Theorem getPtzPatrol_canonical_shape (client : Client JS.value) (channel : Z)
    (configs : list JS.object) (c : JS.object) :
  snd (getPtzPatrol client channel) = Ok configs ->
  In c configs ->
  map fst c = patrolKeys
  /\ (exists steps, prop c "preset" = VArr steps /\ Forall isStep steps)
  /\ nullish (prop c "channel") = false
  /\ nullish (prop c "id") = false
  /\ ~ isBoolean (prop c "enable")
  /\ ~ isBoolean (prop c "running").
Proof.
  intros H Hin. apply getPtzPatrol_result in H. destruct H as [response H].
  destruct (readPatrols_members _ _ _ _ H Hin) as [p Hp].
  apply toPatrolConfig_shape in Hp. destruct Hp as [steps [-> [Hsteps _]]].
  split; [reflexivity|]. split; [exists steps; split; [reflexivity|exact Hsteps]|].
  cbn. split; [apply coalesce_defined|]. split; [apply coalesce_defined|].
  split; apply boolToNum_number.
Qed.

Lemma getPtzPatrol_canonical_shape_witness :
  map fst
    [("channel", VNum 0); ("enable", VNum 1); ("id", VNum 1);
     ("running", VUndefined); ("name", VUndefined);
     ("preset", VArr [VObj [("id", VNum 1); ("speed", VNum 10);
                            ("dwellTime", VNum 10)]])]
  = patrolKeys.
Proof.
  apply (getPtzPatrol_canonical_shape (replying patrol_reply) 0
           [[("channel", VNum 0); ("enable", VNum 1); ("id", VNum 1);
             ("running", VUndefined); ("name", VUndefined);
             ("preset", VArr [VObj [("id", VNum 1); ("speed", VNum 10);
                                    ("dwellTime", VNum 10)]])]]).
  - reflexivity.
  - left. reflexivity.
Defined.

(** X10: a single patrol object under [PtzPatrol] is read exactly as the
    one-element array holding it; a missing, null or otherwise falsy
    [PtzPatrol] gives the empty list, and so does a response that is no
    object. *)
Theorem getPtzPatrol_promotes_single_patrol (client : Client JS.value) (channel : Z)
    (response : JS.value) :
  client (Call "GetPtzPatrol" (VObj [("channel", VNum channel)]) None)
  = Resolves response ->
  (isArray (get response "PtzPatrol") = false ->
   snd (getPtzPatrol client channel)
   = snd (getPtzPatrol
            (replying (VObj [("PtzPatrol", VArr [get response "PtzPatrol"])])) channel))
  /\ (truthy (get response "PtzPatrol") = false ->
      snd (getPtzPatrol client channel) = Ok [])
  /\ ((forall o, response <> VObj o) -> snd (getPtzPatrol client channel) = Ok []).
Proof.
  intros Hr. unfold getPtzPatrol, perform, replying. rewrite Hr.
  unfold andThen. cbn [fst snd]. unfold readPatrols.
  split; [|split].
  - intros Harr. rewrite Harr. cbn [get prop lookup String.eqb Ascii.eqb Bool.eqb
                                    truthy isArray items].
    destruct (get response "PtzPatrol") as [| |b|n|s|l|o]; try discriminate;
      cbn [truthy isArray filter isPatrol is_null isObjectType typeof jstype_eqb
           negb andb mapPatrols];
      repeat match goal with
             | |- context [if ?b then _ else _] => destruct b
             end;
      reflexivity.
  - intros Hf. rewrite Hf. reflexivity.
  - intros Hno. destruct response; try reflexivity.
    exfalso. apply (Hno props). reflexivity.
Qed.

Lemma getPtzPatrol_promotes_single_patrol_witness :
  snd (getPtzPatrol (replying patrol_reply) 0)
  = snd (getPtzPatrol
           (replying (VObj [("PtzPatrol", VArr [get patrol_reply "PtzPatrol"])])) 0).
Proof.
  apply (proj1 (getPtzPatrol_promotes_single_patrol (replying patrol_reply) 0
                  patrol_reply eq_refl)).
  reflexivity.
Defined.

Lemma checkPtzPatrolStep_sound (step : JS.value) (index : nat) :
  checkPtzPatrolStep step index = None -> step_in_range step.
Proof.
  unfold checkPtzPatrolStep, step_in_range.
  destruct step as [| |b|n|s|l|o];
    cbn [isObjectType typeof jstype_eqb is_null negb andb get has_key];
    try (intros _; split; intros m Hm; discriminate).
  destruct (outside (if has "id" o then prop o "id"
                     else if has "presetId" o then prop o "presetId" else VUndefined)
              0 64) eqn:E1; [discriminate|].
  destruct (outside (if has "speed" o then prop o "speed" else VUndefined) 1 64) eqn:E2;
    [discriminate|].
  intros _. apply outside_none in E1. apply outside_none in E2.
  unfold has, prop in *. split.
  - destruct (lookup "id" o); [exact E1|]. intros m Hm. discriminate.
  - destruct (lookup "speed" o); [exact E2|]. intros m Hm. discriminate.
Qed.

Lemma forEach_sound (check : JS.value -> nat -> option exn) (ok : JS.value -> Prop) :
  (forall x i, check x i = None -> ok x) ->
  forall l index, forEach check l index = None -> Forall ok l.
Proof.
  intros Hc. induction l as [|x l IH]; intros index; cbn.
  - constructor.
  - destruct (check x index) eqn:E; [discriminate|].
    intros H. constructor; [apply (Hc x index E)|apply (IH _ H)].
Qed.

Lemma forEach_error (l : list JS.value) (index : nat) (e : exn) :
  forEach checkPtzPatrolStep l index = Some e -> exists msg, e = Error msg.
Proof.
  revert index. induction l as [|x l IH]; intros index; cbn; [discriminate|].
  destruct (checkPtzPatrolStep x index) eqn:E.
  - intros [= <-]. unfold checkPtzPatrolStep in E.
    destruct (isObjectType x && negb (is_null x)); [|discriminate].
    destruct (outside _ 0 64); [injection E as <-; eauto|].
    destruct (outside _ 1 64); [injection E as <-; eauto|discriminate].
  - apply IH.
Qed.

(** X11: the steps [setPtzPatrol] finds in a [preset] array are always
    checked: if one of them has a numeric id outside 0..64 or a numeric
    speed outside 1..64, the call throws a plain [Error] and exchanges
    nothing with the device, whatever else the configuration holds. *)
Theorem setPtzPatrol_checks_preset_steps (client : Client (option ReolinkResponse))
    (channel : Z) (config : JS.object) (steps : list JS.value) :
  prop config "preset" = VArr steps ->
  Exists (fun step => ~ step_in_range step) steps ->
  exists msg, setPtzPatrol client channel config = ([], Throw (Error msg)).
Proof.
  intros Hp Hbad. unfold setPtzPatrol.
  assert (Hv : exists msg, validatePtzPatrol config = Some (Error msg)).
  { unfold validatePtzPatrol.
    destruct (if has "id" config then outside (prop config "id") 0 5 else None);
      [eauto|].
    assert (Ha : presetArray config = VArr steps).
    { unfold presetArray, orValue. rewrite Hp. reflexivity. }
    rewrite Ha. cbn [isArray items].
    destruct (16 <? Z.of_nat (length steps)); [eauto|].
    destruct (forEach checkPtzPatrolStep steps 0) as [e|] eqn:E.
    - destruct (forEach_error _ _ _ E) as [msg ->]. eauto.
    - exfalso.
      apply (forEach_sound checkPtzPatrolStep step_in_range checkPtzPatrolStep_sound)
        in E.
      apply Exists_exists in Hbad. destruct Hbad as [s [Hin Hs]].
      rewrite Forall_forall in E. apply Hs, E, Hin. }
  destruct Hv as [msg ->]. eauto.
Qed.

Lemma setPtzPatrol_checks_preset_steps_witness :
  exists msg,
    setPtzPatrol accepting 0
      [("id", VNum 1); ("preset", VArr [VObj [("id", VNum 99); ("speed", VNum 10)]])]
    = ([], Throw (Error msg)).
Proof.
  apply (setPtzPatrol_checks_preset_steps accepting 0
           [("id", VNum 1); ("preset", VArr [VObj [("id", VNum 99); ("speed", VNum 10)]])]
           [VObj [("id", VNum 99); ("speed", VNum 10)]]).
  - reflexivity.
  - constructor. intros [H _]. specialize (H 99 eq_refl). lia.
Defined.

(** X12: what [getPtzPatrol] returns can be handed back to
    [setPtzPatrol]: every patrol it returns carries a [name] member, so a
    patrol that passes validation is sent in one [SetPtzPatrol] request as
    the flat configuration itself, with only [channel] replaced by the
    channel of the call, and never wrapped in [{channel, PtzPatrol}]. *)
Theorem read_patrol_is_written_flat (reading : Client JS.value)
    (writing : Client (option ReolinkResponse)) (channel target : Z)
    (configs : list JS.object) (c : JS.object) :
  snd (getPtzPatrol reading channel) = Ok configs ->
  In c configs ->
  validatePtzPatrol c = None ->
  fst (setPtzPatrol writing target c)
  = [Exchange (Call "SetPtzPatrol" (VObj (JS.set "channel" (VNum target) c)) None)].
Proof.
  intros H Hin Hv. apply getPtzPatrol_result in H. destruct H as [response H].
  destruct (readPatrols_members _ _ _ _ H Hin) as [p Hp].
  apply toPatrolConfig_shape in Hp. destruct Hp as [steps [-> _]].
  unfold setPtzPatrol. rewrite Hv.
  assert (Hl : legacyConfig target
                 [("channel", coalesce (get p "channel") (VNum channel));
                  ("enable", boolToNum (get p "enable"));
                  ("id", coalesce (get p "id") (VNum 0));
                  ("running", boolToNum (get p "running"));
                  ("name", get p "name");
                  ("preset", VArr steps)]
               = JS.set "channel" (VNum target)
                   [("channel", coalesce (get p "channel") (VNum channel));
                    ("enable", boolToNum (get p "enable"));
                    ("id", coalesce (get p "id") (VNum 0));
                    ("running", boolToNum (get p "running"));
                    ("name", get p "name");
                    ("preset", VArr steps)]).
  { unfold legacyConfig. cbn.
    destruct (get p "enable") as [| |[|]|n|s|l|o]; reflexivity. }
  rewrite <- Hl. clear Hl.
  remember (legacyConfig target _) as L eqn:HL. clear HL.
  cbn [has lookup String.eqb Ascii.eqb Bool.eqb prop isArray items negb andb].
  destruct steps as [|s steps].
  - cbn. unfold send. destruct (writing _); reflexivity.
  - replace (0 <? Z.of_nat (length (s :: steps))) with true
      by (symmetry; apply Z.ltb_lt; cbn [length]; lia).
    cbn [andb]. rewrite catching_events, guarded_events. reflexivity.
Qed.

Lemma read_patrol_is_written_flat_witness :
  fst (setPtzPatrol accepting 3
         [("channel", VNum 0); ("enable", VNum 1); ("id", VNum 1);
          ("running", VUndefined); ("name", VUndefined);
          ("preset", VArr [VObj [("id", VNum 1); ("speed", VNum 10);
                                 ("dwellTime", VNum 10)]])])
  = [Exchange
       (Call "SetPtzPatrol"
          (VObj (JS.set "channel" (VNum 3)
                   [("channel", VNum 0); ("enable", VNum 1); ("id", VNum 1);
                    ("running", VUndefined); ("name", VUndefined);
                    ("preset", VArr [VObj [("id", VNum 1); ("speed", VNum 10);
                                           ("dwellTime", VNum 10)]])]))
          None)].
Proof.
  apply (read_patrol_is_written_flat (replying patrol_reply) accepting 0 3
           [[("channel", VNum 0); ("enable", VNum 1); ("id", VNum 1);
             ("running", VUndefined); ("name", VUndefined);
             ("preset", VArr [VObj [("id", VNum 1); ("speed", VNum 10);
                                    ("dwellTime", VNum 10)]])]]).
  - reflexivity.
  - left. reflexivity.
  - reflexivity.
Defined.

(** ** presets.ts: PresetsModule setters *)

Lemma send_events {T : Type} (client : Client T) (c : call) :
  fst (send client c) = [Exchange c].
Proof. unfold send. destruct (client c); reflexivity. Qed.

(** X13: [PresetsModule.setPreset] and [setPtzPreset] of ptz.ts refuse
    the same calls and issue the same [SetPtzPreset] request whenever the
    name is not empty (a boolean [enable] travelling as 1 or 0).  For the
    empty name they differ: [setPreset] sends it as it is, [setPtzPreset]
    sends [Preset <id>]. *)
Theorem preset_setters_agree {T : Type} (client : Client T) (channel id : Z)
    (name : string) (enable : option bool) :
  let flag := option_map (fun b : bool => if b then 1 else 0) enable in
  (name <> "" ->
   fst (setPreset client channel id name enable)
   = fst (setPtzPreset client channel id (Some name) flag))
  /\ (0 <= id <= 64 ->
      fst (setPreset client channel id "" enable)
      <> fst (setPtzPreset client channel id (Some "") flag)).
Proof.
  intros flag. subst flag. split.
  - intros Hname. unfold setPreset, setPtzPreset, presetName.
    destruct (String.eqb_spec name "") as [->|_]; [contradiction|].
    destruct ((id <? 0) || (id >? 64)); [reflexivity|].
    destruct (31 <? strlen name); [reflexivity|].
    rewrite send_events, perform_events.
    destruct enable as [[|]|]; reflexivity.
  - intros Hid. unfold setPreset, setPtzPreset, presetName. cbn [String.eqb].
    replace ((id <? 0) || (id >? 64)) with false
      by (symmetry; apply orb_false_iff; split;
          [apply Z.ltb_ge|rewrite Z.gtb_ltb; apply Z.ltb_ge]; lia).
    replace (31 <? strlen ("Preset " +++ Zstr id)) with false
      by (symmetry; apply Z.ltb_ge; pose proof (short_numbers id Hid); lia).
    cbn [strlen String.length Z.of_nat Z.ltb Z.compare].
    rewrite send_events, perform_events.
    destruct enable as [[|]|]; cbn; intros H; discriminate.
Qed.

Lemma preset_setters_agree_witness :
  fst (setPreset accepting 0 5 "Gate" (Some true))
  = fst (setPtzPreset accepting 0 5 (Some "Gate") (Some 1)).
Proof.
  apply (proj1 (preset_setters_agree accepting 0 5 "Gate" (Some true))).
  discriminate.
Defined.

(** X14: [setGuard] never sends a timeout other than 60: any other
    [timeoutSec] is refused before the exchange.  In the request it does
    send, [enable] is omitted when not given and otherwise travels as 1
    or 0; [bexistPos] is present exactly when [bSaveCurrentPos] is 1,
    that is when [setCurrentAsGuard] is true; and [cmdStr] is [toPos]
    exactly when [goToGuardNow] is true, [setPos] otherwise. *)
Theorem setGuard_request {T : Type} (client : Client T) (channel : Z)
    (options : GuardOptions.t) :
  (forall t, GuardOptions.timeoutSec options = Some t -> t <> 60 ->
             fst (setGuard client channel options) = [])
  /\ ((forall t, GuardOptions.timeoutSec options = Some t -> t = 60) ->
      exists payload,
        fst (setGuard client channel options)
        = [Exchange (Call "SetPtzGuard" (VObj [("PtzGuard", VObj payload)]) None)]
        /\ prop payload "channel" = VNum channel
        /\ prop payload "timeout" = VNum 60
        /\ prop payload "benable"
           = match GuardOptions.enable options with
             | Some true => VNum 1
             | Some false => VNum 0
             | None => VUndefined
             end
        /\ (has "bexistPos" payload = true
            <-> GuardOptions.setCurrentAsGuard options = Some true)
        /\ (prop payload "bSaveCurrentPos" = VNum 1
            <-> GuardOptions.setCurrentAsGuard options = Some true)
        /\ (prop payload "cmdStr" = VStr "toPos"
            <-> GuardOptions.goToGuardNow options = Some true)
        /\ (prop payload "cmdStr" = VStr "setPos"
            <-> GuardOptions.goToGuardNow options <> Some true)).
Proof.
  destruct options as [enable timeoutSec setCurrentAsGuard goToGuardNow].
  unfold setGuard.
  cbn [GuardOptions.enable GuardOptions.timeoutSec GuardOptions.setCurrentAsGuard
       GuardOptions.goToGuardNow].
  split.
  - intros t -> Ht. cbn [withDefault].
    destruct (Z.eqb_spec t 60); [contradiction|reflexivity].
  - intros Ht.
    assert (E : withDefault timeoutSec 60 = 60)
      by (destruct timeoutSec as [t|]; [apply (Ht t eq_refl)|reflexivity]).
    rewrite E. cbn [Z.eqb Pos.eqb negb]. rewrite send_events.
    eexists. split; [reflexivity|].
    destruct enable as [[|]|], setCurrentAsGuard as [[|]|], goToGuardNow as [[|]|];
      cbn; repeat split; intros; try reflexivity; try discriminate; congruence.
Qed.

Lemma setGuard_request_witness :
  fst (setGuard accepting 0 (GuardOptions.mk (Some true) (Some 30) None None)) = [].
Proof.
  apply (proj1 (setGuard_request accepting 0
                  (GuardOptions.mk (Some true) (Some 30) None None)) 30).
  - reflexivity.
  - lia.
Defined.

Lemma lookup_set (k k' : string) (v : JS.value) (o : JS.object) :
  lookup k' (JS.set k v o) = if String.eqb k' k then Some v else lookup k' o.
Proof.
  induction o as [|[k0 v0] o IH]; cbn.
  - reflexivity.
  - destruct (String.eqb_spec k k0) as [->|Hne]; cbn.
    + destruct (String.eqb k' k0); reflexivity.
    + destruct (String.eqb_spec k' k0) as [->|Hne'].
      * destruct (String.eqb_spec k0 k) as [Heq|_]; [congruence|reflexivity].
      * exact IH.
Qed.

Lemma lookup_app (k : string) (l1 l2 : JS.object) :
  lookup k (l1 ++ l2) = match lookup k l1 with
                        | Some v => Some v
                        | None => lookup k l2
                        end.
Proof.
  induction l1 as [|[k0 v0] l1 IH]; cbn; [reflexivity|].
  destruct (String.eqb k k0); [reflexivity|exact IH].
Qed.

Lemma lookup_spread (extra base : JS.object) (k : string) :
  lookup k (spread base extra) = match lookup k (rev extra) with
                                 | Some v => Some v
                                 | None => lookup k base
                                 end.
Proof.
  unfold spread. revert base. induction extra as [|[k0 v0] extra IH]; intros base.
  - reflexivity.
  - cbn [fold_left fst snd rev]. rewrite IH, lookup_app, lookup_set. cbn [lookup].
    destruct (lookup k (rev extra)); [reflexivity|].
    destruct (String.eqb k k0); reflexivity.
Qed.

Lemma lookup_absent (k : string) (o : JS.object) :
  ~ In k (map fst o) -> lookup k o = None.
Proof.
  induction o as [|[k0 v0] o IH]; cbn; [reflexivity|].
  intros H. destruct (String.eqb_spec k k0) as [->|_]; [tauto|].
  apply IH. tauto.
Qed.

Lemma lookup_rev (k : string) (o : JS.object) :
  NoDup (map fst o) -> lookup k (rev o) = lookup k o.
Proof.
  induction o as [|[k0 v0] o IH]; cbn [map fst rev lookup]; [reflexivity|].
  intros H. inversion H as [|? ? Hnot Hrest]; subst.
  rewrite lookup_app, (IH Hrest). cbn [lookup].
  destruct (String.eqb_spec k k0) as [->|_].
  - rewrite (lookup_absent _ _ Hnot). reflexivity.
  - destruct (lookup k o); reflexivity.
Qed.

Lemma prop_spread (base extra : JS.object) (k : string) :
  NoDup (map fst extra) ->
  prop (spread base extra) k = if has k extra then prop extra k else prop base k.
Proof.
  intros H. unfold prop, has. rewrite lookup_spread, (lookup_rev _ _ H).
  destruct (lookup k extra); reflexivity.
Qed.

(** X15: [PresetsModule.setPatrol] sends one [SetPtzPatrol] request
    exactly when the numeric patrol id lies in 0..5, a [preset] array has
    at most 16 steps and every step's numeric id and speed are in range;
    otherwise it throws before any exchange.  The request carries the
    payload as given, and a [channel] member of the payload takes
    precedence over the channel argument. *)
Theorem setPatrol_checks_before_sending {T : Type} (client : Client T) (channel : Z)
    (payload : JS.object) :
  let steps := items (prop payload "preset") in
  let valid :=
    within (prop payload "id") 0 5 /\ (length steps <= 16)%nat
    /\ Forall step_in_range steps in
  (valid ->
   fst (setPatrol client channel payload)
   = [Exchange
        (Call "SetPtzPatrol"
           (VObj [("PtzPatrol", VObj (spread [("channel", VNum channel)] payload))])
           None)])
  /\ (~ valid -> exists e, setPatrol client channel payload = ([], Throw e))
  /\ (NoDup (map fst payload) ->
      forall k,
        prop (spread [("channel", VNum channel)] payload) k
        = if has k payload then prop payload k
          else if String.eqb k "channel" then VNum channel else VUndefined).
Proof.
  intros steps valid.
  destruct (setPatrol_validates client channel payload) as [Hyes Hno].
  fold steps in Hyes, Hno. split; [|split].
  - intros Hv. destruct (Hyes Hv) as [c [Hc _]]. revert Hc.
    unfold setPatrol.
    destruct (outside (prop payload "id") 0 5); [discriminate|].
    destruct (isArray (prop payload "preset")).
    + destruct (16 <? Z.of_nat (length (items (prop payload "preset"))));
        [discriminate|].
      destruct (forEach checkPatrolStep (items (prop payload "preset")) 0);
        [discriminate|].
      intros _. apply send_events.
    + intros _. apply send_events.
  - exact Hno.
  - intros Hnd k. rewrite (prop_spread _ _ k Hnd).
    destruct (has k payload); [reflexivity|].
    unfold prop. cbn [lookup]. destruct (String.eqb k "channel"); reflexivity.
Qed.

Lemma setPatrol_checks_before_sending_witness :
  fst (setPatrol accepting 0 [("id", VNum 1); ("channel", VNum 2)])
  = [Exchange
       (Call "SetPtzPatrol"
          (VObj [("PtzPatrol",
                  VObj (spread [("channel", VNum 0)]
                          [("id", VNum 1); ("channel", VNum 2)]))])
          None)]
  /\ prop (spread [("channel", VNum 0)] [("id", VNum 1); ("channel", VNum 2)]) "channel"
     = VNum 2.
Proof.
  split.
  - apply (proj1 (setPatrol_checks_before_sending accepting 0
                    [("id", VNum 1); ("channel", VNum 2)])).
    split; [|split].
    + intros n Hn. injection Hn as <-. lia.
    + cbn. lia.
    + constructor.
  - apply (proj2 (proj2 (setPatrol_checks_before_sending accepting 0
                           [("id", VNum 1); ("channel", VNum 2)]))).
    repeat constructor; cbn; intuition discriminate.
Defined.

Lemma checkTrack_none (track : JS.value) (index : nat) :
  checkTrack track index = None <-> track_in_range track.
Proof.
  unfold checkTrack, track_in_range.
  destruct track as [| |b|n|s|l|o];
    cbn [isObjectType typeof jstype_eqb is_null negb andb get];
    try (split; [intros _ m Hm; discriminate | reflexivity]).
  destruct (outside (prop o "id") 1 6) eqn:E.
  - split; [discriminate|]. intros H. apply outside_none in H.
    unfold get in H. congruence.
  - split; [|reflexivity]. intros _. apply outside_none in E. exact E.
Qed.

(** X16: [setPattern] sends its payload unchanged in one request exactly
    when every track of a [track] array has its numeric id in 1..6 (a
    payload without such an array is always sent); otherwise it throws
    before any exchange.  The channel argument is never used: the request
    is the same for every channel. *)
Theorem setPattern_checks_tracks {T : Type} (client : Client T) (channel : Z)
    (payload : JS.object) :
  (Forall track_in_range (items (prop payload "track")) ->
   fst (setPattern client channel payload)
   = [Exchange (Call "SetPtzTattern" (VObj payload) None)])
  /\ (~ Forall track_in_range (items (prop payload "track")) ->
      exists e, setPattern client channel payload = ([], Throw e))
  /\ (forall other, setPattern client other payload = setPattern client channel payload).
Proof.
  unfold setPattern. split; [|split].
  - intros Hv. destruct (isArray (prop payload "track")); [|apply send_events].
    apply (forEach_none checkTrack track_in_range checkTrack_none _ 0%nat) in Hv.
    rewrite Hv. apply send_events.
  - intros Hno. destruct (prop payload "track") as [| |b|n|s|l|o];
      try (exfalso; apply Hno; constructor).
    cbn [isArray items] in *.
    destruct (forEach checkTrack l 0) as [e|] eqn:E; [eauto|].
    exfalso. apply Hno.
    apply (forEach_none checkTrack track_in_range checkTrack_none l 0%nat). exact E.
  - reflexivity.
Qed.

Lemma setPattern_checks_tracks_witness :
  exists e,
    setPattern accepting 0 [("track", VArr [VObj [("id", VNum 7)]])] = ([], Throw e).
Proof.
  apply (proj1 (proj2 (setPattern_checks_tracks accepting 0
                         [("track", VArr [VObj [("id", VNum 7)]])]))).
  intros H. inversion H as [|x l Hx Hl]; subst.
  specialize (Hx 7 eq_refl). lia.
Defined.

(** ** presets.ts: grids *)

(** X17: what [buildScope] writes, [normalizeMdScope] and
    [normalizeAiArea] read back as the same grid, provided neither
    dimension is 0.  [buildScope] accepts exactly the grids whose bit
    string has width * height characters; among them the grids with a
    zero dimension (and an empty bit string) are written but refused by
    both readers. *)
Theorem buildScope_round_trip (area : GridArea.t) :
  ((exists scope, buildScope area = Ok scope)
   <-> strlen (GridArea.bits area) = GridArea.width area * GridArea.height area)
  /\ (forall scope,
        buildScope area = Ok scope ->
        GridArea.width area <> 0 -> GridArea.height area <> 0 ->
        normalizeMdScope (Some (scopeMembers scope)) = Ok area
        /\ normalizeAiArea (Some (scopeMembers scope)) = Ok area)
  /\ (forall scope,
        buildScope area = Ok scope ->
        GridArea.width area = 0 \/ GridArea.height area = 0 ->
        (exists e, normalizeMdScope (Some (scopeMembers scope)) = Throw e)
        /\ (exists e, normalizeAiArea (Some (scopeMembers scope)) = Throw e)).
Proof.
  destruct area as [w h bits]. unfold buildScope.
  cbn [GridArea.width GridArea.height GridArea.bits].
  destruct (Z.eqb_spec (strlen bits) (w * h)) as [Heq|Hne]; cbn [negb].
  - split; [split; [auto|eauto]|]. split.
    + intros scope [= <-] Hw Hh.
      unfold normalizeMdScope, normalizeAiArea. cbn.
      destruct (Z.eqb_spec w 0) as [|_]; [contradiction|].
      destruct (Z.eqb_spec h 0) as [|_]; [contradiction|].
      cbn. destruct (Z.eqb_spec (strlen bits) (w * h)); [auto|contradiction].
    + intros scope [= <-] Hz.
      unfold normalizeMdScope, normalizeAiArea. cbn.
      destruct (Z.eqb_spec w 0) as [|Hw]; [cbn; eauto|].
      destruct (Z.eqb_spec h 0) as [|Hh]; [cbn; eauto|]. lia.
  - split; [split; [intros [scope H]; discriminate|contradiction]|].
    split; intros scope H; discriminate.
Qed.

Lemma buildScope_round_trip_witness :
  normalizeMdScope
    (Some (scopeMembers
             [("width", VNum 4); ("height", VNum 3); ("cols", VNum 4);
              ("rows", VNum 3); ("table", VStr "111100001111")]))
  = Ok (GridArea.mk 4 3 "111100001111").
Proof.
  apply (proj1 (proj2 (buildScope_round_trip (GridArea.mk 4 3 "111100001111")))
           [("width", VNum 4); ("height", VNum 3); ("cols", VNum 4);
            ("rows", VNum 3); ("table", VStr "111100001111")]).
  - reflexivity.
  - cbn. lia.
  - cbn. lia.
Defined.

(** ** presets.ts: motion zones *)

Lemma prop_spread_nil (o : JS.object) (k : string) :
  NoDup (map fst o) -> prop (spread [] o) k = prop o k.
Proof.
  intros H. rewrite (prop_spread _ _ k H). unfold has, prop.
  destruct (lookup k o); reflexivity.
Qed.

Lemma grid_members (base : JS.object) (w h : Z) (bits : string) :
  let sc :=
    spread base
      [("width", VNum w); ("height", VNum h); ("cols", VNum w); ("rows", VNum h);
       ("table", VStr bits)] in
  prop sc "width" = VNum w /\ prop sc "cols" = VNum w
  /\ prop sc "height" = VNum h /\ prop sc "rows" = VNum h
  /\ prop sc "table" = VStr bits.
Proof.
  cbn zeta. unfold spread. cbn [fold_left fst snd]. rewrite !prop_set.
  repeat split; reflexivity.
Qed.

(** X18: [setMdZone] checks the grid first (a bit string whose length is
    not width * height ends the call before any exchange), then reads the
    current settings and writes.  A [ReolinkHttpError] on the read aborts
    the call without a write; whatever else the read yields, one
    [SetMdAlarm] follows whose [channel] and [table] are the requested
    ones and whose [scope] carries the requested width, height, cols,
    rows and table: nothing the device returned can replace them. *)
Theorem setMdZone_writes_requested_grid (client : Client JS.value) (channel : Z)
    (area : GridArea.t) :
  let w := GridArea.width area in
  let h := GridArea.height area in
  let bits := GridArea.bits area in
  (strlen bits <> w * h ->
   setMdZone client channel area
   = ([], Throw (Error "Grid area bitstring size mismatch")))
  /\ (strlen bits = w * h ->
      (forall e,
          client (GetMdAlarm channel) = Rejects (HttpError e) ->
          setMdZone client channel area
          = ([Exchange (GetMdAlarm channel)], Throw (HttpError e)))
      /\ ((forall e, client (GetMdAlarm channel) <> Rejects (HttpError e)) ->
          exists payload sc,
            fst (setMdZone client channel area)
            = [Exchange (GetMdAlarm channel); Exchange (SetMdAlarm payload)]
            /\ prop payload "channel" = VNum channel
            /\ prop payload "table" = VStr bits
            /\ prop payload "scope" = VObj sc
            /\ prop sc "width" = VNum w /\ prop sc "cols" = VNum w
            /\ prop sc "height" = VNum h /\ prop sc "rows" = VNum h
            /\ prop sc "table" = VStr bits)).
Proof.
  destruct area as [w h bits]. cbn zeta.
  cbn [GridArea.width GridArea.height GridArea.bits].
  unfold setMdZone, buildScope, GetMdAlarm, SetMdAlarm.
  cbn [GridArea.width GridArea.height GridArea.bits].
  destruct (Z.eqb_spec (strlen bits) (w * h)) as [Heq|Hne]; cbn [negb].
  - split; [contradiction|]. intros _. split.
    + intros e ->. reflexivity.
    + intros Hnot.
      destruct (client (Call "GetMdAlarm" (VObj [("channel", VNum channel)]) None))
        as [current|e] eqn:Er.
      * unfold andThen. cbn [fst snd app]. rewrite send_events.
        destruct (truthy (coalesce (get current "MdAlarm") current)
                  && isObjectType (coalesce (get current "MdAlarm") current)).
        -- exists (mergedMdAlarm channel (coalesce (get current "MdAlarm") current)
                     [("width", VNum w); ("height", VNum h); ("cols", VNum w);
                      ("rows", VNum h); ("table", VStr bits)] bits).
           exists (spread
                     (spread []
                        (members
                           (coalesce
                              (get (coalesce (get current "MdAlarm") current) "scope")
                              (VObj []))))
                     [("width", VNum w); ("height", VNum h); ("cols", VNum w);
                      ("rows", VNum h); ("table", VStr bits)]).
           split; [reflexivity|].
           unfold mergedMdAlarm. rewrite !prop_set.
           cbn [String.eqb Ascii.eqb Bool.eqb].
           split; [reflexivity|]. split; [reflexivity|]. split; [reflexivity|].
           apply grid_members.
        -- exists [("channel", VNum channel);
                   ("scope",
                    VObj [("width", VNum w); ("height", VNum h); ("cols", VNum w);
                          ("rows", VNum h); ("table", VStr bits)]);
                   ("table", VStr bits)].
           exists [("width", VNum w); ("height", VNum h); ("cols", VNum w);
                   ("rows", VNum h); ("table", VStr bits)].
           repeat split; reflexivity.
      * destruct e as [msg|msg rsp|e|]; try (exfalso; apply (Hnot e); reflexivity);
          unfold andThen; cbn [fst snd app]; rewrite send_events;
          exists [("channel", VNum channel);
                  ("scope",
                   VObj [("width", VNum w); ("height", VNum h); ("cols", VNum w);
                         ("rows", VNum h); ("table", VStr bits)]);
                  ("table", VStr bits)];
          exists [("width", VNum w); ("height", VNum h); ("cols", VNum w);
                  ("rows", VNum h); ("table", VStr bits)];
          repeat split; reflexivity.
  - split; [reflexivity|]. intros H. contradiction.
Qed.

Lemma setMdZone_writes_requested_grid_witness :
  setMdZone (replying VNull) 0 (GridArea.mk 4 3 "1111")
  = ([], Throw (Error "Grid area bitstring size mismatch")).
Proof.
  apply (proj1 (setMdZone_writes_requested_grid (replying VNull) 0
                  (GridArea.mk 4 3 "1111"))).
  cbn. lia.
Defined.

(** X19: [setMdZone] is a read-modify-write: every member of the
    settings the device returned, other than [channel], [scope] and
    [table], is written back unchanged, and so is every member of the
    returned [scope] other than the five grid members. *)
Theorem setMdZone_keeps_other_settings (client : Client JS.value) (channel : Z)
    (area : GridArea.t) (current : JS.value) (o : JS.object) :
  strlen (GridArea.bits area) = GridArea.width area * GridArea.height area ->
  client (GetMdAlarm channel) = Resolves current ->
  coalesce (get current "MdAlarm") current = VObj o ->
  NoDup (map fst o) ->
  exists payload,
    fst (setMdZone client channel area)
    = [Exchange (GetMdAlarm channel); Exchange (SetMdAlarm payload)]
    /\ (forall k, k <> "channel" -> k <> "scope" -> k <> "table" ->
                  prop payload k = prop o k)
    /\ (forall sc0,
          prop o "scope" = VObj sc0 -> NoDup (map fst sc0) ->
          exists sc,
            prop payload "scope" = VObj sc
            /\ forall k, ~ In k ["width"; "height"; "cols"; "rows"; "table"] ->
                         prop sc k = prop sc0 k).
Proof.
  destruct area as [w h bits].
  cbn [GridArea.width GridArea.height GridArea.bits].
  intros Hlen Hr Hmd Hnd.
  unfold setMdZone, buildScope. unfold GetMdAlarm in Hr.
  cbn [GridArea.width GridArea.height GridArea.bits].
  destruct (Z.eqb_spec (strlen bits) (w * h)) as [_|Hne]; [|contradiction].
  cbn [negb]. rewrite Hr, Hmd. cbn [truthy isObjectType typeof jstype_eqb andb].
  unfold andThen. cbn [fst snd app]. rewrite send_events.
  exists (mergedMdAlarm channel (VObj o)
            [("width", VNum w); ("height", VNum h); ("cols", VNum w);
             ("rows", VNum h); ("table", VStr bits)] bits).
  split; [reflexivity|]. unfold mergedMdAlarm. cbn [members get]. split.
  - intros k H1 H2 H3. rewrite !prop_set.
    destruct (String.eqb_spec k "table"); [contradiction|].
    destruct (String.eqb_spec k "scope"); [contradiction|].
    destruct (String.eqb_spec k "channel"); [contradiction|].
    apply prop_spread_nil, Hnd.
  - intros sc0 Hsc Hnd0. rewrite Hsc. cbn [coalesce nullish members].
    exists (spread (spread [] sc0)
              [("width", VNum w); ("height", VNum h); ("cols", VNum w);
               ("rows", VNum h); ("table", VStr bits)]).
    split.
    + rewrite !prop_set. cbn [String.eqb Ascii.eqb Bool.eqb]. reflexivity.
    + intros k Hk.
      rewrite prop_spread.
      * assert (E : has k
                      [("width", VNum w); ("height", VNum h); ("cols", VNum w);
                       ("rows", VNum h); ("table", VStr bits)] = false).
        { unfold has. cbn [lookup].
          destruct (String.eqb_spec k "width"); [subst k; exfalso; apply Hk; cbn; auto 10|].
          destruct (String.eqb_spec k "height"); [subst k; exfalso; apply Hk; cbn; auto 10|].
          destruct (String.eqb_spec k "cols"); [subst k; exfalso; apply Hk; cbn; auto 10|].
          destruct (String.eqb_spec k "rows"); [subst k; exfalso; apply Hk; cbn; auto 10|].
          destruct (String.eqb_spec k "table"); [subst k; exfalso; apply Hk; cbn; auto 10|].
          reflexivity. }
        rewrite E. apply prop_spread_nil, Hnd0.
      * repeat constructor; cbn; intuition discriminate.
Qed.

Lemma setMdZone_keeps_other_settings_witness :
  exists payload,
    fst (setMdZone
           (replying (VObj [("MdAlarm",
                             VObj [("channel", VNum 0); ("sens", VNum 9);
                                   ("scope", VObj [("cols", VNum 80)])])]))
           0 (GridArea.mk 2 1 "10"))
    = [Exchange (GetMdAlarm 0); Exchange (SetMdAlarm payload)]
    /\ prop payload "sens" = VNum 9.
Proof.
  destruct (setMdZone_keeps_other_settings
              (replying (VObj [("MdAlarm",
                                VObj [("channel", VNum 0); ("sens", VNum 9);
                                      ("scope", VObj [("cols", VNum 80)])])]))
              0 (GridArea.mk 2 1 "10")
              (VObj [("MdAlarm",
                      VObj [("channel", VNum 0); ("sens", VNum 9);
                            ("scope", VObj [("cols", VNum 80)])])])
              [("channel", VNum 0); ("sens", VNum 9);
               ("scope", VObj [("cols", VNum 80)])]
              eq_refl eq_refl eq_refl)
    as [payload [H1 [H2 _]]].
  - repeat constructor; cbn; intuition discriminate.
  - exists payload. split; [exact H1|].
    apply (H2 "sens"); discriminate.
Defined.

(** ** presets.ts: zones of a preset *)

(** X20: [applyZonesForPreset] validates nothing up front and applies the
    zones one after another, masks first: when the masks are given and
    the motion grid next to them is invalid, the [SetMask] request has
    already been made when the call throws.  An empty mask list is still
    written, with [enable] 0; zones with no member at all cause no
    exchange; and the preset id plays no part. *)
Theorem zones_are_applied_one_by_one (client : Client JS.value)
    (channel presetId : Z) :
  (forall masks md ai r,
      let mask :=
        Call "SetMask"
          (VObj [("Mask",
                  VObj [("channel", VNum channel);
                        ("enable", VNum (match masks with [] => 0 | _ :: _ => 1 end));
                        ("area", VArr masks)])])
          None in
      client mask = Resolves r ->
      strlen (GridArea.bits md) <> GridArea.width md * GridArea.height md ->
      applyZonesForPreset client channel presetId
        (PresetZones.mk (Some md) ai (Some masks))
      = ([Exchange mask], Throw (Error "Grid area bitstring size mismatch")))
  /\ applyZonesForPreset client channel presetId (PresetZones.mk None None None)
     = ([], Ok tt)
  /\ (forall zones other,
        applyZonesForPreset client channel other zones
        = applyZonesForPreset client channel presetId zones).
Proof.
  split; [|split].
  - intros masks md ai r mask Hr Hbad. subst mask.
    unfold applyZonesForPreset, setMasks, send.
    cbn [PresetZones.masks PresetZones.md PresetZones.ai].
    assert (E : (if 0 <? Z.of_nat (length masks) then 1 else 0)
                = match masks with [] => 0 | _ :: _ => 1 end)
      by (destruct masks; reflexivity).
    rewrite E, Hr. unfold andThen at 1. cbn [fst snd].
    unfold setMdZone, buildScope.
    destruct (Z.eqb_spec (strlen (GridArea.bits md))
                (GridArea.width md * GridArea.height md)); [contradiction|].
    reflexivity.
  - reflexivity.
  - reflexivity.
Qed.

Lemma zones_are_applied_one_by_one_witness :
  applyZonesForPreset (replying VNull) 0 1
    (PresetZones.mk (Some (GridArea.mk 4 3 "1111")) None (Some []))
  = ([Exchange
        (Call "SetMask"
           (VObj [("Mask",
                   VObj [("channel", VNum 0); ("enable", VNum 0); ("area", VArr [])])])
           None)],
     Throw (Error "Grid area bitstring size mismatch")).
Proof.
  apply (proj1 (zones_are_applied_one_by_one (replying VNull) 0 1)
           [] (GridArea.mk 4 3 "1111") None VNull).
  - reflexivity.
  - cbn. lia.
Defined.

(** ** presets.ts: abilities and AI types *)

Lemma coalesce_keeps (a b : JS.value) :
  nullish b = false -> nullish (coalesce a b) = false.
Proof. intros H. unfold coalesce. destruct (nullish a) eqn:E; [exact H|exact E]. Qed.

Lemma channelAbilityOf_defined (channel : Z) (response : JS.value) :
  nullish (channelAbilityOf channel response) = false.
Proof.
  unfold channelAbilityOf. apply coalesce_keeps, coalesce_keeps. reflexivity.
Qed.

Lemma coalesce_id (v : JS.value) : nullish v = false -> coalesce v VNull = v.
Proof. intros H. unfold coalesce. rewrite H. reflexivity. Qed.

(** X21: [getChannelAbility] asks the device at most once per channel:
    after a first call, every later call for that channel answers from
    the cache without any exchange, whatever the device would say then.
    After a successful first call the later answers equal the first one;
    after a failed one the first call answers [null] while every later
    call answers the empty object. *)
Theorem ability_is_fetched_once (client : Client JS.value) (channel : Z)
    (caches caches' : Caches) (events : list event) (value : JS.value) :
  cacheGet channel (abilityCache caches) = None ->
  getChannelAbility client channel caches = (events, value, caches') ->
  events = [Exchange GetAbility]
  /\ aiSupportCache caches' = aiSupportCache caches
  /\ (forall response,
        client GetAbility = Resolves response ->
        nullish value = false
        /\ forall later, getChannelAbility later channel caches' = ([], value, caches'))
  /\ (forall e,
        client GetAbility = Rejects e ->
        value = VNull
        /\ forall later, getChannelAbility later channel caches' = ([], VObj [], caches')).
Proof.
  intros Hc. unfold getChannelAbility, GetAbility. rewrite Hc.
  destruct (client (Call "GetAbility" (VObj []) None)) as [response|e];
    intros [= <- <- <-]; cbn [aiSupportCache abilityCache cacheGet];
    rewrite Z.eqb_refl; (split; [reflexivity|split; [reflexivity|split]]).
  - intros r _. pose proof (channelAbilityOf_defined channel response) as Hd.
    rewrite (coalesce_id _ Hd). split; [exact Hd|]. reflexivity.
  - intros e H. discriminate.
  - intros r H. discriminate.
  - intros e' _. split; reflexivity.
Qed.

Lemma ability_is_fetched_once_witness :
  getChannelAbility (replying ability_people_vehicle) 0 (mkCaches [(0, VObj [])] [])
  = ([], VObj [], mkCaches [(0, VObj [])] []).
Proof.
  apply (proj2 (proj2 (proj2 (proj2 (ability_is_fetched_once
                                (fun _ => Rejects TypeError) 0 emptyCaches
                                (mkCaches [(0, VObj [])] [])
                                [Exchange GetAbility] VNull eq_refl eq_refl)))
           TypeError eq_refl)
           (replying ability_people_vehicle)).
Defined.

Lemma getChannelAbility_events (client : Client JS.value) (channel : Z)
    (caches : Caches) :
  fst (fst (getChannelAbility client channel caches)) = []
  \/ fst (fst (getChannelAbility client channel caches)) = [Exchange GetAbility].
Proof.
  unfold getChannelAbility, GetAbility.
  destruct (cacheGet channel (abilityCache caches)); [left; reflexivity|].
  destruct (client _); right; reflexivity.
Qed.

Lemma isOn_on (flag : JS.value) : isOn flag = true <-> on flag.
Proof.
  unfold isOn, on. destruct flag as [| |b|n|s|l|o]; cbn;
    try (split; [discriminate|intros [H|H]; discriminate]).
  - destruct b; cbn.
    + split; [intros _; right; reflexivity|reflexivity].
    + split; [discriminate|intros [H|H]; discriminate].
  - rewrite orb_false_r. split.
    + intros H. apply Z.eqb_eq in H. subst. left. reflexivity.
    + intros [H|H]; [injection H as ->; reflexivity|discriminate].
Qed.

Lemma supported_all (t : AiType) : In t SUPPORTED_AI_TYPES.
Proof. destruct t; cbn; auto. Qed.

Lemma supported_nodup : NoDup SUPPORTED_AI_TYPES.
Proof. repeat constructor; cbn; intuition discriminate. Qed.

Lemma filter_supported (keep : AiType -> bool) (t : AiType) :
  In t (filter keep SUPPORTED_AI_TYPES) <-> keep t = true.
Proof.
  rewrite filter_In. split; [tauto|]. intros H. split; [apply supported_all|exact H].
Qed.

Lemma fromAbility_filter (ability : JS.value) :
  fromAbility ability
  = filter
      (fun t =>
         isOn (abilityFlag
                 (coalesce (get ability "supportAi")
                    (coalesce (get ability "supportAI")
                       (coalesce (get ability "ai")
                          (coalesce (get ability "AI") ability)))) t))
      SUPPORTED_AI_TYPES.
Proof.
  unfold fromAbility.
  destruct (coalesce (get ability "supportAi") _) as [| |b|n|s|l|o];
    try reflexivity.
  - destruct b; reflexivity.
  - cbn [truthy]. destruct (negb (n =? 0)); reflexivity.
  - cbn [truthy]. destruct (negb (String.eqb s "")); reflexivity.
Qed.

Lemma empty_filter (keep : AiType -> bool) :
  (Z.of_nat (length (filter keep SUPPORTED_AI_TYPES)) =? 0) = true
  <-> ~ exists t, keep t = true.
Proof.
  split.
  - intros H [t Ht]. apply (filter_supported keep t) in Ht.
    destruct (filter keep SUPPORTED_AI_TYPES); [contradiction|discriminate].
  - intros H. destruct (filter keep SUPPORTED_AI_TYPES) as [|t l] eqn:E;
      [reflexivity|].
    exfalso. apply H. exists t. apply filter_supported. rewrite E. left. reflexivity.
Qed.

(** X22: for a channel not yet in its cache, [getSupportedAiTypes]
    returns exactly the supported types, each once and in the order
    people, vehicle, dog_cat, face.  With [ability] what
    [getChannelAbility] answers and [aiFlags] its first present member
    among supportAi, supportAI, ai, AI (or [ability] itself), a type is
    flagged when the first present of [aiFlags[type]],
    [aiFlags["support" + type]], [aiFlags["support" + TYPE]] is 1 or
    true.  If some type is flagged, the result is the flagged types and
    nothing is exchanged beyond the ability lookup.  Otherwise [GetAiCfg]
    is asked once more: the result is the types whose member of the
    answer (of its [ability] or [Ability] member when present) is 1 or
    true, and the empty list when that request fails. *)
Theorem getSupportedAiTypes_result (client : Client JS.value) (channel : Z)
    (caches caches' : Caches) (events : list event) (types : list AiType) :
  cacheGet channel (aiSupportCache caches) = None ->
  getSupportedAiTypes client channel caches = (events, types, caches') ->
  let asked := fst (fst (getChannelAbility client channel caches)) in
  let ability := snd (fst (getChannelAbility client channel caches)) in
  let aiFlags :=
    coalesce (get ability "supportAi")
      (coalesce (get ability "supportAI")
         (coalesce (get ability "ai") (coalesce (get ability "AI") ability))) in
  let flagged t :=
    on (coalesce (get aiFlags (aiName t))
          (coalesce (get aiFlags ("support" +++ aiName t))
             (get aiFlags ("support" +++ aiUpper t)))) in
  NoDup types
  /\ (exists keep, types = filter keep SUPPORTED_AI_TYPES)
  /\ (asked = [] \/ asked = [Exchange GetAbility])
  /\ ((exists t, flagged t) ->
      events = asked /\ forall t, In t types <-> flagged t)
  /\ (~ (exists t, flagged t) ->
      events = asked ++ [Exchange (GetAiCfg channel)]
      /\ (forall cfg,
            client (GetAiCfg channel) = Resolves cfg ->
            let settings := coalesce (get cfg "AiCfg") cfg in
            let info :=
              coalesce (get settings "ability")
                (coalesce (get settings "Ability") settings) in
            forall t, In t types <-> on (get info (aiName t)))
      /\ (forall e, client (GetAiCfg channel) = Rejects e -> types = []))
  /\ ((forall c, exists e, client c = Rejects e) ->
      cacheGet channel (abilityCache caches) = None ->
      types = [] /\ events = [Exchange GetAbility; Exchange (GetAiCfg channel)]).
Proof.
  intros Hc. unfold getSupportedAiTypes. rewrite Hc.
  pose proof (getChannelAbility_events client channel caches) as Hev.
  destruct (getChannelAbility client channel caches) as [[events1 ability] caches1] eqn:Ea.
  cbn [fst snd] in *. rewrite fromAbility_filter.
  set (aiFlags := coalesce (get ability "supportAi") _).
  set (keep := fun t => isOn (abilityFlag aiFlags t)).
  assert (Hflag : forall t,
             keep t = true
             <-> on (coalesce (get aiFlags (aiName t))
                       (coalesce (get aiFlags ("support" +++ aiName t))
                          (get aiFlags ("support" +++ aiUpper t)))))
    by (intros t; apply isOn_on).
  assert (Hnd : NoDup (filter keep SUPPORTED_AI_TYPES))
    by apply NoDup_filter, supported_nodup.
  assert (Hin : forall t, In t (filter keep SUPPORTED_AI_TYPES) <-> keep t = true)
    by (intros t; apply filter_supported).
  assert (Hor : exists k, filter keep SUPPORTED_AI_TYPES = filter k SUPPORTED_AI_TYPES)
    by (exists keep; reflexivity).
  pose proof (empty_filter keep) as Hemp.
  remember (filter keep SUPPORTED_AI_TYPES) as supported eqn:Hsup. clear Hsup.
  destruct (Z.of_nat (length supported) =? 0) eqn:El.
  - assert (Hnone : ~ exists t, keep t = true) by (apply Hemp; reflexivity).
    unfold getAiCfg, perform, GetAiCfg.
    destruct (client (Call "GetAiCfg" (VObj [("channel", VNum channel)]) (Some 1)))
      as [cfg|e] eqn:Ec; cbn [andThen fst snd app].
    + assert (Hnd' : NoDup (fromAiCfg (coalesce (get cfg "AiCfg") cfg)))
        by apply NoDup_filter, supported_nodup.
      assert (Hin' : forall t,
                 In t (fromAiCfg (coalesce (get cfg "AiCfg") cfg))
                 <-> on (get (coalesce (get (coalesce (get cfg "AiCfg") cfg) "ability")
                                (coalesce (get (coalesce (get cfg "AiCfg") cfg) "Ability")
                                   (coalesce (get cfg "AiCfg") cfg)))
                           (aiName t)))
        by (intros t; unfold fromAiCfg; rewrite filter_supported; apply isOn_on).
      assert (Hor' : exists k,
                 fromAiCfg (coalesce (get cfg "AiCfg") cfg)
                 = filter k SUPPORTED_AI_TYPES)
        by (eexists; reflexivity).
      remember (fromAiCfg (coalesce (get cfg "AiCfg") cfg)) as found eqn:Hf. clear Hf.
      intros Heq. injection Heq as <- <- <-.
      split; [exact Hnd'|]. split; [exact Hor'|]. split; [exact Hev|].
      split; [intros [t Ht]; exfalso; apply Hnone; exists t; apply Hflag; exact Ht|].
      split.
      * intros _. split; [reflexivity|]. split.
        -- intros cfg' [= <-]. exact Hin'.
        -- intros e He. discriminate.
      * intros Hrej.
        destruct (Hrej (Call "GetAiCfg" (VObj [("channel", VNum channel)]) (Some 1)))
          as [e He]. congruence.
    + intros Heq. injection Heq as <- <- <-.
      split; [constructor|].
      split; [exists (fun _ => false); reflexivity|]. split; [exact Hev|].
      split; [intros [t Ht]; exfalso; apply Hnone; exists t; apply Hflag; exact Ht|].
      split.
      * intros _. split; [reflexivity|]. split.
        -- intros cfg' H. discriminate.
        -- intros e' _. reflexivity.
      * intros Hrej Hab. split; [reflexivity|].
        unfold getChannelAbility in Ea. rewrite Hab in Ea.
        destruct (Hrej (Call "GetAbility" (VObj []) None)) as [e' He']. rewrite He' in Ea.
        injection Ea as <- _ _. reflexivity.
  - assert (Hsome : exists t, keep t = true).
    { destruct supported as [|t l]; [discriminate|].
      exists t. apply Hin. left. reflexivity. }
    intros Heq. injection Heq as <- <- <-.
    split; [exact Hnd|]. split; [exact Hor|]. split; [exact Hev|].
    split.
    + intros _. split; [apply app_nil_r|].
      intros t. rewrite Hin. apply Hflag.
    + split.
      * intros Hno. exfalso. apply Hno. destruct Hsome as [t Ht].
        exists t. apply Hflag. exact Ht.
      * intros Hrej Hab. exfalso.
        unfold getChannelAbility in Ea. rewrite Hab in Ea.
        destruct (Hrej (Call "GetAbility" (VObj []) None)) as [e' He']. rewrite He' in Ea.
        injection Ea as _ <- _.
        destruct Hsome as [t Ht]. destruct t; discriminate.
Qed.

Lemma getSupportedAiTypes_result_witness :
  In vehicle
    (snd (fst (getSupportedAiTypes (replying ability_people_vehicle) 0 emptyCaches)))
  /\ ~ In face
        (snd (fst (getSupportedAiTypes (replying ability_people_vehicle) 0
                     emptyCaches))).
Proof.
  destruct (getSupportedAiTypes_result (replying ability_people_vehicle) 0
              emptyCaches
              (snd (getSupportedAiTypes (replying ability_people_vehicle) 0 emptyCaches))
              (fst (fst (getSupportedAiTypes (replying ability_people_vehicle) 0
                           emptyCaches)))
              (snd (fst (getSupportedAiTypes (replying ability_people_vehicle) 0
                           emptyCaches)))
              eq_refl eq_refl)
    as [_ [_ [_ [H _]]]].
  assert (Hex : exists t,
             on (coalesce
                   (get (VObj [("channel", VNum 0); ("people", VNum 1);
                               ("vehicle", VNum 1); ("face", VNum 0)]) (aiName t))
                   (coalesce
                      (get (VObj [("channel", VNum 0); ("people", VNum 1);
                                  ("vehicle", VNum 1); ("face", VNum 0)])
                         ("support" +++ aiName t))
                      (get (VObj [("channel", VNum 0); ("people", VNum 1);
                                  ("vehicle", VNum 1); ("face", VNum 0)])
                         ("support" +++ aiUpper t)))))
    by (exists vehicle; left; reflexivity).
  destruct (H Hex) as [_ Hin]. split.
  - apply (proj2 (Hin vehicle)). left. reflexivity.
  - intros Hf. apply (proj1 (Hin face)) in Hf. destruct Hf as [Hf|Hf]; discriminate.
Defined.

(** X23: [getSupportedAiTypes] remembers its answer, also a failed one:
    once it has run for a channel, every later call for that channel
    returns the same list without any exchange, whatever the device would
    answer then. *)
Theorem ai_types_are_detected_once (client later : Client JS.value) (channel : Z)
    (caches caches' : Caches) (events : list event) (types : list AiType) :
  getSupportedAiTypes client channel caches = (events, types, caches') ->
  getSupportedAiTypes later channel caches' = ([], types, caches').
Proof.
  unfold getSupportedAiTypes at 1.
  destruct (cacheGet channel (aiSupportCache caches)) as [cached|] eqn:Hc.
  - intros [= <- <- <-]. unfold getSupportedAiTypes. rewrite Hc. reflexivity.
  - destruct (getChannelAbility client channel caches) as [[events1 ability] caches1].
    destruct (if Z.of_nat (length (fromAbility ability)) =? 0 then _ else _)
      as [events2 result].
    intros [= <- <- <-]. unfold getSupportedAiTypes.
    cbn [aiSupportCache cacheGet]. rewrite Z.eqb_refl. reflexivity.
Qed.

Lemma ai_types_are_detected_once_witness :
  getSupportedAiTypes (replying ability_people_vehicle) 0
    (mkCaches [(0, VObj [])] [(0, [])])
  = ([], [], mkCaches [(0, VObj [])] [(0, [])]).
Proof.
  apply (ai_types_are_detected_once (fun _ => Rejects TypeError)
           (replying ability_people_vehicle) 0 emptyCaches
           (mkCaches [(0, VObj [])] [(0, [])])
           [Exchange GetAbility; Exchange (GetAiCfg 0)] []).
  reflexivity.
Defined.

(** ** presets.ts: listPresets on unusual responses *)

(** X24: [listPresets] answers the empty list, without throwing, when the
    response is no object or array (a number, a string, true), and also
    when the response has an object under [PtzPreset] whose [preset] is
    not an array: the search ends there, so presets stored elsewhere in
    that response are not found, and a single preset object under
    [PtzPreset.preset] is not promoted to a list. *)
Theorem listPresets_empty_results {B : Builtins} (client : Client JS.value)
    (channel : Z) (response : JS.value) :
  answers client channel response ->
  (scalar response -> snd (listPresets client channel) = Ok [])
  /\ (forall inner,
        get response "PtzPreset" = VObj inner ->
        isArray (prop inner "preset") = false ->
        snd (listPresets client channel) = Ok []).
Proof.
  intros Ha. rewrite (listPresets_resolved client channel response Ha). cbn [snd].
  unfold normalizePresets. split.
  - intros Hs.
    assert (Hraw : findRawPresets response = VNull).
    { destruct response as [| |b|n|s|l|o]; try contradiction;
        unfold findRawPresets;
        cbn [get truthy isObjectType typeof jstype_eqb isArray andb negb];
        rewrite ?andb_false_r; reflexivity. }
    rewrite Hraw. destruct (negb (truthy response)); reflexivity.
  - intros inner Hw Hp.
    destruct (negb (truthy response)); [reflexivity|].
    unfold findRawPresets. rewrite Hw.
    cbn [truthy isObjectType typeof jstype_eqb isArray negb andb get].
    unfold rawPresetList.
    destruct (truthy (prop inner "preset")).
    + rewrite Hp. cbn [negb orb]. rewrite orb_true_r. reflexivity.
    + reflexivity.
Qed.

Lemma listPresets_empty_results_witness :
  snd (listPresets (B := IntBuiltins) (replying hybrid_response) 0) = Ok [].
Proof.
  apply (proj2 (listPresets_empty_results (B := IntBuiltins)
                  (replying hybrid_response) 0 hybrid_response eq_refl)
           [("channel", VNum 0)]).
  - reflexivity.
  - reflexivity.
Defined.

(** ** presets.ts: AI zones and moves with zones *)

Lemma setAiZone_sized {T : Type} (client : Client T) (channel : Z) (type : AiType)
    (area : GridArea.t) (r : T) :
  sized area -> client (SetAlarmArea channel type area) = Resolves r ->
  setAiZone client channel type area
  = ([Exchange (SetAlarmArea channel type area)], Ok tt).
Proof.
  unfold sized, setAiZone, SetAlarmArea, send. intros Hs Hr.
  assert (E : existsb (AiType_eqb type) SUPPORTED_AI_TYPES = true)
    by (destruct type; reflexivity).
  rewrite E. cbn [negb].
  destruct (Z.eqb_spec (strlen (GridArea.bits area))
              (GridArea.width area * GridArea.height area)); [|contradiction].
  cbn [negb]. rewrite Hr. reflexivity.
Qed.

Lemma setAiZone_unsized {T : Type} (client : Client T) (channel : Z) (type : AiType)
    (area : GridArea.t) :
  ~ sized area ->
  setAiZone client channel type area
  = ([], Throw (Error "Invalid AI zone bitstring length")).
Proof.
  unfold sized, setAiZone. intros Hs.
  assert (E : existsb (AiType_eqb type) SUPPORTED_AI_TYPES = true)
    by (destruct type; reflexivity).
  rewrite E. cbn [negb].
  destruct (Z.eqb_spec (strlen (GridArea.bits area))
              (GridArea.width area * GridArea.height area)); [contradiction|].
  reflexivity.
Qed.

(** X25: the AI zones of a preset are written one request each, in the
    order of the entries; entries without an area are skipped.  Against a
    device that accepts every request, the loop stops at the first area
    whose bit string has not width * height characters: the zones before
    it have been written, nothing after it is, and the call throws.  No
    AI type is ever refused: an area is judged by its size alone. *)
Theorem ai_zones_are_written_in_order (client : Client JS.value) (channel : Z)
    (before after : list (AiType * option GridArea.t)) :
  (forall c, exists r, client c = Resolves r) ->
  Forall (fun entry => sized (snd entry)) (givenAreas before) ->
  let written :=
    map (fun entry => Exchange (SetAlarmArea channel (fst entry) (snd entry))) in
  applyAiZones client channel before = (written (givenAreas before), Ok tt)
  /\ (forall type area,
        ~ sized area ->
        applyAiZones client channel (before ++ (type, Some area) :: after)
        = (written (givenAreas before),
           Throw (Error "Invalid AI zone bitstring length"))).
Proof.
  intros Hc Hv written. subst written.
  induction before as [|[type [area|]] before IH]; cbn [givenAreas] in *.
  - split; [reflexivity|]. intros type area Hbad. cbn [app applyAiZones].
    rewrite (setAiZone_unsized client channel type area Hbad). reflexivity.
  - inversion Hv as [|x l Hx Hl]; subst. cbn [snd] in Hx.
    destruct (IH Hl) as [IH1 IH2].
    destruct (Hc (SetAlarmArea channel type area)) as [r Hr].
    split.
    + cbn [applyAiZones]. rewrite (setAiZone_sized client channel type area r Hx Hr).
      unfold andThen. rewrite IH1. reflexivity.
    + intros type' area' Hbad. cbn [app applyAiZones].
      rewrite (setAiZone_sized client channel type area r Hx Hr).
      unfold andThen. rewrite (IH2 type' area' Hbad). reflexivity.
  - destruct (IH Hv) as [IH1 IH2]. split.
    + cbn [applyAiZones]. exact IH1.
    + intros type' area' Hbad. cbn [app applyAiZones]. apply IH2, Hbad.
Qed.

Lemma ai_zones_are_written_in_order_witness :
  applyAiZones (replying VNull) 0
    [(people, Some (GridArea.mk 0 0 "")); (vehicle, None);
     (face, Some (GridArea.mk 2 2 "1")); (dog_cat, Some (GridArea.mk 1 1 "1"))]
  = ([Exchange (SetAlarmArea 0 people (GridArea.mk 0 0 ""))],
     Throw (Error "Invalid AI zone bitstring length")).
Proof.
  refine (proj2 (ai_zones_are_written_in_order (replying VNull) 0
                   [(people, Some (GridArea.mk 0 0 "")); (vehicle, None)]
                   [(dog_cat, Some (GridArea.mk 1 1 "1"))] _ _)
            face (GridArea.mk 2 2 "1") _).
  - intros c. exists VNull. reflexivity.
  - constructor; [reflexivity|constructor].
  - unfold sized. cbn. lia.
Defined.

(** X26: [gotoPresetWithZones] touches the zones only after a successful
    move.  With a preset id outside 0..64 nothing is exchanged and the
    zones provider is not consulted; when the device rejects the move the
    call ends with that rejection after the one exchange.  After a
    successful move (and its settle delay) the zones the provider yields
    are applied, and a provider that yields nothing leaves the call equal
    to [gotoPreset]. *)
Theorem zones_follow_a_successful_move (client : Client JS.value)
    (channel presetId : Z) (zonesProvider : Z -> result (option PresetZones.t))
    (opts : PtzMoveOptions.t) :
  (~ 0 <= presetId <= 64 ->
   fst (gotoPresetWithZones client channel presetId zonesProvider opts) = [])
  /\ (forall e,
        snd (gotoPreset client channel presetId opts) = Throw e ->
        gotoPresetWithZones client channel presetId zonesProvider opts
        = gotoPreset client channel presetId opts)
  /\ (zonesProvider presetId = Ok None ->
      gotoPresetWithZones client channel presetId zonesProvider opts
      = gotoPreset client channel presetId opts)
  /\ (forall zones,
        snd (gotoPreset client channel presetId opts) = Ok tt ->
        zonesProvider presetId = Ok (Some zones) ->
        gotoPresetWithZones client channel presetId zonesProvider opts
        = (fst (gotoPreset client channel presetId opts)
           ++ fst (applyZonesForPreset client channel presetId zones),
           snd (applyZonesForPreset client channel presetId zones))).
Proof.
  unfold gotoPresetWithZones. split; [|split; [|split]].
  - intros Hid. unfold gotoPreset.
    replace ((presetId <? 0) || (presetId >? 64)) with true; [reflexivity|].
    symmetry. apply orb_true_iff.
    destruct (Z.ltb_spec presetId 0) as [|H0]; [left; reflexivity|].
    right. rewrite Z.gtb_ltb. apply Z.ltb_lt. lia.
  - intros e He. destruct (gotoPreset client channel presetId opts) as [events [[]|e']];
      cbn [snd] in He; [discriminate|reflexivity].
  - intros Hz. rewrite Hz.
    destruct (gotoPreset client channel presetId opts) as [events [[]|e']];
      cbn [andThen fst snd]; [rewrite app_nil_r|]; reflexivity.
  - intros zones Hok Hz. rewrite Hz.
    destruct (gotoPreset client channel presetId opts) as [events [[]|e']];
      cbn [snd] in Hok; [reflexivity|discriminate].
Qed.

Lemma zones_follow_a_successful_move_witness :
  fst (gotoPresetWithZones (replying VNull) 0 65
         (fun _ => Ok (Some (PresetZones.mk None None (Some []))))
         (PtzMoveOptions.mk None None))
  = [].
Proof.
  apply (proj1 (zones_follow_a_successful_move (replying VNull) 0 65
                  (fun _ => Ok (Some (PresetZones.mk None None (Some []))))
                  (PtzMoveOptions.mk None None))).
  lia.
Defined.
